(** * searchmind: the retrieval store, the search pipeline and the uploads

    A shallow embedding of

      - [backend/app/core/vector_store.py]       ([VectorStore])
      - [backend/app/core/reranker.py]           ([Reranker])
      - [backend/app/core/chunker.py]            ([Chunker])
      - [backend/app/core/embedder.py]           ([Embedder])
      - [backend/app/services/search_service.py] ([SearchService])
      - [backend/app/services/resource_service.py] ([ResourceService])
      - [backend/app/services/upload_service.py] ([UploadService])
      - [backend/app/api/routes/resources.py]    ([Routes])

    Conventions.  Python dicts with string keys are [gmap string pyval];
    Python ints are [Z]; Python floats (similarity and relevance scores) are
    idealised as rationals [Q]; a [str] is the bytes of its UTF-8 encoding;
    a raised exception is the [Raise] branch of [outcome].  What the code
    obtains from libraries and from the collaborators handed to it (the L2
    normalisation and the inner product of FAISS, the embedding model and
    the cross-encoder, the Unicode-aware string methods, the text splitter,
    [pathlib], the document processor) are the fields of the class
    [Kernels]: the code treats them as opaque.  The identifiers and the
    clock an upload draws are arguments of [process_upload]. *)

From Stdlib Require Import ZArith QArith Qminmax Lia Lqa List Bool Ascii String.
From Stdlib Require Import Sorting.Sorted Sorting.Permutation.
From stdpp Require Import base option gmap strings list.

Local Open Scope string_scope.
Local Open Scope list_scope.
Local Open Scope Z_scope.

(* ===================================================================== *)
(** ** Python values, exceptions, sequences                               *)
(* ===================================================================== *)

Module Py.

(** The values that occur in chunk metadata and in filter dicts. *)
Inductive pyval : Type :=
  | PNone
  | PBool (b : bool)
  | PInt (z : Z)
  | PStr (s : string).

(** [bool(v)]. *)
Definition truthy (v : pyval) : bool :=
  match v with
  | PNone => false
  | PBool b => b
  | PInt z => negb (z =? 0)
  | PStr s => negb (String.eqb s "")
  end.

(** [a == b]; a bool is an int in Python, so [True == 1]. *)
Definition int_of_bool (b : bool) : Z := if b then 1 else 0.

Definition py_eq (a b : pyval) : bool :=
  match a, b with
  | PNone, PNone => true
  | PBool x, PBool y => Bool.eqb x y
  | PInt x, PInt y => x =? y
  | PBool x, PInt y => int_of_bool x =? y
  | PInt x, PBool y => x =? int_of_bool y
  | PStr x, PStr y => String.eqb x y
  | _, _ => false
  end.

(** [d.get(k, dflt)]; [d.get(k)] is [dict_get d k PNone]. *)
Definition dict_get (d : gmap string pyval) (k : string) (dflt : pyval) : pyval :=
  default dflt (d !! k).

Inductive exn : Type :=
  | KeyError (k : string)
  | AttributeError
  | ValueError (msg : string)
  | AssertionError
  | IndexError
  | FileNotFoundError
  | PermissionError.

Inductive outcome (A : Type) : Type :=
  | Ok (a : A)
  | Raise (e : exn).
Arguments Ok {A} a.
Arguments Raise {A} e.

Definition bind {A B : Type} (c : outcome A) (f : A -> outcome B) : outcome B :=
  match c with
  | Ok a => f a
  | Raise e => Raise e
  end.

Notation "'do' x <- c 'in' k" := (bind c (fun x => k))
  (at level 10, x name, c at level 100, k at level 200).

(** [d[k]]. *)
Definition dict_item (d : gmap string pyval) (k : string) : outcome pyval :=
  match d !! k with
  | Some v => Ok v
  | None => Raise (KeyError k)
  end.

(** A method of [str] looked up on a value: [AttributeError] on the others. *)
Definition as_str (v : pyval) : outcome string :=
  match v with
  | PStr s => Ok s
  | _ => Raise AttributeError
  end.

(** [l[start:stop]] for int bounds. *)
Definition clamp_index (len i : Z) : Z :=
  if i <? 0 then Z.max 0 (i + len) else Z.min i len.

Definition slice {A : Type} (l : list A) (start stop : Z) : list A :=
  let len := Z.of_nat (length l) in
  let lo := clamp_index len start in
  let hi := clamp_index len stop in
  take (Z.to_nat (hi - lo)) (drop (Z.to_nat lo) l).

(** [l[i]] with Python's negative indices. *)
Definition item {A : Type} (l : list A) (i : Z) : outcome A :=
  let len := Z.of_nat (length l) in
  let j := if i <? 0 then i + len else i in
  if (0 <=? j) && (j <? len)
  then match l !! Z.to_nat j with
       | Some x => Ok x
       | None => Raise IndexError
       end
  else Raise IndexError.

(** [sorted(l, key=key, reverse=True)]: descending and stable, elements with
    equal keys keep their order. *)
Definition Qlt_bool (a b : Q) : bool := negb (Qle_bool b a).

Fixpoint insert_desc {A : Type} (key : A -> Q) (x : A) (l : list A) : list A :=
  match l with
  | [] => [x]
  | y :: ys =>
      if Qlt_bool (key x) (key y) then y :: insert_desc key x ys
      else x :: y :: ys
  end.

Fixpoint sorted_desc {A : Type} (key : A -> Q) (l : list A) : list A :=
  match l with
  | [] => []
  | x :: xs => insert_desc key x (sorted_desc key xs)
  end.

(** A [str] is held as the bytes of its UTF-8 encoding.  Equality, the
    order of two texts, [sub in s] and [s.split(sep)] at an ASCII
    separator are the same on the encodings as on the texts: a byte below
    128 is one ASCII character and is part of no other, and an encoded
    character never begins inside another.  Methods that consult the
    Unicode tables ([s.lower()], [s.strip()]) are not computed here: they
    are capabilities of [Kernels], below; [s.lower()] is pinned down on
    ASCII text by what follows. *)

(** Every character of [s] is below U+0080. *)
Fixpoint is_ascii (s : string) : bool :=
  match s with
  | EmptyString => true
  | String c s' => (nat_of_ascii c <? 128)%nat && is_ascii s'
  end.

(** What [s.lower()] is for ASCII text: A-Z become a-z, the rest stays. *)
Definition ascii_lower_char (c : ascii) : ascii :=
  let n := nat_of_ascii c in
  if (65 <=? n)%nat && (n <=? 90)%nat then ascii_of_nat (n + 32) else c.

Fixpoint ascii_lower (s : string) : string :=
  match s with
  | EmptyString => EmptyString
  | String c s' => String (ascii_lower_char c) (ascii_lower s')
  end.

(** [s.split(sep)] for a one-character separator: never empty. *)
Fixpoint split (sep : ascii) (s : string) : list string :=
  match s with
  | EmptyString => [EmptyString]
  | String c s' =>
      if Ascii.eqb c sep then EmptyString :: split sep s'
      else match split sep s' with
           | [] => [String c EmptyString]
           | w :: ws => String c w :: ws
           end
  end.

(** [sub in s]. *)
Fixpoint contains (sub s : string) : bool :=
  String.prefix sub s ||
  match s with
  | EmptyString => false
  | String _ s' => contains sub s'
  end.

End Py.
Export Py.

(* ===================================================================== *)
(** ** models/schemas.py: the records of the upload pipeline              *)
(* ===================================================================== *)

Module PageContent.
Record t : Type := {
  text : string;
  page_num : Z
}.
End PageContent.

Module Chunk.
Record t : Type := {
  text : string;
  page : Z;
  resource_id : string;
  file_name : string
}.
End Chunk.

Module UploadResponse.
Record t : Type := {
  resource_id : string;
  filename : string;
  num_chunks : Z;
  status : string
}.
End UploadResponse.

(* ===================================================================== *)
(** ** The external capabilities                                          *)
(* ===================================================================== *)

(** What the code obtains from FAISS/numpy, from the two models and from
    Python's Unicode tables.  A vector is one row of a float32 array;
    [normalize_row] scales a row to unit L2 norm; [encode] is the sentence
    embedding of a text; [cross_encoder query text] is the relevance logit
    of one pair; [str_lower s] is [s.lower()], which on ASCII text changes
    the letters A-Z and nothing else.

    For the upload pipeline: [str_strip s] is [s.strip()]; [split_text] is
    the text splitter the chunker is built with; [path_suffix name] is
    [Path(name).suffix]; [process_document path content] is what the
    document processor handed to the upload service returns for the file
    at [path] holding [content], the pages or the exception it raises;
    [format_1f x] is the text of the float [x] under the format [.1f]. *)
Class Kernels : Type := {
  vec : Type;
  normalize_row : vec -> vec;
  inner_product : vec -> vec -> Q;
  encode_dim : Z;
  encode : string -> vec;
  cross_encoder : string -> pyval -> Q;
  str_lower : string -> string;
  str_lower_ascii :
    forall s, is_ascii s = true -> str_lower s = ascii_lower s;
  str_strip : string -> string;
  split_text : string -> list string;
  path_suffix : string -> string;
  process_document : string -> string -> outcome (list PageContent.t);
  format_1f : Q -> string
}.

(* ===================================================================== *)
(** ** faiss.IndexFlatIP                                                  *)
(* ===================================================================== *)

Module Faiss.
Section Faiss.
Context `{Kernels}.

(** A two-dimensional array of shape [(length rows, ncols)]. *)
Record ndarray : Type := { ncols : Z; rows : list vec }.

Record IndexFlatIP : Type := { d : Z; xb : list vec }.

Definition ntotal (ix : IndexFlatIP) : Z := Z.of_nat (length (xb ix)).

(** [faiss.normalize_L2(x)]: every row, in place. *)
Definition normalize_L2 (x : ndarray) : ndarray :=
  {| ncols := ncols x; rows := map normalize_row (rows x) |}.

(** [index.add(x)]. *)
Definition add (ix : IndexFlatIP) (x : ndarray) : outcome IndexFlatIP :=
  if ncols x =? d ix
  then Ok {| d := d ix; xb := xb ix ++ rows x |}
  else Raise AssertionError.

(** The label and distance FAISS reports in a slot it could not fill. *)
Definition no_result : Z * Q :=
  (-1, inject_Z (-340282346638528859811704183484516925440)).

(** One query row: the [k] largest inner products, largest first, each
    with the position of its vector. *)
Definition search_row (ix : IndexFlatIP) (q : vec) (k : Z) : list (Z * Q) :=
  let scored := imap (fun i x => (Z.of_nat i, inner_product q x)) (xb ix) in
  take (Z.to_nat k) (sorted_desc snd scored)
    ++ replicate (Z.to_nat k - length (xb ix))%nat no_result.

(** [index.search(x, k)], the two result arrays zipped row by row. *)
Definition search (ix : IndexFlatIP) (x : ndarray) (k : Z)
  : outcome (list (list (Z * Q))) :=
  if negb (ncols x =? d ix) then Raise AssertionError
  else if negb (0 <? k) then Raise AssertionError
  else Ok (map (fun q => search_row ix q k) (rows x)).
End Faiss.
End Faiss.

(* ===================================================================== *)
(** ** core/vector_store.py                                               *)
(* ===================================================================== *)

Module VectorStore.
Section VectorStore.
Context `{Kernels}.

Record t : Type := {
  dimension : Z;
  index : Faiss.IndexFlatIP;
  metadata_store : list (gmap string pyval)
}.

(** The two files under [index_path]. *)
Record index_dir : Type := {
  index_faiss : option Faiss.IndexFlatIP;
  metadata_pkl : option (list (gmap string pyval))
}.

Definition no_files : index_dir :=
  {| index_faiss := None; metadata_pkl := None |}.

Definition add_documents (embeddings : Faiss.ndarray)
    (metadatas : list (gmap string pyval)) (self : t) : outcome t :=
  if negb (Z.of_nat (length (Faiss.rows embeddings))
           =? Z.of_nat (length metadatas))
  then Raise (ValueError
                "Number of embeddings must match number of metadata entries")
  else
    do ix <- Faiss.add (index self) (Faiss.normalize_L2 embeddings) in
    Ok {| dimension := dimension self;
          index := ix;
          metadata_store := metadata_store self ++ metadatas |}.

Definition is_deleted (metadata : gmap string pyval) : bool :=
  truthy (dict_get metadata "deleted" (PBool false)).

(** The loop of [search] over [zip(indices[0], scores[0])]. *)
Fixpoint combine_with_metadata (store : list (gmap string pyval))
    (hits : list (Z * Q)) : outcome (list (gmap string pyval * Q)) :=
  match hits with
  | [] => Ok []
  | (idx, score) :: rest =>
      if idx <? Z.of_nat (length store) then
        do metadata <- item store idx in
        do results <- combine_with_metadata store rest in
        Ok (if negb (is_deleted metadata)
            then (metadata, score) :: results else results)
      else combine_with_metadata store rest
  end.

Definition search (query_embedding : Faiss.ndarray) (k : Z) (self : t)
  : outcome (list (gmap string pyval * Q)) :=
  if Faiss.ntotal (index self) =? 0 then Ok []
  else
    let query_embedding := Faiss.normalize_L2 query_embedding in
    let k := Z.min k (Faiss.ntotal (index self)) in
    do found <- Faiss.search (index self) query_embedding k in
    do hits <- item found 0 in
    combine_with_metadata (metadata_store self) hits.

Definition save (self : t) (dir : index_dir) : index_dir :=
  {| index_faiss := Some (index self);
     metadata_pkl := Some (metadata_store self) |}.

Definition load (self : t) (dir : index_dir) : outcome t :=
  match index_faiss dir, metadata_pkl dir with
  | Some ix, Some metas =>
      Ok {| dimension := dimension self; index := ix;
            metadata_store := metas |}
  | _, _ => Raise FileNotFoundError
  end.

(** [__init__], with [_load_if_exists]. *)
Definition init (dimension : Z) (dir : index_dir) : outcome t :=
  let fresh := {| dimension := dimension;
                  index := {| Faiss.d := dimension; Faiss.xb := [] |};
                  metadata_store := [] |} in
  match load fresh dir with
  | Raise FileNotFoundError => Ok fresh
  | r => r
  end.

Definition get_total_documents (self : t) : Z := Faiss.ntotal (index self).

(** One entry of the list [get_all_resources] returns. *)
Record resource_summary : Type := {
  rs_resource_id : pyval;
  rs_filename : pyval;
  rs_num_chunks : Z;
  rs_uploaded_at : pyval
}.

(** [resource_map], a dict in insertion order, keyed with [==]. *)
Definition has_key (k : pyval) (m : list (pyval * resource_summary)) : bool :=
  existsb (fun e => py_eq e.1 k) m.

Definition add_chunk (r : resource_summary) : resource_summary :=
  {| rs_resource_id := rs_resource_id r; rs_filename := rs_filename r;
     rs_num_chunks := rs_num_chunks r + 1;
     rs_uploaded_at := rs_uploaded_at r |}.

(** [resource_map[k]['num_chunks'] += 1]. *)
Fixpoint bump (k : pyval) (m : list (pyval * resource_summary))
  : list (pyval * resource_summary) :=
  match m with
  | [] => []
  | e :: rest =>
      if py_eq e.1 k then (e.1, add_chunk e.2) :: rest
      else e :: bump k rest
  end.

Definition group_step (resource_map : list (pyval * resource_summary))
    (metadata : gmap string pyval) : list (pyval * resource_summary) :=
  if is_deleted metadata then resource_map
  else
    let resource_id := dict_get metadata "resource_id" PNone in
    if negb (truthy resource_id) then resource_map
    else
      let resource_map :=
        if negb (has_key resource_id resource_map)
        then resource_map ++
               [(resource_id,
                 {| rs_resource_id := resource_id;
                    rs_filename := dict_get metadata "file_name" (PStr "unknown");
                    rs_num_chunks := 0;
                    rs_uploaded_at := dict_get metadata "uploaded_at" (PStr "") |})]
        else resource_map in
      bump resource_id resource_map.

Definition get_all_resources (self : t) : list resource_summary :=
  map snd (fold_left group_step (metadata_store self) []).

(** The loop of [delete_resource]: the count so far and the entries
    already visited, each left in its place. *)
Definition matches (resource_id : string) (metadata : gmap string pyval) : bool :=
  py_eq (dict_get metadata "resource_id" PNone) (PStr resource_id)
  && negb (is_deleted metadata).

Definition mark_step (resource_id : string)
    (acc : Z * list (gmap string pyval)) (metadata : gmap string pyval)
  : Z * list (gmap string pyval) :=
  if matches resource_id metadata
  then (acc.1 + 1, acc.2 ++ [<["deleted" := PBool true]> metadata])
  else (acc.1, acc.2 ++ [metadata]).

Definition delete_resource (resource_id : string) (self : t) (dir : index_dir)
  : Z * t * index_dir :=
  let '(deleted_count, metas) :=
    fold_left (mark_step resource_id) (metadata_store self) (0, []) in
  let self := {| dimension := dimension self; index := index self;
                 metadata_store := metas |} in
  let dir := if 0 <? deleted_count then save self dir else dir in
  (deleted_count, self, dir).
(** One entry of the list [get_chunks_by_resource] returns. *)
Record chunk_data : Type := {
  cd_chunk_id : pyval;
  cd_text : pyval;
  cd_page_number : pyval
}.

Definition chunk_data_of (metadata : gmap string pyval) : chunk_data :=
  {| cd_chunk_id := dict_get metadata "chunk_id" (PStr "");
     cd_text := dict_get metadata "text" (PStr "");
     cd_page_number := dict_get metadata "page_number" (PInt 0) |}.

Definition chunks_step (resource_id : string) (chunks : list chunk_data)
    (metadata : gmap string pyval) : list chunk_data :=
  if is_deleted metadata then chunks
  else if py_eq (dict_get metadata "resource_id" PNone) (PStr resource_id)
  then chunks ++ [chunk_data_of metadata]
  else chunks.

Definition get_chunks_by_resource (resource_id : string) (self : t)
  : list chunk_data :=
  fold_left (chunks_step resource_id) (metadata_store self) [].
End VectorStore.
End VectorStore.

(* ===================================================================== *)
(** ** core/reranker.py                                                   *)
(* ===================================================================== *)

Module Reranker.
Section Reranker.
Context `{Kernels}.

(** The dict [search] builds for one candidate ... *)
Record document : Type := {
  text : pyval;
  metadata : gmap string pyval;
  vector_score : Q
}.

(** ... and the same dict once [rerank] has set its ["rerank_score"]. *)
Record ranked : Type := {
  doc : document;
  rerank_score : Q
}.

(** [self.model.predict(pairs)]: one logit per pair. *)
Definition predict (pairs : list (string * pyval)) : list Q :=
  map (fun p => cross_encoder p.1 p.2) pairs.

(** [scores.min()] and [scores.max()] of a non-empty array. *)
Definition array_min (scores : list Q) : Q :=
  match scores with
  | [] => 0%Q
  | s :: rest => fold_left Qmin rest s
  end.

Definition array_max (scores : list Q) : Q :=
  match scores with
  | [] => 0%Q
  | s :: rest => fold_left Qmax rest s
  end.

Definition normalized (n : nat) (min_score score_range score : Q) : Q :=
  if Qlt_bool 0 score_range
  then ((score - min_score) / score_range)%Q
  else if (n =? 1)%nat then 1%Q else (1 # 2)%Q.

Definition rerank (query : string) (documents : list document) (top_k : Z)
  : list ranked :=
  match documents with
  | [] => []
  | _ =>
      let pairs := map (fun doc => (query, text doc)) documents in
      let scores := predict pairs in
      let min_score := array_min scores in
      let max_score := array_max scores in
      let score_range := (max_score - min_score)%Q in
      let documents' :=
        map (fun ds => {| doc := ds.1;
                          rerank_score :=
                            normalized (length documents) min_score
                                       score_range ds.2 |})
            (zip documents scores) in
      let reranked := sorted_desc rerank_score documents' in
      slice reranked 0 top_k
  end.
End Reranker.
End Reranker.

(* ===================================================================== *)
(** ** services/search_service.py                                         *)
(* ===================================================================== *)

Module SearchService.
Section SearchService.
Context `{Kernels}.

(** models/schemas.py.  The models are validated on construction: a value
    of another type in a [str] or [int] field is rejected with [ValueError]
    (the coercions pydantic applies to some such values are not modelled). *)
Record ResultMetadata : Type := {
  file_name : string;
  page_number : Z;
  resource_id : string;
  chunk_id : string
}.

Record SearchResult : Type := {
  text : string;
  metadata : ResultMetadata;
  rerank_score : Q;
  vector_score : Q
}.

Record SearchResponse : Type := {
  query : string;
  results : list SearchResult;
  total_found : Z;
  search_time_ms : Q;
  has_more : bool;
  offset : Z;
  limit : Z
}.

Definition valid_str (v : pyval) : outcome string :=
  match v with
  | PStr s => Ok s
  | _ => Raise (ValueError "Input should be a valid string")
  end.

Definition valid_int (v : pyval) : outcome Z :=
  match v with
  | PInt z => Ok z
  | PBool b => Ok (int_of_bool b)
  | _ => Raise (ValueError "Input should be a valid integer")
  end.

(** core/embedder.py: [embed_query(query) = embed_texts([query])]. *)
Definition embed_query (query : string) : Faiss.ndarray :=
  {| Faiss.ncols := encode_dim; Faiss.rows := [encode query] |}.

(** [metadata["file_name"].split(".")[-1].lower()]. *)
Definition ext_of (name : string) : string :=
  str_lower (default "" (last (split "." name))).

(** The two guards of the loop of [_apply_filters]: [Ok false] is
    [continue]. *)
Definition passes_type (filters metadata : gmap string pyval) : outcome bool :=
  if bool_decide (is_Some (filters !! "type")) then
    do v <- dict_item metadata "file_name" in
    do name <- as_str v in
    let ext := ext_of name in
    do f <- dict_item filters "type" in
    do wanted <- as_str f in
    Ok (String.eqb ext (str_lower wanted))
  else Ok true.

Definition passes_file_name (filters metadata : gmap string pyval)
  : outcome bool :=
  if bool_decide (is_Some (filters !! "file_name")) then
    do f <- dict_item filters "file_name" in
    do wanted <- as_str f in
    do v <- dict_item metadata "file_name" in
    do name <- as_str v in
    Ok (contains (str_lower wanted) (str_lower name))
  else Ok true.

Definition passes (filters metadata : gmap string pyval) : outcome bool :=
  do by_type <- passes_type filters metadata in
  if by_type then passes_file_name filters metadata else Ok false.

Fixpoint _apply_filters (results : list (gmap string pyval * Q))
    (filters : gmap string pyval) : outcome (list (gmap string pyval * Q)) :=
  match results with
  | [] => Ok []
  | (metadata, score) :: rest =>
      do keep <- passes filters metadata in
      do filtered <- _apply_filters rest filters in
      Ok (if keep then (metadata, score) :: filtered else filtered)
  end.

(** [if filters:] on an [Optional[Dict]]. *)
Definition filters_given (filters : option (gmap string pyval)) : bool :=
  match filters with
  | Some f => negb (bool_decide (f = ∅))
  | None => false
  end.

Definition candidates_needed (offset limit : Z) : Z :=
  Z.max 50 (offset + limit + 10).

(** Stage 1 and the filter: [initial_results] as the empty test sees it. *)
Definition candidates (query : string) (filters : option (gmap string pyval))
    (offset limit : Z) (store : VectorStore.t)
  : outcome (list (gmap string pyval * Q)) :=
  let query_embedding := embed_query query in
  do initial_results <-
    VectorStore.search query_embedding (candidates_needed offset limit) store in
  if filters_given filters
  then _apply_filters initial_results (default ∅ filters)
  else Ok initial_results.

Fixpoint build_documents (initial_results : list (gmap string pyval * Q))
  : outcome (list Reranker.document) :=
  match initial_results with
  | [] => Ok []
  | (metadata, vector_score) :: rest =>
      do text <- dict_item metadata "text" in
      do documents <- build_documents rest in
      Ok ({| Reranker.text := text; Reranker.metadata := metadata;
             Reranker.vector_score := vector_score |} :: documents)
  end.

(** Stage 2: [reranked]. *)
Definition rerank_top_k (documents : list Reranker.document)
    (offset limit : Z) : Z :=
  Z.min (Z.of_nat (length documents)) (offset + limit + 10).

Definition rerank_stage (query : string) (offset limit : Z)
    (initial_results : list (gmap string pyval * Q))
  : outcome (list Reranker.ranked) :=
  do documents <- build_documents initial_results in
  Ok (Reranker.rerank query documents (rerank_top_k documents offset limit)).

Definition format_result (r : Reranker.ranked) : outcome SearchResult :=
  let d := Reranker.doc r in
  do fn <- dict_item (Reranker.metadata d) "file_name" in
  do pn <- dict_item (Reranker.metadata d) "page_number" in
  do rid <- dict_item (Reranker.metadata d) "resource_id" in
  do cid <- dict_item (Reranker.metadata d) "chunk_id" in
  do fn <- valid_str fn in
  do pn <- valid_int pn in
  do rid <- valid_str rid in
  do cid <- valid_str cid in
  do text <- valid_str (Reranker.text d) in
  Ok {| text := text;
        metadata := {| file_name := fn; page_number := pn;
                       resource_id := rid; chunk_id := cid |};
        rerank_score := Reranker.rerank_score r;
        vector_score := Reranker.vector_score d |}.

Fixpoint format_results (paginated : list Reranker.ranked)
  : outcome (list SearchResult) :=
  match paginated with
  | [] => Ok []
  | r :: rest =>
      do x <- format_result r in
      do xs <- format_results rest in
      Ok (x :: xs)
  end.

(** [search]; [clock] holds the two readings of [time()]. *)
Definition search (query : string) (filters : option (gmap string pyval))
    (top_k offset limit : Z) (clock : Q * Q) (store : VectorStore.t)
  : outcome SearchResponse :=
  let start_time := clock.1 in
  do initial_results <- candidates query filters offset limit store in
  match initial_results with
  | [] =>
      Ok {| query := query; results := []; total_found := 0;
            search_time_ms := ((clock.2 - start_time) * 1000)%Q;
            has_more := false; offset := offset; limit := limit |}
  | _ =>
      do reranked <- rerank_stage query offset limit initial_results in
      let end_idx := offset + limit in
      let paginated_results := slice reranked offset end_idx in
      let has_more := end_idx <? Z.of_nat (length reranked) in
      do search_results <- format_results paginated_results in
      let search_time_ms := ((clock.2 - start_time) * 1000)%Q in
      Ok {| query := query; results := search_results;
            total_found := Z.of_nat (length reranked);
            search_time_ms := search_time_ms;
            has_more := has_more; offset := offset; limit := limit |}
  end.
End SearchService.
End SearchService.

(* ===================================================================== *)
(** ** services/resource_service.py                                       *)
(* ===================================================================== *)

Module ResourceService.
Section ResourceService.
Context `{Kernels}.

(** What [delete_resource] reads and writes: the store, the two index
    files, and the upload directory.  A file of the upload directory maps
    to [true] when the process may unlink it, to [false] when [unlink]
    fails on it. *)
Record world : Type := {
  vector_store : VectorStore.t;
  index_files : VectorStore.index_dir;
  uploads : gmap string bool
}.

(** The loop over [['.pdf', '.docx']], with its [break]. *)
Fixpoint unlink_first (names : list string) (dir : gmap string bool)
  : outcome (gmap string bool) :=
  match names with
  | [] => Ok dir
  | file_path :: rest =>
      match dir !! file_path with
      | None => unlink_first rest dir
      | Some true => Ok (delete file_path dir)
      | Some false => Raise PermissionError
      end
  end.

Definition delete_resource (resource_id : string) (w : world)
  : outcome Z * world :=
  let '(deleted_count, store, files) :=
    VectorStore.delete_resource resource_id (vector_store w) (index_files w) in
  if deleted_count =? 0 then
    (Raise (ValueError ("Resource not found: " +:+ resource_id)),
     {| vector_store := store; index_files := files; uploads := uploads w |})
  else
    match unlink_first [resource_id +:+ ".pdf"; resource_id +:+ ".docx"]
                       (uploads w) with
    | Ok dir =>
        (Ok deleted_count,
         {| vector_store := store; index_files := files; uploads := dir |})
    | Raise e =>
        (Raise e,
         {| vector_store := store; index_files := files;
            uploads := uploads w |})
    end.
(** models/schemas.py *)
Record Resource : Type := {
  resource_id : string;
  filename : string;
  num_chunks : Z;
  uploaded_at : string
}.

Record ChunkDetail : Type := {
  chunk_id : string;
  text : string;
  page_number : Z
}.

Definition to_resource (r : VectorStore.resource_summary) : outcome Resource :=
  do rid <- SearchService.valid_str (VectorStore.rs_resource_id r) in
  do fn <- SearchService.valid_str (VectorStore.rs_filename r) in
  do up <- SearchService.valid_str (VectorStore.rs_uploaded_at r) in
  Ok {| resource_id := rid; filename := fn;
        num_chunks := VectorStore.rs_num_chunks r; uploaded_at := up |}.

Fixpoint to_resources (resources_data : list VectorStore.resource_summary)
  : outcome (list Resource) :=
  match resources_data with
  | [] => Ok []
  | r :: rest =>
      do x <- to_resource r in
      do xs <- to_resources rest in
      Ok (x :: xs)
  end.

Definition get_all_resources (store : VectorStore.t) : outcome (list Resource) :=
  to_resources (VectorStore.get_all_resources store).

Definition to_chunk_detail (c : VectorStore.chunk_data) : outcome ChunkDetail :=
  do cid <- SearchService.valid_str (VectorStore.cd_chunk_id c) in
  do txt <- SearchService.valid_str (VectorStore.cd_text c) in
  do pn <- SearchService.valid_int (VectorStore.cd_page_number c) in
  Ok {| chunk_id := cid; text := txt; page_number := pn |}.

Fixpoint to_chunk_details (chunks_data : list VectorStore.chunk_data)
  : outcome (list ChunkDetail) :=
  match chunks_data with
  | [] => Ok []
  | c :: rest =>
      do x <- to_chunk_detail c in
      do xs <- to_chunk_details rest in
      Ok (x :: xs)
  end.

Definition get_resource_chunks (resource_id : string) (store : VectorStore.t)
  : outcome (list ChunkDetail) :=
  match VectorStore.get_chunks_by_resource resource_id store with
  | [] => Raise (ValueError ("Resource not found: " +:+ resource_id))
  | chunks_data => to_chunk_details chunks_data
  end.
End ResourceService.
End ResourceService.

(* ===================================================================== *)
(** ** api/routes/resources.py                                            *)
(* ===================================================================== *)

Module Routes.

(** The [detail] of an [HTTPException]: a literal, or [str(e)]. *)
Inductive detail : Type :=
  | Text (s : string)
  | Str (e : exn).

(** What a handler hands back to the framework. *)
Inductive http (A : Type) : Type :=
  | Respond (a : A)
  | HTTPException (status_code : Z) (d : detail).
Arguments Respond {A} a.
Arguments HTTPException {A} status_code d.

Section Routes.
Context `{Kernels}.

Record PaginatedResourcesResponse : Type := {
  resources : list ResourceService.Resource;
  total : Z;
  offset : Z;
  limit : Z;
  has_more : bool
}.

(** [list_resources]; [resource_service] is [None] until start-up has
    run.  The bounds of [offset] and [limit] are checked by the framework
    before the handler is entered. *)
Definition list_resources (offset limit : Z)
    (resource_service : option ResourceService.world)
  : http PaginatedResourcesResponse :=
  match resource_service with
  | None => HTTPException 503 (Text "Resource service not initialized")
  | Some service =>
      match ResourceService.get_all_resources
              (ResourceService.vector_store service) with
      | Ok all_resources =>
          let total := Z.of_nat (length all_resources) in
          let paginated_resources :=
            slice all_resources offset (offset + limit) in
          let has_more := offset + limit <? total in
          Respond {| resources := paginated_resources; total := total;
                     offset := offset; limit := limit;
                     has_more := has_more |}
      | Raise e => HTTPException 500 (Str e)
      end
  end.

(** [get_resource_chunks]. *)
Definition get_resource_chunks (resource_id : string)
    (resource_service : option ResourceService.world)
  : http (list ResourceService.ChunkDetail) :=
  match resource_service with
  | None => HTTPException 503 (Text "Resource service not initialized")
  | Some service =>
      match ResourceService.get_resource_chunks resource_id
              (ResourceService.vector_store service) with
      | Ok chunks => Respond chunks
      | Raise (ValueError msg) => HTTPException 404 (Str (ValueError msg))
      | Raise e => HTTPException 500 (Str e)
      end
  end.

(** The body of the answer of [delete_resource]. *)
Record DeleteResponse : Type := {
  status : string;
  message : string;
  deleted_id : string;
  chunks_deleted : Z
}.

(** [delete_resource], with the state of the service after it. *)
Definition delete_resource (resource_id : string)
    (resource_service : option ResourceService.world)
  : http DeleteResponse * option ResourceService.world :=
  match resource_service with
  | None =>
      (HTTPException 503 (Text "Resource service not initialized"), None)
  | Some service =>
      let '(result, service) :=
        ResourceService.delete_resource resource_id service in
      (match result with
       | Ok deleted_count =>
           Respond {| status := "success";
                      message := "Resource deleted successfully";
                      deleted_id := resource_id;
                      chunks_deleted := deleted_count |}
       | Raise (ValueError msg) => HTTPException 404 (Str (ValueError msg))
       | Raise e => HTTPException 500 (Str e)
       end,
       Some service)
  end.
End Routes.
End Routes.

(* ===================================================================== *)
(** ** core/chunker.py                                                    *)
(* ===================================================================== *)

Module Chunker.
Section Chunker.
Context `{Kernels}.

(** The inner loop of [chunk_document]: a piece that is blank is
    skipped. *)
Definition piece_step (page : PageContent.t) (resource_id file_name : string)
    (chunks : list Chunk.t) (chunk_text : string) : list Chunk.t :=
  if negb (String.eqb (str_strip chunk_text) "")
  then chunks ++ [{| Chunk.text := chunk_text;
                     Chunk.page := PageContent.page_num page;
                     Chunk.resource_id := resource_id;
                     Chunk.file_name := file_name |}]
  else chunks.

(** The outer loop: a blank page is passed over, the others are split. *)
Definition page_step (resource_id file_name : string)
    (chunks : list Chunk.t) (page : PageContent.t) : list Chunk.t :=
  if String.eqb (str_strip (PageContent.text page)) "" then chunks
  else
    let text_chunks := split_text (PageContent.text page) in
    fold_left (piece_step page resource_id file_name) text_chunks chunks.

Definition chunk_document (pages : list PageContent.t)
    (resource_id file_name : string) : list Chunk.t :=
  fold_left (page_step resource_id file_name) pages [].
End Chunker.
End Chunker.

(* ===================================================================== *)
(** ** core/embedder.py                                                   *)
(* ===================================================================== *)

Module Embedder.
Section Embedder.
Context `{Kernels}.

(** One row per text. *)
Definition embed_texts (texts : list string) : Faiss.ndarray :=
  {| Faiss.ncols := encode_dim; Faiss.rows := map encode texts |}.
End Embedder.
End Embedder.

(* ===================================================================== *)
(** ** services/upload_service.py                                         *)
(* ===================================================================== *)

Module UploadService.
Section UploadService.
Context `{Kernels}.

(** [fastapi.UploadFile]: the name the client gave and the bytes sent. *)
Record UploadFile : Type := {
  filename : string;
  file : string
}.

(** [settings.MAX_FILE_SIZE_MB]. *)
Definition MAX_FILE_SIZE_MB : Z := 50.

(** [_save_file]: the file is written under the resource id and the suffix
    of the client's name, as the client spelt it.  A file the process has
    just created in the upload directory is one it may unlink. *)
Definition _save_file (file : UploadFile) (resource_id : string)
    (uploads : gmap string bool) : string * gmap string bool :=
  let file_ext := path_suffix (filename file) in
  let file_path := resource_id +:+ file_ext in
  (file_path, <[file_path := true]> uploads).

(** The dict written for one chunk. *)
Definition metadata_of (chunk_id resource_id file_name uploaded_at : string)
    (chunk : Chunk.t) : gmap string pyval :=
  <["chunk_id" := PStr chunk_id]>
  (<["resource_id" := PStr resource_id]>
  (<["file_name" := PStr file_name]>
  (<["page_number" := PInt (Chunk.page chunk)]>
  (<["text" := PStr (Chunk.text chunk)]>
  (<["uploaded_at" := PStr uploaded_at]>
  (<["deleted" := PBool false]> ∅)))))).

(** The [try] block.  [uuid4 n] is the text of the [n]-th identifier drawn
    during the call, the resource id being draw 0; [utcnow] is the text of
    the clock when the metadata is prepared. *)
Definition index_file (file : UploadFile) (file_path : string)
    (uuid4 : nat -> string) (utcnow : string)
    (store : VectorStore.t) (files : VectorStore.index_dir)
  : outcome (UploadResponse.t * VectorStore.t * VectorStore.index_dir) :=
  let resource_id := uuid4 0%nat in
  do pages <- process_document file_path (UploadService.file file) in
  let chunks := Chunker.chunk_document pages resource_id (filename file) in
  match chunks with
  | [] => Raise (ValueError "No text content extracted from document")
  | _ =>
      let texts := map Chunk.text chunks in
      let embeddings := Embedder.embed_texts texts in
      let uploaded_at := utcnow in
      let metadatas :=
        imap (fun i chunk =>
                metadata_of (uuid4 (S i)) resource_id (filename file)
                            uploaded_at chunk)
             chunks in
      do store <- VectorStore.add_documents embeddings metadatas store in
      let files := VectorStore.save store files in
      Ok ({| UploadResponse.resource_id := resource_id;
             UploadResponse.filename := filename file;
             UploadResponse.num_chunks := Z.of_nat (length chunks);
             UploadResponse.status := "success" |},
          store, files)
  end.

(** The [except] block: the saved file is removed when it is there, and
    the exception goes on to the caller; an [unlink] that fails raises in
    its place. *)
Definition clean_up (file_path : string) (e : exn) (uploads : gmap string bool)
  : exn * gmap string bool :=
  match uploads !! file_path with
  | Some true => (e, delete file_path uploads)
  | Some false => (PermissionError, uploads)
  | None => (e, uploads)
  end.

Definition process_upload (file : UploadFile) (uuid4 : nat -> string)
    (utcnow : string) (w : ResourceService.world)
  : outcome UploadResponse.t * ResourceService.world :=
  let resource_id := uuid4 0%nat in
  let file_ext := str_lower (path_suffix (filename file)) in
  if negb (existsb (String.eqb file_ext) [".pdf"; ".docx"]) then
    (Raise (ValueError ("Unsupported file type: " +:+ file_ext)), w)
  else
    let file_size_mb :=
      (inject_Z (Z.of_nat (String.length (UploadService.file file)))
       / inject_Z (1024 * 1024))%Q in
    if Qlt_bool (inject_Z MAX_FILE_SIZE_MB) file_size_mb then
      (Raise (ValueError ("File too large: " +:+ format_1f file_size_mb
                          +:+ "MB (max: 50MB)")), w)
    else
      let '(file_path, saved) :=
        _save_file file resource_id (ResourceService.uploads w) in
      match index_file file file_path uuid4 utcnow
              (ResourceService.vector_store w)
              (ResourceService.index_files w) with
      | Ok (response, store, files) =>
          (Ok response,
           {| ResourceService.vector_store := store;
              ResourceService.index_files := files;
              ResourceService.uploads := saved |})
      | Raise e =>
          let '(e, uploads) := clean_up file_path e saved in
          (Raise e,
           {| ResourceService.vector_store := ResourceService.vector_store w;
              ResourceService.index_files := ResourceService.index_files w;
              ResourceService.uploads := uploads |})
      end.
End UploadService.
End UploadService.

(* ===================================================================== *)
(** ** A concrete corpus                                                  *)
(* ===================================================================== *)

Module Scenario.

(** Two-dimensional rational vectors.  Every vector used below has unit
    norm, and L2 normalisation leaves such a vector as it is. *)
Definition dot (u v : list Q) : Q :=
  fold_right Qplus 0%Q (zip_with Qmult u v).

Definition encode_text (s : string) : list Q :=
  if String.eqb s "east" then [1%Q; 0%Q]
  else if String.eqb s "north" then [0%Q; 1%Q]
  else [(3 # 5)%Q; (4 # 5)%Q].

(** A stand-in relevance score: the length of the candidate text. *)
Definition text_length_score (q : string) (t : pyval) : Q :=
  match t with
  | PStr s => inject_Z (Z.of_nat (String.length s))
  | _ => 0%Q
  end.

(** Stand-ins for the upload pipeline.  [strip] removes blanks at both
    ends; the splitter cuts at [;]; the processor reads one page per [|] of
    the file, numbered from 1, and fails on a file that begins with [%]; the
    suffix of a name is what [pathlib] gives for a name without [/]; the
    text of a size, which nothing below looks at, is left constant. *)
Fixpoint lstrip (s : string) : string :=
  match s with
  | String c s' => if Ascii.eqb c " " then lstrip s' else s
  | EmptyString => EmptyString
  end.

Definition reverse (s : string) : string :=
  string_of_list_ascii (rev (list_ascii_of_string s)).

Definition strip (s : string) : string :=
  reverse (lstrip (reverse (lstrip s))).

Definition split_at_semicolons (s : string) : list string := split ";" s.

Definition read_pages (path content : string) : outcome (list PageContent.t) :=
  if String.prefix "%" content then Raise (ValueError "not a document")
  else Ok (imap (fun i t => {| PageContent.text := t;
                               PageContent.page_num := Z.of_nat i + 1 |})
                (split "|" content)).

Definition suffix_of (name : string) : string :=
  match rev (split "." name) with
  | last_part :: (_ :: _) as stem =>
      if String.eqb last_part ""
         || forallb (fun w => String.eqb w "") stem && (length stem =? 1)%nat
      then "" else "." +:+ last_part
  | _ => ""
  end.

Definition one_decimal (x : Q) : string := "0.0".

#[export] Instance kernels : Kernels := {|
  vec := list Q;
  normalize_row := fun v => v;
  inner_product := dot;
  encode_dim := 2;
  encode := encode_text;
  cross_encoder := text_length_score;
  str_lower := ascii_lower;
  str_lower_ascii := fun s _ => eq_refl;
  str_strip := strip;
  split_text := split_at_semicolons;
  path_suffix := suffix_of;
  process_document := read_pages;
  format_1f := one_decimal
|}.

(** The metadata dict the upload service writes for one chunk. *)
Definition chunk (chunk_id resource_id file_name : string) (page : Z)
    (text uploaded_at : string) (deleted : bool) : gmap string pyval :=
  <["chunk_id" := PStr chunk_id]>
  (<["resource_id" := PStr resource_id]>
  (<["file_name" := PStr file_name]>
  (<["page_number" := PInt page]>
  (<["text" := PStr text]>
  (<["uploaded_at" := PStr uploaded_at]>
  (<["deleted" := PBool deleted]> ∅)))))).

Definition array (rows : list (list Q)) : Faiss.ndarray :=
  {| Faiss.ncols := 2; Faiss.rows := rows |}.

Definition empty_store : VectorStore.t :=
  {| VectorStore.dimension := 2;
     VectorStore.index := {| Faiss.d := 2; Faiss.xb := [] |};
     VectorStore.metadata_store := [] |}.

Definition store_of (rows : list (list Q))
    (metas : list (gmap string pyval)) : VectorStore.t :=
  {| VectorStore.dimension := 2;
     VectorStore.index := {| Faiss.d := 2; Faiss.xb := rows |};
     VectorStore.metadata_store := metas |}.

(** Three chunks of two resources; the two best matches for "east" are
    deleted. *)
Definition c_a := chunk "c1" "R1" "a.pdf" 1 "alpha" "2024-05-02T10:00:00" true.
Definition c_b := chunk "c2" "R1" "a.pdf" 2 "beta!" "2024-05-02T10:00:00" true.
Definition c_c := chunk "c3" "R2" "notes.DOCX" 1 "gamma gamma" "2024-05-03T09:00:00" false.

Definition two_deleted : VectorStore.t :=
  store_of [[1%Q; 0%Q]; [(3 # 5)%Q; (4 # 5)%Q]; [0%Q; 1%Q]] [c_a; c_b; c_c].

(** The same three chunks as they were uploaded. *)
Definition a_live := chunk "c1" "R1" "a.pdf" 1 "alpha" "2024-05-02T10:00:00" false.
Definition b_live := chunk "c2" "R1" "a.pdf" 2 "beta!" "2024-05-02T10:00:00" false.

Definition three_rows : list (list Q) :=
  [[1%Q; 0%Q]; [(3 # 5)%Q; (4 # 5)%Q]; [0%Q; 1%Q]].

Definition uploaded : VectorStore.t :=
  store_of three_rows [a_live; b_live; c_c].

(** Five live chunks of one resource. *)
Definition l_1 := chunk "k1" "R7" "report.pdf" 1 "a" "2024-06-01T08:00:00" false.
Definition l_2 := chunk "k2" "R7" "report.pdf" 1 "bbb" "2024-06-01T08:00:00" false.
Definition l_3 := chunk "k3" "R7" "report.pdf" 2 "cc" "2024-06-01T08:00:00" false.
Definition l_4 := chunk "k4" "R7" "report.pdf" 2 "dddd" "2024-06-01T08:00:00" false.
Definition l_5 := chunk "k5" "R7" "report.pdf" 3 "cc" "2024-06-01T08:00:00" false.

Definition five_live : VectorStore.t :=
  store_of [[1%Q; 0%Q]; [0%Q; 1%Q]; [(3 # 5)%Q; (4 # 5)%Q];
            [(4 # 5)%Q; (3 # 5)%Q]; [(-1)%Q; 0%Q]]
           [l_1; l_2; l_3; l_4; l_5].

(** A batch of five candidates for the reranker. *)
Definition batch : list Reranker.document :=
  map (fun t => {| Reranker.text := PStr t; Reranker.metadata := ∅;
                   Reranker.vector_score := 0%Q |})
      ["a"; "bbb"; "cc"; "dddd"; "cc"].

(** The uploaded corpus with the file of resource R1 in the upload
    directory, where the process may not unlink it. *)
Definition locked_upload : ResourceService.world :=
  {| ResourceService.vector_store := uploaded;
     ResourceService.index_files := VectorStore.no_files;
     ResourceService.uploads := {["R1.pdf" := false]} |}.

(** The service over the five live chunks, with their file uploaded. *)
Definition five_live_service : ResourceService.world :=
  {| ResourceService.vector_store := five_live;
     ResourceService.index_files := VectorStore.no_files;
     ResourceService.uploads := {["R7.pdf" := true]} |}.

(** Two uploads and a deletion, from a first start.  The first file has
    three pages, the second of them blank, and its first page splits into
    two pieces; the identifiers drawn during an upload are its letter
    followed by the number of the draw. *)
Definition draws (letter : string) (n : nat) : string :=
  letter +:+ String (ascii_of_nat (48 + n)) "".

Definition report_file : UploadService.UploadFile :=
  {| UploadService.filename := "report.pdf";
     UploadService.file := "alpha;beta| |gamma" |}.

Definition notes_file : UploadService.UploadFile :=
  {| UploadService.filename := "notes.DOCX";
     UploadService.file := "delta" |}.

Definition started : ResourceService.world :=
  {| ResourceService.vector_store := empty_store;
     ResourceService.index_files := VectorStore.no_files;
     ResourceService.uploads := ∅ |}.

Definition one_upload : ResourceService.world :=
  (UploadService.process_upload report_file (draws "A")
     "2024-05-02T10:00:00" started).2.

Definition two_uploads : ResourceService.world :=
  (UploadService.process_upload notes_file (draws "B")
     "2024-05-03T09:00:00" one_upload).2.

Definition one_left : ResourceService.world :=
  (ResourceService.delete_resource "A0" two_uploads).2.


(** A store whose index was built for three-dimensional vectors. *)
Definition wide_store : VectorStore.t :=
  {| VectorStore.dimension := 3;
     VectorStore.index := {| Faiss.d := 3; Faiss.xb := [[1%Q; 0%Q; 0%Q]] |};
     VectorStore.metadata_store := [l_1] |}.

End Scenario.


(* ===================================================================== *)
(** ** Orders and keys                                                    *)
(* ===================================================================== *)

(** [x] may stand before [y] in a descending order by [key]. *)
Definition desc {A : Type} (key : A -> Q) (x y : A) : Prop :=
  (key y <= key x)%Q.

(** [x] has the key [c]. *)
Definition same_key {A : Type} (key : A -> Q) (c : Q) (x : A) : bool :=
  Qeq_bool (key x) c.

(** Equal values have the same image: a bool counts as its int. *)
Definition as_key (v : pyval) : pyval :=
  match v with
  | PBool b => PInt (int_of_bool b)
  | _ => v
  end.


(* ===================================================================== *)
(** ** Vocabulary of the statements                                       *)
(* ===================================================================== *)

Module Claims.
Section Claims.
Context `{Kernels}.

(** An entry is live when its metadata is not marked deleted. *)
Definition live (metadata : gmap string pyval) : bool :=
  negb (VectorStore.is_deleted metadata).

Definition live_pair (e : gmap string pyval * Q) : bool := live e.1.

(** Vector storage and metadata sequence have the same length. *)
Definition aligned (self : VectorStore.t) : Prop :=
  length (Faiss.xb (VectorStore.index self))
  = length (VectorStore.metadata_store self).

(** Every stored entry with its similarity to the query row [q], in
    insertion order. *)
Definition scored_entries (self : VectorStore.t) (q : vec)
  : list (gmap string pyval * Q) :=
  zip (VectorStore.metadata_store self)
      (map (inner_product q) (Faiss.xb (VectorStore.index self))).

Definition live_entries (self : VectorStore.t) (q : vec)
  : list (gmap string pyval * Q) :=
  List.filter live_pair (scored_entries self q).

(** [search] returns every live entry (in some order). *)
Definition returns_all_live (self : VectorStore.t) (query : Faiss.ndarray)
    (k : Z) : Prop :=
  exists q rest results,
    Faiss.rows query = q :: rest /\
    VectorStore.search query k self = Ok results /\
    Permutation results (live_entries self (normalize_row q)).

(** What [delete_resource] leaves at the place of one entry. *)
Definition marked (resource_id : string) (metadata : gmap string pyval)
  : gmap string pyval :=
  if VectorStore.matches resource_id metadata
  then <["deleted" := PBool true]> metadata
  else metadata.

(** The number of places where an entry that was live is now deleted. *)
Definition newly_marked (before after : list (gmap string pyval)) : Z :=
  Z.of_nat (length (List.filter
                      (fun p => live p.1 && VectorStore.is_deleted p.2)
                      (zip before after))).

(** [resource_id] of an entry equals the string [r], with Python's [==]. *)
Definition of_resource (r : string) (metadata : gmap string pyval) : bool :=
  py_eq (dict_get metadata "resource_id" PNone) (PStr r).

(** The pairs handed to [add_documents] so far, oldest first. *)
Definition same_chunk (original current : gmap string pyval) : Prop :=
  current = original \/ current = <["deleted" := PBool true]> original.

(** Position by position, the vector is the normalised vector of the
    appended pair and the metadata is the metadata of that pair, up to its
    [deleted] flag. *)
Definition describes (log : list (vec * gmap string pyval))
    (ix : Faiss.IndexFlatIP) (metas : list (gmap string pyval)) : Prop :=
  Faiss.xb ix = map (fun e => normalize_row e.1) log
  /\ Forall2 (fun e m => same_chunk e.2 m) log metas.

Definition files_describe (log : list (vec * gmap string pyval))
    (dir : VectorStore.index_dir) : Prop :=
  match VectorStore.index_faiss dir, VectorStore.metadata_pkl dir with
  | Some ix, Some metas => describes log ix metas
  | None, None => log = []
  | _, _ => False
  end.

(** The states of a store and its directory that the operations reach from
    a first start on an empty directory, with the pairs appended to the
    store in memory and to the one on disk. *)
Inductive reachable :
  list (vec * gmap string pyval) -> list (vec * gmap string pyval) ->
  VectorStore.t -> VectorStore.index_dir -> Prop :=
| reach_init dimension self :
    VectorStore.init dimension VectorStore.no_files = Ok self ->
    reachable [] [] self VectorStore.no_files
| reach_add mem disk self dir embeddings metadatas self' :
    reachable mem disk self dir ->
    VectorStore.add_documents embeddings metadatas self = Ok self' ->
    reachable (mem ++ zip (Faiss.rows embeddings) metadatas) disk self' dir
| reach_delete mem disk self dir resource_id n self' dir' :
    reachable mem disk self dir ->
    VectorStore.delete_resource resource_id self dir = (n, self', dir') ->
    reachable mem (if 0 <? n then mem else disk) self' dir'
| reach_save mem disk self dir :
    reachable mem disk self dir ->
    reachable mem mem self (VectorStore.save self dir)
| reach_load mem disk self dir self' :
    reachable mem disk self dir ->
    VectorStore.load self dir = Ok self' ->
    reachable disk disk self' dir
| reach_restart mem disk self dir dimension self' :
    reachable mem disk self dir ->
    VectorStore.init dimension dir = Ok self' ->
    reachable disk disk self' dir.


(** [lo] is the least and [hi] the greatest of a batch of raw scores. *)
Definition is_min (lo : Q) (scores : list Q) : Prop :=
  In lo scores /\ Forall (fun s => (lo <= s)%Q) scores.

Definition is_max (hi : Q) (scores : list Q) : Prop :=
  In hi scores /\ Forall (fun s => (s <= hi)%Q) scores.

(** The raw cross-encoder score of a candidate. *)
Definition raw_score (query : string) (d : Reranker.document) : Q :=
  cross_encoder query (Reranker.text d).

Definition all_equal (scores : list Q) : Prop :=
  forall s1 s2, In s1 scores -> In s2 scores -> (s1 == s2)%Q.





(** The filter dict gives strings for the keys it uses. *)
Definition str_or_absent (v : option pyval) : Prop :=
  match v with
  | Some (PStr _) | None => True
  | Some _ => False
  end.

Definition filters_ok (filters : gmap string pyval) : Prop :=
  str_or_absent (filters !! "type") /\ str_or_absent (filters !! "file_name").

Definition has_file_name (c : gmap string pyval * Q) : Prop :=
  exists name, c.1 !! "file_name" = Some (PStr name).








(** The same test as a function, for candidates with a file name and
    filters with string values. *)
Definition keepb (filters : gmap string pyval) (c : gmap string pyval * Q)
  : bool :=
  match c.1 !! "file_name" with
  | Some (PStr name) =>
      match filters !! "type" with
      | Some (PStr wanted) =>
          String.eqb (SearchService.ext_of name) (str_lower wanted)
      | _ => true
      end
      &&
      match filters !! "file_name" with
      | Some (PStr wanted) => contains (str_lower wanted) (str_lower name)
      | _ => true
      end
  | _ => false
  end.



(** A metadata dict with the fields and the types of a chunk (the
    [deleted] flag may be absent). *)
Definition well_formed_chunk (m : gmap string pyval) : bool :=
  match m !! "text", m !! "file_name", m !! "page_number",
        m !! "resource_id", m !! "chunk_id" with
  | Some (PStr _), Some (PStr _), Some (PInt _), Some (PStr _), Some (PStr _) =>
      true
  | _, _, _, _, _ => false
  end.

(** A store the pipeline can search: aligned, of the dimension of the
    embedding model, holding chunks. *)
Definition searchable (store : VectorStore.t) : Prop :=
  aligned store
  /\ encode_dim = Faiss.d (VectorStore.index store)
  /\ Forall (fun m => well_formed_chunk m = true)
            (VectorStore.metadata_store store).

Definition request_filters_ok (filters : option (gmap string pyval)) : Prop :=
  match filters with
  | Some f => filters_ok f
  | None => True
  end.

Definition document_ok (d : Reranker.document) : Prop :=
  well_formed_chunk (Reranker.metadata d) = true
  /\ Reranker.metadata d !! "text" = Some (Reranker.text d).


(** The first of [names] that exists in the upload directory. *)
Definition first_existing (names : list string) (dir : gmap string bool)
  : option string :=
  List.find (fun p => bool_decide (is_Some (dir !! p))) names.

Definition upload_names (resource_id : string) : list string :=
  [resource_id +:+ ".pdf"; resource_id +:+ ".docx"].

(** Whenever chunks were marked, the caller gets their count. *)
Definition file_errors_hidden (resource_id : string)
    (w : ResourceService.world) : Prop :=
  forall n store files,
    VectorStore.delete_resource resource_id
      (ResourceService.vector_store w) (ResourceService.index_files w)
    = (n, store, files) ->
    n <> 0 ->
    (ResourceService.delete_resource resource_id w).1 = Ok n.


(** The [resource_id] of an entry, [None] when it has none. *)
Definition rid_of (m : gmap string pyval) : pyval :=
  dict_get m "resource_id" PNone.

(** The live chunks of the resource with id [k], in insertion order. *)
Definition chunks_of (k : pyval) (metas : list (gmap string pyval))
  : list (gmap string pyval) :=
  List.filter (fun m => live m && py_eq (rid_of m) k) metas.

(** How many summaries carry the id [k]. *)
Definition summaries_for (k : pyval)
    (out : list VectorStore.resource_summary) : nat :=
  length (List.filter (fun s => py_eq (VectorStore.rs_resource_id s) k) out).

(** A summary built from the first live chunk of its resource and the
    number of its live chunks. *)
Definition summarises (metas : list (gmap string pyval))
    (s : VectorStore.resource_summary) : Prop :=
  truthy (VectorStore.rs_resource_id s) = true
  /\ exists first rest,
       chunks_of (VectorStore.rs_resource_id s) metas = first :: rest
       /\ VectorStore.rs_resource_id s = rid_of first
       /\ VectorStore.rs_filename s
          = dict_get first "file_name" (PStr "unknown")
       /\ VectorStore.rs_uploaded_at s = dict_get first "uploaded_at" (PStr "")
       /\ VectorStore.rs_num_chunks s = Z.of_nat (length (first :: rest)).

(** Upload times are ISO-8601 strings: their order is that of the text. *)
Definition not_later (a b : pyval) : bool :=
  match a, b with
  | PStr x, PStr y => String.leb x y
  | _, _ => false
  end.

(** Every summary reports the earliest upload time of its live chunks. *)
Definition reports_earliest (self : VectorStore.t) : Prop :=
  Forall (fun s =>
            Forall (fun m => not_later (VectorStore.rs_uploaded_at s)
                               (dict_get m "uploaded_at" (PStr "")) = true)
                   (chunks_of (VectorStore.rs_resource_id s)
                              (VectorStore.metadata_store self)))
         (VectorStore.get_all_resources self).

(** Every resource id with a live chunk has exactly one summary. *)
Definition one_summary_each (self : VectorStore.t) : Prop :=
  Forall (fun m => live m = true ->
                   summaries_for (rid_of m) (VectorStore.get_all_resources self)
                   = 1%nat)
         (VectorStore.metadata_store self).

(** Every summary reports the file name that the live chunks of its
    resource carry. *)
Definition reports_file_name (self : VectorStore.t) : Prop :=
  Forall (fun s =>
            Forall (fun m => VectorStore.rs_filename s
                             = dict_get m "file_name" (PStr "unknown"))
                   (chunks_of (VectorStore.rs_resource_id s)
                              (VectorStore.metadata_store self)))
         (VectorStore.get_all_resources self).

(** No entry, in memory or in the metadata file, carries the id [rid]. *)
Definition unused_id (rid : string) (w : ResourceService.world) : bool :=
  let unused := forallb (fun m => negb (py_eq (rid_of m) (PStr rid))) in
  unused (VectorStore.metadata_store (ResourceService.vector_store w))
  && unused (default [] (VectorStore.metadata_pkl
                           (ResourceService.index_files w))).

(** The states the services reach from a first start on an empty index
    directory: by uploads, by deletions and by restarts.  The store is
    filled by [process_upload] alone; the identifier it draws for a
    resource is a version-4 UUID, a text that is not empty and that was
    not drawn before. *)
Inductive served : ResourceService.world -> Prop :=
| served_start dimension store uploads :
    VectorStore.init dimension VectorStore.no_files = Ok store ->
    served {| ResourceService.vector_store := store;
              ResourceService.index_files := VectorStore.no_files;
              ResourceService.uploads := uploads |}
| served_upload w file uuid4 utcnow :
    served w ->
    uuid4 0%nat <> "" ->
    unused_id (uuid4 0%nat) w = true ->
    served (UploadService.process_upload file uuid4 utcnow w).2
| served_delete w resource_id :
    served w ->
    served (ResourceService.delete_resource resource_id w).2
| served_restart w dimension store :
    served w ->
    VectorStore.init dimension (ResourceService.index_files w) = Ok store ->
    served {| ResourceService.vector_store := store;
              ResourceService.index_files := ResourceService.index_files w;
              ResourceService.uploads := ResourceService.uploads w |}.

(** An entry as an upload writes it: a resource id that is not empty, a
    file name and an upload time. *)
Definition upload_entry (m : gmap string pyval) : Prop :=
  exists rid name time,
    m !! "resource_id" = Some (PStr rid) /\ rid <> ""
    /\ m !! "file_name" = Some (PStr name)
    /\ m !! "uploaded_at" = Some (PStr time).

(** Entries of one resource come from one upload. *)
Definition same_upload (m1 m2 : gmap string pyval) : Prop :=
  m1 !! "resource_id" = m2 !! "resource_id" ->
  m1 !! "file_name" = m2 !! "file_name"
  /\ m1 !! "uploaded_at" = m2 !! "uploaded_at".

Definition upload_shaped (metas : list (gmap string pyval)) : Prop :=
  Forall upload_entry metas
  /\ (forall m1 m2, In m1 metas -> In m2 metas -> same_upload m1 m2).


(** What the loop of [search] makes of one hit. *)
Definition attach (store : list (gmap string pyval)) (h : Z * Q)
  : gmap string pyval * Q :=
  (default ∅ (store !! Z.to_nat h.1), h.2).

Definition in_range (store : list (gmap string pyval)) (h : Z * Q) : Prop :=
  0 <= h.1 < Z.of_nat (length store).


(** The candidates in their pre-rerank order, each with its score. *)
Definition with_scores (query : string) (documents : list Reranker.document)
  : list Reranker.ranked :=
  let scores := map (raw_score query) documents in
  map (fun d => {| Reranker.doc := d;
                   Reranker.rerank_score :=
                     Reranker.normalized (length documents) (Reranker.array_min scores)
                       (Reranker.array_max scores - Reranker.array_min scores)
                       (raw_score query d) |})
      documents.


(** The score [rerank] gives to one candidate of the batch. *)
Definition score_ok (query : string) (documents : list Reranker.document)
    (r : Reranker.ranked)
  : Prop :=
  let scores := map (raw_score query) documents in
  let lo := Reranker.array_min scores in
  let hi := Reranker.array_max scores in
  (0 <= Reranker.rerank_score r)%Q /\ (Reranker.rerank_score r <= 1)%Q
  /\ ((lo < hi)%Q ->
      Reranker.rerank_score r = ((raw_score query (Reranker.doc r) - lo) / (hi - lo))%Q)
  /\ (all_equal scores ->
      Reranker.rerank_score r
      = if (length documents =? 1)%nat then 1%Q else (1 # 2)%Q).


Definition matchk (k : pyval) (e : pyval * VectorStore.resource_summary) : bool :=
  py_eq e.1 k.

Definition bumped (k : pyval) (e : pyval * VectorStore.resource_summary)
  : pyval * VectorStore.resource_summary :=
  if matchk k e then (e.1, VectorStore.add_chunk e.2) else e.

Definition entry_ok (metas : list (gmap string pyval))
    (e : pyval * VectorStore.resource_summary) : Prop :=
  e.1 = VectorStore.rs_resource_id e.2 /\ summarises metas e.2.

Definition at_most_once (rm : list (pyval * VectorStore.resource_summary)) : Prop :=
  forall k, (length (List.filter (matchk k) rm) <= 1)%nat.

Definition all_listed (metas : list (gmap string pyval))
    (rm : list (pyval * VectorStore.resource_summary)) : Prop :=
  Forall (fun m => live m = true -> truthy (rid_of m) = true ->
                   VectorStore.has_key (rid_of m) rm = true) metas.


End Claims.
End Claims.


(* ===================================================================== *)
(** ** Vocabulary of the further properties                               *)
(* ===================================================================== *)

Module Further.
Section Further.
Context `{Kernels}.

(** The store [delete_resource] leaves. *)
Definition after_delete (resource_id : string) (self : VectorStore.t)
    (dir : VectorStore.index_dir) : VectorStore.t :=
  (VectorStore.delete_resource resource_id self dir).1.2.

(** A summary, or an entry of [resource_map], of another resource. *)
Definition other_summary (resource_id : string)
    (s : VectorStore.resource_summary) : bool :=
  negb (py_eq (VectorStore.rs_resource_id s) (PStr resource_id)).

Definition other_entry (resource_id : string)
    (e : pyval * VectorStore.resource_summary) : bool :=
  negb (py_eq e.1 (PStr resource_id)).

(** A chunk detail shows the three fields of its metadata entry. *)
Definition detail_of (m : gmap string pyval) (d : ResourceService.ChunkDetail)
  : Prop :=
  m !! "chunk_id" = Some (PStr (ResourceService.chunk_id d))
  /\ m !! "text" = Some (PStr (ResourceService.text d))
  /\ m !! "page_number" = Some (PInt (ResourceService.page_number d)).

(** A store with no vectors and no metadata. *)
Definition fresh (dimension : Z) : VectorStore.t :=
  {| VectorStore.dimension := dimension;
     VectorStore.index := {| Faiss.d := dimension; Faiss.xb := [] |};
     VectorStore.metadata_store := [] |}.
(** A chunk whose upload time, when present, is a string. *)
Definition listable (m : gmap string pyval) : Prop :=
  Claims.well_formed_chunk m = true
  /\ Claims.str_or_absent (m !! "uploaded_at").

(** A summary whose three text fields are strings. *)
Definition typed_summary (s : VectorStore.resource_summary) : Prop :=
  exists rid fn up,
    VectorStore.rs_resource_id s = PStr rid
    /\ VectorStore.rs_filename s = PStr fn
    /\ VectorStore.rs_uploaded_at s = PStr up.

(** The resources of a page, none when the handler raised. *)
Definition page_of (r : Routes.http Routes.PaginatedResourcesResponse)
  : list ResourceService.Resource :=
  match r with
  | Routes.Respond p => Routes.resources p
  | Routes.HTTPException _ _ => []
  end.

(** The entries one call of [process_upload] appends for [chunks]. *)
Definition written (file : UploadService.UploadFile) (uuid4 : nat -> string)
    (utcnow : string) (chunks : list Chunk.t) : list (gmap string pyval) :=
  imap (fun i chunk =>
          UploadService.metadata_of (uuid4 (S i)) (uuid4 0%nat)
            (UploadService.filename file) utcnow chunk)
       chunks.

(** The shape of the entries in memory and of those in the metadata
    file. *)
Definition shaped_world (w : ResourceService.world) : Prop :=
  Claims.upload_shaped
    (VectorStore.metadata_store (ResourceService.vector_store w))
  /\ Claims.upload_shaped
       (default [] (VectorStore.metadata_pkl (ResourceService.index_files w))).

(** Memory and index directory agree: the directory is empty and so is
    the store, or the two files hold the index and the metadata of the
    store. *)
Definition in_sync (w : ResourceService.world) : Prop :=
  let store := ResourceService.vector_store w in
  (ResourceService.index_files w = VectorStore.no_files
   /\ store = Further.fresh (VectorStore.dimension store))
  \/ ResourceService.index_files w
     = {| VectorStore.index_faiss := Some (VectorStore.index store);
          VectorStore.metadata_pkl := Some (VectorStore.metadata_store store) |}.

(** A file the service takes: its suffix reads [.pdf] or [.docx] in lower
    case, and it has at most 50 MB. *)
Definition accepted (file : UploadService.UploadFile) : Prop :=
  (str_lower (path_suffix (UploadService.filename file)) = ".pdf"
   \/ str_lower (path_suffix (UploadService.filename file)) = ".docx")
  /\ Z.of_nat (String.length (UploadService.file file)) <= 50 * 1024 * 1024.

(** The name under which the file of an upload is saved. *)
Definition saved_as (file : UploadService.UploadFile)
    (uuid4 : nat -> string) : string :=
  uuid4 0%nat +:+ path_suffix (UploadService.filename file).

(** A text that [strip] leaves empty. *)
Definition blank (s : string) : bool :=
  String.eqb (str_strip s) "".

(** The chunks of one page: none for a blank page, else one for every
    piece of its text that is not blank. *)
Definition chunks_of_page (resource_id file_name : string)
    (page : PageContent.t) : list Chunk.t :=
  if blank (PageContent.text page) then []
  else map (fun t => {| Chunk.text := t;
                        Chunk.page := PageContent.page_num page;
                        Chunk.resource_id := resource_id;
                        Chunk.file_name := file_name |})
           (List.filter (fun t => negb (blank t))
                        (split_text (PageContent.text page))).

(** The summary of a resource just uploaded. *)
Definition summary_of (file : UploadService.UploadFile)
    (uuid4 : nat -> string) (utcnow : string) (num_chunks : Z)
  : VectorStore.resource_summary :=
  {| VectorStore.rs_resource_id := PStr (uuid4 0%nat);
     VectorStore.rs_filename := PStr (UploadService.filename file);
     VectorStore.rs_num_chunks := num_chunks;
     VectorStore.rs_uploaded_at := PStr utcnow |}.

(** The view [get_chunks_by_resource] gives of the chunks just written. *)
Definition chunk_views (uuid4 : nat -> string)
    (chunks : list Chunk.t) : list VectorStore.chunk_data :=
  imap (fun i chunk =>
          {| VectorStore.cd_chunk_id := PStr (uuid4 (S i));
             VectorStore.cd_text := PStr (Chunk.text chunk);
             VectorStore.cd_page_number := PInt (Chunk.page chunk) |})
       chunks.

(** An entry with the fields and the types of a chunk, an upload time and
    a [deleted] flag. *)
Definition stored_chunk (m : gmap string pyval) : Prop :=
  Claims.well_formed_chunk m = true
  /\ (exists time, m !! "uploaded_at" = Some (PStr time))
  /\ (exists flag, m !! "deleted" = Some (PBool flag)).

End Further.
End Further.


(* ===================================================================== *)
(** * Properties                                                          *)
(* ===================================================================== *)

(** ** [sorted(..., reverse=True)] *)

Section SortedDesc.
Context {A : Type} (key : A -> Q).

Lemma Qlt_bool_true (a b : Q) : Qlt_bool a b = true <-> (a < b)%Q.
Proof.
  unfold Qlt_bool. rewrite negb_true_iff.
  destruct (Qle_bool b a) eqn:E.
  - apply Qle_bool_iff in E. split; [discriminate|].
    intros Hlt. exfalso. exact (Qlt_not_le _ _ Hlt E).
  - split; [|reflexivity]. intros _. apply Qnot_le_lt.
    intros Hle. apply Qle_bool_iff in Hle. congruence.
Qed.

Lemma Qlt_bool_false (a b : Q) : Qlt_bool a b = false <-> (b <= a)%Q.
Proof.
  unfold Qlt_bool. rewrite negb_false_iff. apply Qle_bool_iff.
Qed.

Lemma insert_desc_perm (x : A) (l : list A) :
  Permutation (insert_desc key x l) (x :: l).
Proof.
  induction l as [|y ys IH]; simpl; [reflexivity|].
  destruct (Qlt_bool (key x) (key y)); [|reflexivity].
  rewrite IH. apply perm_swap.
Qed.

Lemma sorted_desc_perm (l : list A) : Permutation (sorted_desc key l) l.
Proof.
  induction l as [|x xs IH]; simpl; [reflexivity|].
  rewrite insert_desc_perm. now apply perm_skip.
Qed.

Lemma sorted_desc_length (l : list A) :
  length (sorted_desc key l) = length l.
Proof. apply Permutation_length, sorted_desc_perm. Qed.

Lemma insert_desc_sorted (x : A) (l : list A) :
  StronglySorted (desc key) l -> StronglySorted (desc key) (insert_desc key x l).
Proof.
  induction l as [|y ys IH]; simpl; intros Hs.
  - constructor; [constructor | constructor].
  - destruct (Qlt_bool (key x) (key y)) eqn:E.
    + apply StronglySorted_inv in Hs as [Hys Hy].
      constructor; [now apply IH|].
      apply Qlt_bool_true in E.
      eapply Permutation_Forall; [symmetry; apply insert_desc_perm|].
      constructor; [|exact Hy].
      unfold desc. now apply Qlt_le_weak.
    + apply Qlt_bool_false in E.
      constructor; [exact Hs|].
      constructor; [exact E|].
      apply StronglySorted_inv in Hs as [_ Hy].
      eapply Forall_impl; [exact Hy|].
      intros z Hz. unfold desc in *. now apply Qle_trans with (key y).
Qed.

Lemma sorted_desc_sorted (l : list A) : StronglySorted (desc key) (sorted_desc key l).
Proof.
  induction l as [|x xs IH]; simpl; [constructor|].
  now apply insert_desc_sorted.
Qed.

(** Stability: the elements that share a key keep their order. *)
Lemma insert_desc_stable (c : Q) (x : A) (l : list A) :
  StronglySorted (desc key) l ->
  List.filter (same_key key c) (insert_desc key x l)
  = List.filter (same_key key c) (x :: l).
Proof.
  induction l as [|y ys IH]; intros Hs; [reflexivity|].
  cbn [insert_desc].
  destruct (Qlt_bool (key x) (key y)) eqn:E; [|reflexivity].
  apply StronglySorted_inv in Hs as [Hys Hy].
  cbn [List.filter]. rewrite (IH Hys). cbn [List.filter].
  destruct (same_key key c x) eqn:Ex, (same_key key c y) eqn:Ey; try reflexivity.
  exfalso. apply Qlt_bool_true in E.
  unfold same_key in *. apply Qeq_bool_iff in Ex, Ey.
  rewrite Ex, Ey in E. exact (Qlt_irrefl _ E).
Qed.

Lemma sorted_desc_stable (c : Q) (l : list A) :
  List.filter (same_key key c) (sorted_desc key l) = List.filter (same_key key c) l.
Proof.
  induction l as [|x xs IH]; [reflexivity|].
  cbn [sorted_desc].
  rewrite insert_desc_stable by apply sorted_desc_sorted.
  cbn [List.filter]. now rewrite IH.
Qed.

Lemma desc_sublist (l1 l2 : list A) :
  sublist l1 l2 -> StronglySorted (desc key) l2 -> StronglySorted (desc key) l1.
Proof.
  induction 1 as [|x l1 l2 Hsub IH|x l1 l2 Hsub IH]; intros Hs.
  - constructor.
  - apply StronglySorted_inv in Hs as [Hl2 Hx].
    constructor; [now apply IH|].
    rewrite Forall_forall in Hx |- *.
    intros y Hy. apply Hx. now apply elem_of_sublist with l1.
  - apply StronglySorted_inv in Hs as [Hl2 _]. now apply IH.
Qed.
End SortedDesc.

(** ** Lists *)

Lemma filter_perm {A : Type} (f : A -> bool) (l1 l2 : list A) :
  Permutation l1 l2 -> Permutation (List.filter f l1) (List.filter f l2).
Proof.
  induction 1 as [|x l1 l2 _ IH|x y l|l1 l2 l3 _ IH1 _ IH2]; simpl.
  - reflexivity.
  - destruct (f x); [now apply perm_skip | exact IH].
  - destruct (f x), (f y); try reflexivity. apply perm_swap.
  - now transitivity (List.filter f l2).
Qed.

Lemma filter_sublist {A : Type} (f : A -> bool) (l : list A) :
  sublist (List.filter f l) l.
Proof.
  induction l as [|x l IH]; simpl; [constructor|].
  destruct (f x); now constructor.
Qed.

Lemma filter_all_true {A : Type} (f : A -> bool) (l : list A) :
  Forall (fun x => f x = true) (List.filter f l).
Proof.
  induction l as [|x l IH]; simpl; [constructor|].
  destruct (f x) eqn:E; [constructor|]; assumption.
Qed.

(** A map that keeps the keys commutes with the sort. *)
Lemma sorted_desc_map {A B : Type} (key : B -> Q) (f : A -> B) (l : list A) :
  sorted_desc key (map f l) = map f (sorted_desc (fun a => key (f a)) l).
Proof.
  induction l as [|x xs IH]; [reflexivity|].
  cbn [map sorted_desc]. rewrite IH.
  generalize (sorted_desc (fun a => key (f a)) xs) as s.
  induction s as [|y ys IHs]; [reflexivity|].
  cbn [map insert_desc].
  destruct (Qlt_bool (key (f x)) (key (f y))); cbn [map]; [|reflexivity].
  now rewrite IHs.
Qed.

(** ** [VectorStore.search] *)

Section SearchFacts.
Context `{Kernels}.
Import VectorStore Claims.

Lemma item_in_range {A : Type} (l : list A) (i : Z) :
  0 <= i < Z.of_nat (length l) ->
  exists x, l !! Z.to_nat i = Some x /\ item l i = Ok x.
Proof.
  intros Hi. unfold item.
  destruct (Z.ltb_spec i 0) as [?|_]; [lia|].
  destruct (Z.leb_spec 0 i) as [_|?]; [|lia].
  destruct (Z.ltb_spec i (Z.of_nat (length l))) as [_|?]; [|lia].
  destruct (lookup_lt_is_Some_2 l (Z.to_nat i)) as [x Hx]; [lia|].
  exists x. now rewrite Hx.
Qed.

Lemma combine_in_range (store : list (gmap string pyval)) (hits : list (Z * Q)) :
  Forall (in_range store) hits ->
  combine_with_metadata store hits
  = Ok (List.filter live_pair (map (attach store) hits)).
Proof.
  induction 1 as [|[idx score] hits Hh _ IH]; [reflexivity|].
  cbn [combine_with_metadata map List.filter].
  destruct (Z.ltb_spec idx (Z.of_nat (length store))) as [_|Hge];
    [|unfold in_range in Hh; simpl in Hh; lia].
  destruct (item_in_range store idx Hh) as (m & Hm & ->).
  rewrite IH. simpl.
  assert (attach store (idx, score) = (m, score)) as ->
    by (unfold attach; simpl; now rewrite Hm).
  change (live_pair (m, score)) with (negb (is_deleted m)).
  now destruct (is_deleted m).
Qed.

(** The hits of the flat index, each with its metadata, are the stored
    entries with their scores. *)
Lemma attach_imap (g : vec -> Q) (pre store : list (gmap string pyval))
    (xs : list vec) :
  length store = length xs ->
  map (attach (pre ++ store))
      (imap (fun i x => (Z.of_nat (length pre + i), g x)) xs)
  = zip store (map g xs).
Proof.
  revert pre store.
  induction xs as [|x xs IH]; intros pre [|m store] Hlen;
    try discriminate; [reflexivity|].
  rewrite imap_cons. cbn [map zip zip_with]. f_equal.
  - unfold attach. simpl. rewrite Nat2Z.id, Nat.add_0_r.
    now rewrite list_lookup_middle.
  - specialize (IH (pre ++ [m]) store).
    rewrite <- app_assoc in IH. simpl in IH.
    rewrite <- IH by (simpl in Hlen; lia).
    f_equal. apply imap_ext. intros i y _. simpl.
    rewrite length_app. simpl. do 2 f_equal. lia.
Qed.

Lemma imap_in_range (g : vec -> Q) (store : list (gmap string pyval))
    (xs : list vec) :
  length store = length xs ->
  Forall (in_range store) (imap (fun i x => (Z.of_nat i, g x)) xs).
Proof.
  intros Hlen. apply Forall_forall. intros [i s] Hin.
  apply elem_of_lookup_imap in Hin as (j & y & Heq & Hj).
  injection Heq as -> ->. apply lookup_lt_Some in Hj.
  unfold in_range. simpl. lia.
Qed.
End SearchFacts.

Section SearchRanked.
Context `{Kernels}.
Import VectorStore Claims.

Lemma search_row_hits (self : VectorStore.t) (q : vec) (k : Z) :
  aligned self -> 1 <= k ->
  combine_with_metadata (metadata_store self)
    (Faiss.search_row (index self) q (Z.min k (Faiss.ntotal (index self))))
  = Ok (List.filter live_pair
          (take (Z.to_nat k) (sorted_desc snd (scored_entries self q)))).
Proof.
  intros Hal Hk. unfold Faiss.search_row, Faiss.ntotal.
  set (scored := imap _ _).
  replace (Z.to_nat (Z.min k (Z.of_nat (length (Faiss.xb (index self)))))
           - length (Faiss.xb (index self)))%nat with 0%nat by lia.
  cbn [replicate]. rewrite app_nil_r.
  assert (Hr : Forall (in_range (metadata_store self)) scored)
    by (apply imap_in_range; now rewrite Hal).
  rewrite combine_in_range.
  2:{ rewrite Forall_forall in Hr |- *. intros h Hh. apply Hr.
      rewrite <- (sorted_desc_perm snd scored).
      eapply elem_of_sublist; [exact Hh | apply sublist_take]. }
  f_equal. f_equal.
  change (map (attach (metadata_store self))) with
    (fmap (M:=list) (attach (metadata_store self))).
  rewrite fmap_take.
  change (fmap (M:=list) (attach (metadata_store self))) with
    (map (attach (metadata_store self))).
  change (sorted_desc snd scored) with
    (sorted_desc (fun h => snd (attach (metadata_store self) h)) scored).
  rewrite <- sorted_desc_map.
  assert (map (attach (metadata_store self)) scored = scored_entries self q) as ->.
  { pose proof (attach_imap (inner_product q) [] (metadata_store self)
                  (Faiss.xb (index self))) as E.
    simpl in E. unfold scored, scored_entries. rewrite <- E by now rewrite Hal.
    reflexivity. }
  set (s := sorted_desc snd (scored_entries self q)).
  assert (Hlen : length s = length (Faiss.xb (index self))).
  { unfold s. rewrite sorted_desc_length. unfold scored_entries.
    rewrite length_zip_with, length_map. unfold aligned in Hal. lia. }
  destruct (Z.le_ge_cases k (Z.of_nat (length (Faiss.xb (index self))))).
  - now rewrite Z.min_l.
  - rewrite Z.min_r by assumption. rewrite Nat2Z.id.
    rewrite !take_ge; [reflexivity | lia | lia].
Qed.

Lemma search_eq (self : VectorStore.t) (query : Faiss.ndarray)
    (q : vec) (rest : list vec) (k : Z) :
  aligned self ->
  1 <= k ->
  Faiss.rows query = q :: rest ->
  Faiss.ncols query = Faiss.d (index self) ->
  search query k self
  = Ok (List.filter live_pair
          (take (Z.to_nat k)
             (sorted_desc snd (scored_entries self (normalize_row q))))).
Proof.
  intros Hal Hk Hrows Hcols.
  set (entries := scored_entries self (normalize_row q)).
  assert (Hlen : length (sorted_desc snd entries)
                 = length (Faiss.xb (index self))).
  { rewrite sorted_desc_length. unfold entries, scored_entries.
    rewrite length_zip_with, length_map. unfold aligned in Hal. lia. }
  unfold search.
  destruct (Z.eqb_spec (Faiss.ntotal (index self)) 0) as [Hz|Hnz].
  - unfold Faiss.ntotal in Hz.
    destruct (sorted_desc snd entries); [now rewrite take_nil|].
    simpl in Hlen. lia.
  - unfold Faiss.search, Faiss.normalize_L2. cbn [Faiss.ncols Faiss.rows].
    rewrite Hcols, Z.eqb_refl. cbn [negb].
    assert (0 < Z.min k (Faiss.ntotal (index self))) as Hpos
      by (unfold Faiss.ntotal in *; lia).
    apply Z.ltb_lt in Hpos. rewrite Hpos. cbn [negb bind].
    rewrite Hrows. cbn [map]. unfold item at 1. cbn.
    now apply search_row_hits.
Qed.

(** C1, as the code has it.  On an aligned store, for [k >= 1] and a
    query of the index's dimension, [search] returns the live entries among
    the [k] best-scoring stored entries (deleted ones count towards [k]),
    ranked by descending score; no returned entry is marked deleted; all
    live entries are returned when [k] is at least the number of stored
    entries; the result is empty when the index is. *)
Theorem search_ranked_live (self : VectorStore.t) (query : Faiss.ndarray)
    (q : vec) (rest : list vec) (k : Z) :
  aligned self ->
  1 <= k ->
  Faiss.rows query = q :: rest ->
  Faiss.ncols query = Faiss.d (index self) ->
  exists results,
    search query k self = Ok results
    /\ results
       = List.filter live_pair
           (take (Z.to_nat k)
              (sorted_desc snd (scored_entries self (normalize_row q))))
    /\ StronglySorted (desc snd) results
    /\ Forall (fun r => is_deleted r.1 = false) results
    /\ (Faiss.ntotal (index self) <= k ->
        Permutation results (live_entries self (normalize_row q)))
    /\ (Faiss.ntotal (index self) = 0 -> results = []).
Proof.
  intros Hal Hk Hrows Hcols.
  set (entries := scored_entries self (normalize_row q)).
  exists (List.filter live_pair (take (Z.to_nat k) (sorted_desc snd entries))).
  assert (Hlen : length (sorted_desc snd entries)
                 = length (Faiss.xb (index self))).
  { rewrite sorted_desc_length. unfold entries, scored_entries.
    rewrite length_zip_with, length_map. unfold aligned in Hal. lia. }
  split; [|split; [reflexivity|split; [|split; [|split]]]].
  - now apply search_eq with rest.
  - eapply desc_sublist; [|apply sorted_desc_sorted].
    etransitivity; [apply filter_sublist | apply sublist_take].
  - eapply Forall_impl; [apply filter_all_true|].
    intros r Hr. unfold live_pair, live in Hr.
    now apply negb_true_iff in Hr.
  - intros Hge. unfold live_entries. apply filter_perm.
    rewrite take_ge by (unfold Faiss.ntotal in Hge; lia).
    apply sorted_desc_perm.
  - intros Hz. unfold Faiss.ntotal in Hz.
    destruct (sorted_desc snd entries); [now rewrite take_nil|].
    simpl in Hlen. lia.
Qed.
End SearchRanked.

Lemma search_ranked_live_witness :
  exists results,
    VectorStore.search (SearchService.embed_query "east") 10 Scenario.five_live
    = Ok results
    /\ length results = 5%nat
    /\ StronglySorted (desc snd) results
    /\ Forall (fun r => VectorStore.is_deleted r.1 = false) results.
Proof.
  destruct (search_ranked_live Scenario.five_live
              (SearchService.embed_query "east") (encode "east") [] 10)
    as (results & Hs & Hr & Hsorted & Hlive & _);
    [reflexivity | lia | reflexivity | reflexivity |].
  exists results. repeat split; try assumption.
  rewrite Hr. vm_compute. reflexivity.
Defined.

(** C1, as stated, fails: with [k = 2] and a single live entry whose two
    better-scoring neighbours are deleted, [k] exceeds the number of live
    entries and yet the live entry is not returned. *)
Lemma search_misses_live_entry :
  1 <= 2
  /\ Claims.aligned Scenario.two_deleted
  /\ Z.of_nat (length (List.filter Claims.live
                         (VectorStore.metadata_store Scenario.two_deleted))) < 2
  /\ ~ Claims.returns_all_live Scenario.two_deleted
         (SearchService.embed_query "east") 2.
Proof.
  split; [lia|]. split; [reflexivity|]. split; [vm_compute; reflexivity|].
  intros (q & rest & results & Hrows & Hs & Hp).
  injection Hrows as <- <-.
  vm_compute in Hs. injection Hs as <-.
  apply Permutation_length in Hp. vm_compute in Hp. discriminate.
Qed.

(** ** [VectorStore.delete_resource] *)

Section DeleteFacts.
Context `{Kernels}.
Import VectorStore Claims.

Lemma mark_loop (resource_id : string) (metas : list (gmap string pyval))
    (n : Z) (acc : list (gmap string pyval)) :
  fold_left (mark_step resource_id) metas (n, acc)
  = (n + Z.of_nat (length (List.filter (matches resource_id) metas)),
     acc ++ map (marked resource_id) metas).
Proof.
  revert n acc. induction metas as [|m metas IH]; intros n acc.
  - simpl. now rewrite Z.add_0_r, app_nil_r.
  - cbn [fold_left List.filter map].
    assert (Hs : mark_step resource_id (n, acc) m
                 = if matches resource_id m
                   then (n + 1, acc ++ [<["deleted" := PBool true]> m])
                   else (n, acc ++ [m])) by reflexivity.
    assert (Hm : marked resource_id m
                 = if matches resource_id m
                   then <["deleted" := PBool true]> m else m) by reflexivity.
    rewrite Hs, Hm.
    destruct (matches resource_id m); rewrite IH, <- app_assoc.
    + cbn [length app]. f_equal. lia.
    + reflexivity.
Qed.

Lemma delete_resource_eq (resource_id : string) (self : t) (dir : index_dir) :
  let n := Z.of_nat (length (List.filter (matches resource_id)
                                         (metadata_store self))) in
  let self' := {| dimension := dimension self; index := index self;
                  metadata_store := map (marked resource_id)
                                        (metadata_store self) |} in
  delete_resource resource_id self dir
  = (n, self', if 0 <? n then save self' dir else dir).
Proof.
  unfold delete_resource. rewrite mark_loop. reflexivity.
Qed.

Lemma is_deleted_insert (m : gmap string pyval) :
  is_deleted (<["deleted" := PBool true]> m) = true.
Proof. unfold is_deleted, dict_get. now rewrite lookup_insert_eq. Qed.

Lemma of_resource_insert (r : string) (m : gmap string pyval) :
  of_resource r (<["deleted" := PBool true]> m) = of_resource r m.
Proof.
  unfold of_resource, dict_get. now rewrite lookup_insert_ne.
Qed.

Lemma matches_marked (r : string) (m : gmap string pyval) :
  matches r (marked r m) = false.
Proof.
  unfold marked. destruct (matches r m) eqn:E; [|exact E].
  unfold matches. rewrite is_deleted_insert. apply andb_false_r.
Qed.

Lemma marked_deleted (r : string) (m : gmap string pyval) :
  of_resource r m = true -> is_deleted (marked r m) = true.
Proof.
  intros Hr. unfold marked, matches. fold (of_resource r m). rewrite Hr.
  destruct (is_deleted m) eqn:E; simpl; [exact E | apply is_deleted_insert].
Qed.

Lemma filter_matches_marked (r : string) (metas : list (gmap string pyval)) :
  List.filter (matches r) (map (marked r) metas) = [].
Proof.
  induction metas as [|m metas IH]; [reflexivity|].
  cbn [map List.filter]. now rewrite matches_marked.
Qed.

Lemma marked_idem (r : string) (metas : list (gmap string pyval)) :
  map (marked r) (map (marked r) metas) = map (marked r) metas.
Proof.
  rewrite map_map. apply map_ext. intros m.
  unfold marked at 1. now rewrite matches_marked.
Qed.

Lemma flips_iff_matches (r : string) (m : gmap string pyval) :
  live m && is_deleted (marked r m) = matches r m.
Proof.
  unfold marked, matches, live.
  destruct (py_eq (dict_get m "resource_id" PNone) (PStr r)); cbn [andb].
  - destruct (is_deleted m) eqn:E; cbn [negb andb]; [reflexivity|].
    now rewrite is_deleted_insert.
  - destruct (is_deleted m); reflexivity.
Qed.

Lemma newly_marked_count (r : string) (metas : list (gmap string pyval)) :
  newly_marked metas (map (marked r) metas)
  = Z.of_nat (length (List.filter (matches r) metas)).
Proof.
  unfold newly_marked. f_equal.
  induction metas as [|m metas IH]; [reflexivity|].
  change (zip (m :: metas) (map (marked r) (m :: metas)))
    with ((m, marked r m) :: zip metas (map (marked r) metas)).
  cbn [List.filter fst snd]. rewrite flips_iff_matches.
  destruct (matches r m); cbn [length]; now rewrite IH.
Qed.
End DeleteFacts.

Section DeleteClaims.
Context `{Kernels}.
Import VectorStore Claims.

(** C6.  [delete_resource r] marks every live entry of resource [r] as
    deleted and returns how many entries it newly marked; a second call
    right after it returns 0 and changes nothing. *)
Theorem delete_resource_idempotent (r : string) (self : t) (dir : index_dir) :
  exists n self' dir',
    delete_resource r self dir = (n, self', dir')
    /\ 0 <= n
    /\ n = newly_marked (metadata_store self) (metadata_store self')
    /\ n = Z.of_nat (length (List.filter
                               (fun m => of_resource r m && live m)
                               (metadata_store self)))
    /\ Forall (fun m => of_resource r m = true -> is_deleted m = true)
              (metadata_store self')
    /\ delete_resource r self' dir' = (0, self', dir').
Proof.
  rewrite delete_resource_eq. cbv zeta.
  eexists _, _, _. split; [reflexivity|].
  cbn [metadata_store]. repeat split.
  - lia.
  - now rewrite newly_marked_count.
  - apply Forall_forall. intros m' Hm'.
    apply list_elem_of_fmap in Hm' as (m & -> & _).
    intros Hr. apply marked_deleted.
    unfold marked in Hr. destruct (matches r m); [|exact Hr].
    now rewrite of_resource_insert in Hr.
  - rewrite delete_resource_eq. cbv zeta. cbn [metadata_store dimension index].
    rewrite filter_matches_marked, marked_idem. reflexivity.
Qed.

(** C10.  [delete_resource] keeps the vector storage, the number and the
    order of the metadata entries and every key other than ["deleted"]; an
    entry changes only by getting [deleted = True], and only if it belongs
    to the resource and was not deleted before; when at least one entry was
    marked the two index files are rewritten from the new state. *)
Theorem delete_resource_frame (r : string) (self : t) (dir : index_dir) :
  exists n self' dir',
    delete_resource r self dir = (n, self', dir')
    /\ index self' = index self
    /\ dimension self' = dimension self
    /\ length (metadata_store self') = length (metadata_store self)
    /\ Forall2
         (fun m m' =>
            (forall key, key <> "deleted" -> m' !! key = m !! key)
            /\ (of_resource r m = true -> is_deleted m = false ->
                m' = <["deleted" := PBool true]> m)
            /\ (of_resource r m = false \/ is_deleted m = true -> m' = m))
         (metadata_store self) (metadata_store self')
    /\ dir' = (if 0 <? n then save self' dir else dir).
Proof.
  rewrite delete_resource_eq. cbv zeta.
  eexists _, _, _. split; [reflexivity|].
  cbn [metadata_store dimension index]. repeat split.
  - apply length_map.
  - induction (metadata_store self) as [|m metas IH]; [constructor|].
    cbn [map]. constructor; [|exact IH].
    unfold marked, matches. fold (of_resource r m).
    destruct (of_resource r m), (is_deleted m); cbn [andb negb];
      repeat split; try reflexivity; try discriminate.
    + intros key Hk. now apply lookup_insert_ne.
    + intros [?|?]; discriminate.
Qed.
End DeleteClaims.

(** ** The alignment invariant *)

Section Alignment.
Context `{Kernels}.
Import VectorStore Claims.

Lemma describes_length (log : list (vec * gmap string pyval))
    (ix : Faiss.IndexFlatIP) (metas : list (gmap string pyval)) :
  describes log ix metas -> length (Faiss.xb ix) = length metas.
Proof.
  intros [Hx Hm]. rewrite Hx, length_map.
  now apply Forall2_length in Hm.
Qed.

Lemma zip_rows (rows : list vec) (metadatas : list (gmap string pyval)) :
  length rows = length metadatas ->
  map (fun e : vec * gmap string pyval => normalize_row e.1) (zip rows metadatas)
  = map normalize_row rows
  /\ Forall2 (fun e m => same_chunk e.2 m) (zip rows metadatas) metadatas.
Proof.
  revert metadatas. induction rows as [|x rows IH];
    intros [|m metadatas] Hlen; try discriminate.
  - split; [reflexivity | constructor].
  - destruct (IH metadatas) as [IH1 IH2]; [simpl in Hlen; lia|].
    change (zip (x :: rows) (m :: metadatas))
      with ((x, m) :: zip rows metadatas).
    cbn [map fst]. rewrite IH1.
    split; [reflexivity|]. constructor; [now left | exact IH2].
Qed.

Lemma describes_append (log : list (vec * gmap string pyval))
    (self self' : t) (embeddings : Faiss.ndarray)
    (metadatas : list (gmap string pyval)) :
  describes log (index self) (metadata_store self) ->
  add_documents embeddings metadatas self = Ok self' ->
  describes (log ++ zip (Faiss.rows embeddings) metadatas)
            (index self') (metadata_store self').
Proof.
  intros [Hx Hm]. unfold add_documents, Faiss.add, Faiss.normalize_L2.
  cbn [Faiss.ncols Faiss.rows].
  destruct (Z.eqb_spec (Z.of_nat (length (Faiss.rows embeddings)))
                       (Z.of_nat (length metadatas))) as [Hlen|]; [|discriminate].
  apply Nat2Z.inj in Hlen. cbn [negb].
  destruct (Faiss.ncols embeddings =? Faiss.d (index self)); [|discriminate].
  cbn [bind]. intros [= <-].
  destruct (zip_rows _ _ Hlen) as [Hrows Hmetas].
  split; simpl.
  - now rewrite Hx, map_app, Hrows.
  - now apply Forall2_app.
Qed.

Lemma same_chunk_marked (r : string) (original current : gmap string pyval) :
  same_chunk original current -> same_chunk original (marked r current).
Proof.
  unfold marked. destruct (matches r current); [|trivial].
  intros [->| ->]; right; [reflexivity|].
  apply insert_insert_eq.
Qed.

Lemma describes_marked (r : string) (log : list (vec * gmap string pyval))
    (ix : Faiss.IndexFlatIP) (metas : list (gmap string pyval)) :
  describes log ix metas -> describes log ix (map (marked r) metas).
Proof.
  intros [Hx Hm]. split; [exact Hx|]. clear Hx.
  induction Hm as [|e m log metas Hem _ IH]; [constructor|].
  cbn [map]. constructor; [now apply same_chunk_marked | exact IH].
Qed.

Lemma describes_load (log : list (vec * gmap string pyval))
    (self self' : t) (dir : index_dir) :
  files_describe log dir -> load self dir = Ok self' ->
  describes log (index self') (metadata_store self').
Proof.
  unfold files_describe, load.
  destruct (index_faiss dir), (metadata_pkl dir); try discriminate.
  intros Hd [= <-]. exact Hd.
Qed.

(** C2.  In every state reached from a first start by [add_documents],
    [delete_resource], [save], [load] and restarts, in memory and in the
    files: the vector storage and the metadata sequence have the same
    length, and position by position the vector is the normalised vector of
    the appended pair whose metadata (up to its [deleted] flag) stands at
    that position. *)
Theorem alignment_invariant (mem disk : list (vec * gmap string pyval))
    (self : t) (dir : index_dir) :
  reachable mem disk self dir ->
  aligned self
  /\ describes mem (index self) (metadata_store self)
  /\ files_describe disk dir
  /\ (forall ix metas,
        index_faiss dir = Some ix -> metadata_pkl dir = Some metas ->
        length (Faiss.xb ix) = length metas).
Proof.
  intros Hr.
  enough (describes mem (index self) (metadata_store self)
          /\ files_describe disk dir) as [Hm Hd].
  { split; [now apply describes_length with mem|].
    split; [exact Hm|]. split; [exact Hd|].
    intros ix metas Hix Hmetas. unfold files_describe in Hd.
    rewrite Hix, Hmetas in Hd. now apply describes_length with disk. }
  induction Hr as
    [dimension self Hinit
    |mem disk self dir embeddings metadatas self' _ [IHm IHd] Hadd
    |mem disk self dir r n self' dir' _ [IHm IHd] Hdel
    |mem disk self dir _ [IHm IHd]
    |mem disk self dir self' _ [IHm IHd] Hload
    |mem disk self dir dimension self' _ [IHm IHd] Hinit].
  - cbn in Hinit. injection Hinit as <-.
    split; [split; [reflexivity | constructor] | reflexivity].
  - split; [now apply describes_append with self | exact IHd].
  - rewrite delete_resource_eq in Hdel. cbv zeta in Hdel.
    injection Hdel as <- <- <-.
    cbn [index metadata_store].
    split; [now apply describes_marked|].
    destruct (0 <? _); [|exact IHd].
    unfold files_describe, save. cbn. now apply describes_marked.
  - split; [exact IHm|]. unfold files_describe, save. cbn. exact IHm.
  - split; [now apply describes_load with self dir | exact IHd].
  - split; [|exact IHd]. unfold init in Hinit.
    destruct (load _ dir) as [loaded|e] eqn:Hload.
    + injection Hinit as <-. now apply describes_load with (1 := IHd) (2 := Hload).
    + destruct e; try discriminate. injection Hinit as <-.
      unfold files_describe in IHd. unfold load in Hload.
      destruct (index_faiss dir), (metadata_pkl dir);
        try discriminate; try contradiction.
      subst disk. split; [reflexivity | constructor].
Qed.
End Alignment.

Lemma alignment_invariant_witness :
  Claims.aligned Scenario.two_deleted
  /\ Claims.describes (H := Scenario.kernels)
       (zip Scenario.three_rows
            [Scenario.a_live; Scenario.b_live; Scenario.c_c])
       (VectorStore.index Scenario.two_deleted)
       (VectorStore.metadata_store Scenario.two_deleted).
Proof.
  pose proof (Claims.reach_init 2 Scenario.empty_store eq_refl) as R0.
  assert (Hadd : VectorStore.add_documents (Scenario.array Scenario.three_rows)
                   [Scenario.a_live; Scenario.b_live; Scenario.c_c]
                   Scenario.empty_store = Ok Scenario.uploaded)
    by reflexivity.
  pose proof (Claims.reach_add _ _ _ _ _ _ _ R0 Hadd) as R1.
  assert (Hdel : VectorStore.delete_resource "R1" Scenario.uploaded
                   VectorStore.no_files
                 = (2, Scenario.two_deleted,
                    VectorStore.save Scenario.two_deleted VectorStore.no_files))
    by (vm_compute; reflexivity).
  pose proof (Claims.reach_delete _ _ _ _ _ _ _ _ R1 Hdel) as R2.
  destruct (alignment_invariant _ _ _ _ R2) as (Ha & Hd & _).
  split; [exact Ha | exact Hd].
Defined.

(** ** [Reranker.rerank] *)

Lemma Qmin_cases (x y : Q) :
  (Qmin x y = x /\ (x <= y)%Q) \/ (Qmin x y = y /\ (y <= x)%Q).
Proof.
  unfold Qmin, GenericMinMax.gmin.
  destruct (x ?= y)%Q eqn:E.
  - left. split; [reflexivity|]. apply Qeq_alt in E. rewrite E. apply Qle_refl.
  - left. split; [reflexivity|]. apply Qlt_alt in E. now apply Qlt_le_weak.
  - right. split; [reflexivity|]. apply Qgt_alt in E. now apply Qlt_le_weak.
Qed.

Lemma Qmax_cases (x y : Q) :
  (Qmax x y = x /\ (y <= x)%Q) \/ (Qmax x y = y /\ (x <= y)%Q).
Proof.
  unfold Qmax, GenericMinMax.gmax.
  destruct (x ?= y)%Q eqn:E.
  - left. split; [reflexivity|]. apply Qeq_alt in E. rewrite E. apply Qle_refl.
  - right. split; [reflexivity|]. apply Qlt_alt in E. now apply Qlt_le_weak.
  - left. split; [reflexivity|]. apply Qgt_alt in E. now apply Qlt_le_weak.
Qed.

Lemma fold_min_spec (l : list Q) (a : Q) :
  In (fold_left Qmin l a) (a :: l)
  /\ Forall (fun s => (fold_left Qmin l a <= s)%Q) (a :: l).
Proof.
  revert a. induction l as [|x l IH]; intros a; cbn [fold_left].
  - split; [now left|]. constructor; [apply Qle_refl | constructor].
  - destruct (IH (Qmin a x)) as [Hin Hle].
    apply Forall_cons in Hle as [Hhd Htl].
    destruct (Qmin_cases a x) as [[E Hax]|[E Hxa]]; rewrite E in *.
    + split.
      * destruct Hin as [<-|Hin]; [now left | right; now right].
      * constructor; [exact Hhd|]. constructor; [|exact Htl].
        now apply Qle_trans with a.
    + split.
      * destruct Hin as [<-|Hin]; [right; now left | right; now right].
      * constructor; [now apply Qle_trans with x|].
        constructor; [exact Hhd | exact Htl].
Qed.

Lemma fold_max_spec (l : list Q) (a : Q) :
  In (fold_left Qmax l a) (a :: l)
  /\ Forall (fun s => (s <= fold_left Qmax l a)%Q) (a :: l).
Proof.
  revert a. induction l as [|x l IH]; intros a; cbn [fold_left].
  - split; [now left|]. constructor; [apply Qle_refl | constructor].
  - destruct (IH (Qmax a x)) as [Hin Hle].
    apply Forall_cons in Hle as [Hhd Htl].
    destruct (Qmax_cases a x) as [[E Hxa]|[E Hax]]; rewrite E in *.
    + split.
      * destruct Hin as [<-|Hin]; [now left | right; now right].
      * constructor; [exact Hhd|]. constructor; [|exact Htl].
        now apply Qle_trans with a.
    + split.
      * destruct Hin as [<-|Hin]; [right; now left | right; now right].
      * constructor; [now apply Qle_trans with x|].
        constructor; [exact Hhd | exact Htl].
Qed.

Lemma array_min_spec (scores : list Q) :
  scores <> [] -> Claims.is_min (Reranker.array_min scores) scores.
Proof.
  destruct scores as [|s rest]; [congruence|]. intros _.
  apply fold_min_spec.
Qed.

Lemma array_max_spec (scores : list Q) :
  scores <> [] -> Claims.is_max (Reranker.array_max scores) scores.
Proof.
  destruct scores as [|s rest]; [congruence|]. intros _.
  apply fold_max_spec.
Qed.

Lemma normalized_spec (n : nat) (lo hi raw : Q) :
  (lo <= raw)%Q -> (raw <= hi)%Q ->
  let score := Reranker.normalized n lo (hi - lo) raw in
  (0 <= score)%Q /\ (score <= 1)%Q
  /\ ((lo < hi)%Q -> score = ((raw - lo) / (hi - lo))%Q)
  /\ ((hi == lo)%Q -> score = if (n =? 1)%nat then 1%Q else (1 # 2)%Q).
Proof.
  intros Hlo Hhi. unfold Reranker.normalized.
  destruct (Qlt_bool 0 (hi - lo)) eqn:E.
  - apply Qlt_bool_true in E. repeat split.
    + apply Qle_shift_div_l; [exact E | lra].
    + apply Qle_shift_div_r; [exact E | lra].
    + intros Heq. rewrite Heq in E. lra.
  - apply Qlt_bool_false in E. repeat split.
    + destruct (n =? 1)%nat; lra.
    + destruct (n =? 1)%nat; lra.
    + intros Hlt. lra.
Qed.

Lemma slice_sublist {A : Type} (l : list A) (start stop : Z) :
  sublist (slice l start stop) l.
Proof.
  unfold slice. etransitivity; [apply sublist_take | apply sublist_drop].
Qed.

Lemma Forall_sublist {A : Type} (P : A -> Prop) (l1 l2 : list A) :
  sublist l1 l2 -> Forall P l2 -> Forall P l1.
Proof.
  intros Hsub Hall. rewrite Forall_forall in Hall |- *.
  intros x Hx. apply Hall. now apply elem_of_sublist with l1.
Qed.

Section RerankFacts.
Context `{Kernels}.
Import Reranker Claims.

Lemma rerank_eq (query : string) (documents : list document) (top_k : Z) :
  documents <> [] ->
  rerank query documents top_k
  = slice (sorted_desc rerank_score (with_scores query documents)) 0 top_k.
Proof.
  intros Hne. unfold rerank, with_scores.
  destruct documents as [|d0 ds] eqn:Hd; [congruence|]. rewrite <- Hd.
  assert (Hp : predict (map (fun doc => (query, text doc)) documents)
               = map (raw_score query) documents).
  { unfold predict. rewrite map_map. reflexivity. }
  rewrite Hp. do 2 f_equal.
  generalize (length documents) as n.
  generalize (array_min (map (raw_score query) documents)) as lo.
  generalize (array_max (map (raw_score query) documents)) as hi.
  intros hi lo n. clear. induction documents as [|d ds IH]; [reflexivity|].
  cbn [map]. change (zip (d :: ds) (raw_score query d :: map (raw_score query) ds))
    with ((d, raw_score query d) :: zip ds (map (raw_score query) ds)).
  cbn [map fst snd]. now rewrite IH.
Qed.

Lemma scores_equal_or_spread (scores : list Q) :
  scores <> [] ->
  (array_min scores < array_max scores)%Q \/ all_equal scores.
Proof.
  intros Hne.
  destruct (array_min_spec scores Hne) as [Hlo_in Hlo].
  destruct (array_max_spec scores Hne) as [Hhi_in Hhi].
  destruct (Qlt_le_dec (array_min scores) (array_max scores)) as [Hlt|Hle];
    [now left | right].
  rewrite List.Forall_forall in Hlo, Hhi.
  intros s1 s2 H1 H2.
  pose proof (Hlo _ H1). pose proof (Hhi _ H1).
  pose proof (Hlo _ H2). pose proof (Hhi _ H2). lra.
Qed.

Lemma all_equal_range (scores : list Q) :
  scores <> [] -> all_equal scores ->
  (array_max scores == array_min scores)%Q.
Proof.
  intros Hne Heq.
  destruct (array_min_spec scores Hne) as [Hlo_in _].
  destruct (array_max_spec scores Hne) as [Hhi_in _].
  now apply Heq.
Qed.

Lemma with_scores_ok (query : string) (documents : list document) :
  documents <> [] ->
  Forall (score_ok query documents) (with_scores query documents).
Proof.
  intros Hne.
  assert (Hs : map (raw_score query) documents <> [])
    by (destruct documents; [congruence | discriminate]).
  destruct (array_min_spec _ Hs) as [_ Hlo].
  destruct (array_max_spec _ Hs) as [_ Hhi].
  rewrite List.Forall_forall in Hlo, Hhi.
  apply List.Forall_forall. intros r Hr.
  unfold with_scores in Hr. apply in_map_iff in Hr as (d & <- & Hd).
  assert (Hin : In (raw_score query d) (map (raw_score query) documents))
    by now apply in_map.
  destruct (normalized_spec (length documents) _ _ _ (Hlo _ Hin) (Hhi _ Hin))
    as (H0 & H1 & Hspread & Hflat).
  unfold score_ok. cbn [rerank_score doc].
  repeat split; try assumption.
  intros Heq. apply Hflat. now apply all_equal_range.
Qed.
End RerankFacts.

Section RerankClaim.
Context `{Kernels}.
Import Reranker Claims.

(** C3.  For a non-empty batch, every returned candidate carries
    [(raw - min) / (max - min)] over the raw scores of the batch when these
    differ, and 1.0 (one candidate) or 0.5 (several) when they are all
    equal; the score lies in [[0, 1]]; the result is the first [top_k] of
    the batch sorted by descending score, equal scores in pre-rerank
    order. *)
Theorem rerank_normalized_sorted (query : string) (documents : list document)
    (top_k : Z) :
  documents <> [] ->
  let scores := map (raw_score query) documents in
  exists reranked : list ranked,
    rerank query documents top_k = slice reranked 0 top_k
    /\ map doc (with_scores query documents) = documents
    /\ Permutation reranked (with_scores query documents)
    /\ StronglySorted (desc rerank_score) reranked
    /\ (forall c,
          List.filter (same_key rerank_score c) reranked
          = List.filter (same_key rerank_score c) (with_scores query documents))
    /\ is_min (array_min scores) scores
    /\ is_max (array_max scores) scores
    /\ ((array_min scores < array_max scores)%Q \/ all_equal scores)
    /\ Forall (score_ok query documents) (rerank query documents top_k)
    /\ StronglySorted (desc rerank_score) (rerank query documents top_k).
Proof.
  intros Hne scores.
  assert (Hs : scores <> [])
    by (unfold scores; destruct documents; [congruence | discriminate]).
  exists (sorted_desc rerank_score (with_scores query documents)).
  rewrite rerank_eq by exact Hne.
  split; [reflexivity|]. split.
  { unfold with_scores. rewrite map_map. cbn [doc]. apply map_id. }
  split; [apply sorted_desc_perm|].
  split; [apply sorted_desc_sorted|].
  split; [intros c; apply sorted_desc_stable|].
  split; [now apply array_min_spec|].
  split; [now apply array_max_spec|].
  split; [now apply scores_equal_or_spread|].
  split.
  - eapply Forall_sublist; [apply slice_sublist|].
    eapply Permutation_Forall; [symmetry; apply sorted_desc_perm|].
    now apply with_scores_ok.
  - eapply desc_sublist; [apply slice_sublist | apply sorted_desc_sorted].
Qed.
End RerankClaim.

Lemma rerank_normalized_sorted_witness :
  Forall (Claims.score_ok (H := Scenario.kernels) "east" Scenario.batch)
         (Reranker.rerank (H := Scenario.kernels) "east" Scenario.batch 3).
Proof.
  destruct (rerank_normalized_sorted (H := Scenario.kernels) "east"
              Scenario.batch 3)
    as (reranked & _ & _ & _ & _ & _ & _ & _ & _ & Hok & _);
    [discriminate | exact Hok].
Defined.

(** ** Strings *)












(** ** Letter case on ASCII text *)










(** ** [SearchService._apply_filters] *)

Section FilterFacts.
Context `{Kernels}.
Import SearchService Claims.

Lemma passes_keepb (filters metadata : gmap string pyval) (score : Q) :
  has_file_name (metadata, score) -> filters_ok filters ->
  passes filters metadata = Ok (keepb filters (metadata, score)).
Proof.
  intros [name Hn] [Ht Hf]. cbn [fst] in Hn.
  unfold passes, passes_type, passes_file_name, keepb, dict_item.
  cbn [fst]. rewrite Hn.
  destruct (filters !! "type") as [[| | |wanted]|] eqn:Et;
    try contradiction; cbn [bool_decide bind as_str];
    [rewrite bool_decide_true by eauto | rewrite bool_decide_false by
       (intros [? ?]; discriminate)]; cbn [bind as_str].
  - destruct (String.eqb (ext_of name) (str_lower wanted)); cbn [andb];
      [|reflexivity].
    destruct (filters !! "file_name") as [[| | |sub]|] eqn:Ef;
      try contradiction;
      [rewrite bool_decide_true by eauto | rewrite bool_decide_false by
         (intros [? ?]; discriminate)]; reflexivity.
  - cbn [andb].
    destruct (filters !! "file_name") as [[| | |sub]|] eqn:Ef;
      try contradiction;
      [rewrite bool_decide_true by eauto | rewrite bool_decide_false by
         (intros [? ?]; discriminate)]; reflexivity.
Qed.

Lemma apply_filters_eq (results : list (gmap string pyval * Q))
    (filters : gmap string pyval) :
  Forall has_file_name results -> filters_ok filters ->
  _apply_filters results filters = Ok (List.filter (keepb filters) results).
Proof.
  intros Hn Hf. induction Hn as [|[metadata score] results Hc _ IH];
    [reflexivity|].
  cbn [_apply_filters List.filter].
  rewrite (passes_keepb _ _ score Hc Hf), IH. reflexivity.
Qed.


End FilterFacts.

Section FilterClaim.
Context `{Kernels}.
Import SearchService Claims.

End FilterClaim.



(** ** Slices *)

Lemma slice_prefix {A : Type} (l : list A) (k : Z) :
  0 <= k -> slice l 0 k = take (Z.to_nat k) l.
Proof.
  intros Hk. unfold slice, clamp_index.
  destruct (Z.ltb_spec 0 0) as [?|_]; [lia|].
  destruct (Z.ltb_spec k 0) as [?|_]; [lia|].
  rewrite (Z.min_l 0) by lia.
  change (Z.to_nat 0) with 0%nat. rewrite drop_0, Z.sub_0_r.
  destruct (Z.le_ge_cases k (Z.of_nat (length l))).
  - now rewrite Z.min_l.
  - rewrite Z.min_r by lia. rewrite Nat2Z.id, !take_ge; [reflexivity|lia|lia].
Qed.

Lemma slice_nil {A : Type} (start stop : Z) : slice (@nil A) start stop = [].
Proof. unfold slice. now rewrite drop_nil, take_nil. Qed.

Lemma slice_page {A : Type} (l : list A) (offset limit : Z) :
  0 <= offset -> 1 <= limit ->
  slice l offset (offset + limit)
  = take (Z.to_nat limit) (drop (Z.to_nat offset) l).
Proof.
  intros Ho Hl. unfold slice, clamp_index.
  destruct (Z.ltb_spec offset 0) as [?|_]; [lia|].
  destruct (Z.ltb_spec (offset + limit) 0) as [?|_]; [lia|].
  destruct (Z.le_ge_cases (Z.of_nat (length l)) offset) as [Hge|Hlt].
  - rewrite !drop_ge by lia. now rewrite !take_nil.
  - rewrite (Z.min_l offset) by lia.
    destruct (Z.le_ge_cases (offset + limit) (Z.of_nat (length l))).
    + rewrite Z.min_l by lia. f_equal. lia.
    + rewrite Z.min_r by lia.
      rewrite !take_ge; [reflexivity | |]; rewrite length_drop; lia.
Qed.

Lemma slice_page_length {A : Type} (l : list A) (offset limit : Z) :
  0 <= offset -> 1 <= limit ->
  Z.of_nat (length (slice l offset (offset + limit)))
  = Z.min limit (Z.max 0 (Z.of_nat (length l) - offset)).
Proof.
  intros Ho Hl. rewrite slice_page by assumption.
  rewrite length_take, length_drop. lia.
Qed.

(** ** [SearchService.search] *)

Section PipelineFacts.
Context `{Kernels}.
Import SearchService Claims.

Lemma well_formed_has_file_name (c : gmap string pyval * Q) :
  well_formed_chunk c.1 = true -> has_file_name c.
Proof.
  unfold well_formed_chunk, has_file_name.
  destruct (c.1 !! "text") as [[]|]; try discriminate.
  destruct (c.1 !! "file_name") as [[| | |name]|]; try discriminate.
  intros _. now exists name.
Qed.

Lemma candidates_ok (query : string) (filters : option (gmap string pyval))
    (offset limit : Z) (store : VectorStore.t) :
  searchable store -> request_filters_ok filters ->
  exists cands,
    candidates query filters offset limit store = Ok cands
    /\ Forall (fun c => well_formed_chunk c.1 = true) cands.
Proof.
  intros (Hal & Hdim & Hwf) Hf. unfold candidates.
  rewrite (search_eq store (embed_query query) (encode query) []);
    [|exact Hal | unfold candidates_needed; lia | reflexivity | exact Hdim].
  cbn [bind].
  set (recalled := List.filter _ _).
  assert (Hrec : Forall (fun c => well_formed_chunk c.1 = true) recalled).
  { eapply Forall_sublist.
    { etransitivity; [apply filter_sublist|]. apply sublist_take. }
    eapply Permutation_Forall; [symmetry; apply sorted_desc_perm|].
    apply Forall_forall. intros [m s] Hin. cbn [fst].
    rewrite Forall_forall in Hwf. apply Hwf.
    unfold scored_entries in Hin. now apply elem_of_zip_l in Hin. }
  destruct (filters_given filters) eqn:Hg.
  - destruct filters as [f|]; [|discriminate]. cbn [default].
    rewrite apply_filters_eq.
    + eexists. split; [reflexivity|].
      eapply Forall_sublist; [apply filter_sublist | exact Hrec].
    + eapply Forall_impl; [exact Hrec|]. apply well_formed_has_file_name.
    + exact Hf.
  - eexists. split; [reflexivity | exact Hrec].
Qed.

Lemma build_documents_ok (cands : list (gmap string pyval * Q)) :
  Forall (fun c => well_formed_chunk c.1 = true) cands ->
  exists documents,
    build_documents cands = Ok documents
    /\ length documents = length cands
    /\ Forall document_ok documents.
Proof.
  induction 1 as [|[m s] cands Hm _ (documents & Hb & Hlen & Hok)].
  - exists []. repeat split. constructor.
  - cbn [build_documents]. unfold dict_item.
    assert (exists t, m !! "text" = Some t) as [t Ht].
    { cbn [fst] in Hm. unfold well_formed_chunk in Hm.
      destruct (m !! "text"); [eauto | discriminate]. }
    rewrite Ht, Hb. cbn [bind]. eexists. split; [reflexivity|].
    split; [simpl; now rewrite Hlen|].
    constructor; [|exact Hok]. split; [exact Hm | exact Ht].
Qed.

Lemma rerank_documents (query : string) (documents : list Reranker.document)
    (k : Z) (P : Reranker.document -> Prop) :
  Forall P documents ->
  Forall (fun r => P (Reranker.doc r)) (Reranker.rerank query documents k).
Proof.
  intros HP. destruct documents as [|d ds] eqn:Hd; [constructor|].
  rewrite <- Hd in *. rewrite rerank_eq by (rewrite Hd; discriminate).
  eapply Forall_sublist; [apply slice_sublist|].
  eapply Permutation_Forall; [symmetry; apply sorted_desc_perm|].
  unfold with_scores. rewrite Forall_fmap.
  eapply Forall_impl; [exact HP|]. intros x Hx. exact Hx.
Qed.

Lemma rerank_length (query : string) (documents : list Reranker.document)
    (k : Z) :
  0 <= k ->
  Z.of_nat (length (Reranker.rerank query documents k))
  = Z.min (Z.of_nat (length documents)) k.
Proof.
  intros Hk. destruct documents as [|d ds] eqn:Hd; [simpl; lia|].
  rewrite <- Hd in *. rewrite rerank_eq by (rewrite Hd; discriminate).
  rewrite slice_prefix by exact Hk.
  rewrite length_take, sorted_desc_length. unfold with_scores.
  rewrite length_map. lia.
Qed.

Lemma format_results_ok (paginated : list Reranker.ranked) :
  Forall (fun r => document_ok (Reranker.doc r)) paginated ->
  exists formatted,
    format_results paginated = Ok formatted
    /\ length formatted = length paginated
    /\ map rerank_score formatted = map Reranker.rerank_score paginated.
Proof.
  induction 1 as [|r paginated [Hwf Ht] _ (formatted & Hf & Hlen & Hs)].
  - exists []. repeat split.
  - cbn [format_results]. unfold format_result, dict_item.
    unfold well_formed_chunk in Hwf. rewrite Ht in Hwf.
    destruct (Reranker.text (Reranker.doc r)); try discriminate.
    destruct (Reranker.metadata (Reranker.doc r) !! "file_name")
      as [[| | |fn]|]; try discriminate.
    destruct (Reranker.metadata (Reranker.doc r) !! "page_number")
      as [[| |pn|]|]; try discriminate.
    destruct (Reranker.metadata (Reranker.doc r) !! "resource_id")
      as [[| | |rid]|]; try discriminate.
    destruct (Reranker.metadata (Reranker.doc r) !! "chunk_id")
      as [[| | |cid]|]; try discriminate.
    cbn [bind valid_str valid_int]. rewrite Hf. cbn [bind].
    eexists. split; [reflexivity|].
    split; simpl; [now rewrite Hlen | now rewrite Hs].
Qed.
End PipelineFacts.

Section PipelineClaims.
Context `{Kernels}.
Import SearchService Claims.

Lemma search_response (query : string) (filters : option (gmap string pyval))
    (top_k offset limit : Z) (clock : Q * Q) (store : VectorStore.t) :
  searchable store -> request_filters_ok filters ->
  0 <= offset -> 1 <= limit ->
  exists cands reranked formatted,
    candidates query filters offset limit store = Ok cands
    /\ rerank_stage query offset limit cands = Ok reranked
    /\ format_results (slice reranked offset (offset + limit)) = Ok formatted
    /\ length formatted = length (slice reranked offset (offset + limit))
    /\ Z.of_nat (length reranked)
       = Z.min (Z.of_nat (length cands)) (offset + limit + 10)
    /\ search query filters top_k offset limit clock store
       = Ok {| query := query; results := formatted;
               total_found := Z.of_nat (length reranked);
               search_time_ms := ((clock.2 - clock.1) * 1000)%Q;
               has_more := offset + limit <? Z.of_nat (length reranked);
               offset := offset; limit := limit |}.
Proof.
  intros Hs Hf Ho Hl.
  destruct (candidates_ok query filters offset limit store Hs Hf)
    as (cands & Hc & Hwf).
  destruct (build_documents_ok cands Hwf) as (documents & Hb & Hlen & Hok).
  set (reranked := Reranker.rerank query documents
                     (rerank_top_k documents offset limit)).
  assert (Hstage : rerank_stage query offset limit cands = Ok reranked)
    by (unfold rerank_stage; now rewrite Hb).
  assert (Hrk : Forall (fun r => document_ok (Reranker.doc r)) reranked)
    by now apply rerank_documents.
  destruct (format_results_ok (slice reranked offset (offset + limit)))
    as (formatted & Hfmt & Hflen & _).
  { eapply Forall_sublist; [apply slice_sublist | exact Hrk]. }
  assert (Hrlen : Z.of_nat (length reranked)
                  = Z.min (Z.of_nat (length cands)) (offset + limit + 10)).
  { unfold reranked. rewrite rerank_length; unfold rerank_top_k; lia. }
  exists cands, reranked, formatted.
  repeat (split; [assumption|]).
  unfold search. rewrite Hc. cbn [bind].
  destruct cands as [|c cands].
  - simpl in Hrlen.
    assert (reranked = []) as Hnil by (destruct reranked; [reflexivity | simpl in Hrlen; lia]).
    rewrite Hnil in *. rewrite slice_nil in Hflen.
    destruct formatted; [|discriminate].
    cbn [length]. f_equal. f_equal.
    symmetry. apply Z.ltb_ge. simpl. lia.
  - rewrite Hstage. cbn [bind]. rewrite Hfmt. reflexivity.
Qed.

(** C4.  For [offset >= 0] and [limit >= 1], on a searchable store, the
    response holds the reranked candidates from position [offset] up to,
    not including, [offset + limit]: that is
    [min(limit, max(0, len(reranked) - offset))] results; and [has_more]
    says whether [offset + limit < len(reranked)]. *)
Theorem search_paginates (query : string) (filters : option (gmap string pyval))
    (top_k offset limit : Z) (clock : Q * Q) (store : VectorStore.t) :
  searchable store -> request_filters_ok filters ->
  0 <= offset -> 1 <= limit ->
  exists cands reranked response,
    candidates query filters offset limit store = Ok cands
    /\ rerank_stage query offset limit cands = Ok reranked
    /\ search query filters top_k offset limit clock store = Ok response
    /\ format_results (take (Z.to_nat limit) (drop (Z.to_nat offset) reranked))
       = Ok (results response)
    /\ slice reranked offset (offset + limit)
       = take (Z.to_nat limit) (drop (Z.to_nat offset) reranked)
    /\ Z.of_nat (length (results response))
       = Z.min limit (Z.max 0 (Z.of_nat (length reranked) - offset))
    /\ (has_more response = true <-> offset + limit < Z.of_nat (length reranked)).
Proof.
  intros Hs Hf Ho Hl.
  destruct (search_response query filters top_k offset limit clock store
              Hs Hf Ho Hl)
    as (cands & reranked & formatted & Hc & Hr & Hfmt & Hlen & _ & Hresp).
  eexists cands, reranked, _.
  split; [exact Hc|]. split; [exact Hr|]. split; [exact Hresp|].
  cbn [results has_more].
  split; [now rewrite <- slice_page|].
  split; [now apply slice_page|].
  split; [rewrite Hlen; now apply slice_page_length|].
  apply Z.ltb_lt.
Qed.

(** C5.  On a searchable store, for a request within the bounds of the
    request schema: when candidates remain after filtering, [total_found]
    is the length of the reranked sequence, which is
    [min(number of filtered candidates, offset + limit + 10)]; when none
    remain, the response has no results, [total_found = 0],
    [has_more = false] and the requested [offset] and [limit]. *)
Theorem search_total_found (query : string)
    (filters : option (gmap string pyval))
    (top_k offset limit : Z) (clock : Q * Q) (store : VectorStore.t) :
  searchable store -> request_filters_ok filters ->
  0 <= offset -> 1 <= limit ->
  exists cands reranked response,
    candidates query filters offset limit store = Ok cands
    /\ rerank_stage query offset limit cands = Ok reranked
    /\ search query filters top_k offset limit clock store = Ok response
    /\ SearchService.offset response = offset
    /\ SearchService.limit response = limit
    /\ (cands <> [] ->
        total_found response = Z.of_nat (length reranked)
        /\ total_found response
           = Z.min (Z.of_nat (length cands)) (offset + limit + 10))
    /\ (cands = [] ->
        results response = [] /\ total_found response = 0
        /\ has_more response = false).
Proof.
  intros Hs Hf Ho Hl.
  destruct (search_response query filters top_k offset limit clock store
              Hs Hf Ho Hl)
    as (cands & reranked & formatted & Hc & Hr & Hfmt & Hlen & Hrlen & Hresp).
  eexists cands, reranked, _.
  split; [exact Hc|]. split; [exact Hr|]. split; [exact Hresp|].
  cbn [results has_more total_found SearchService.offset SearchService.limit].
  split; [reflexivity|]. split; [reflexivity|]. split.
  - intros _. split; [reflexivity | exact Hrlen].
  - intros ->. simpl in Hrlen.
    assert (reranked = []) as ->
      by (destruct reranked; [reflexivity | simpl in Hrlen; lia]).
    rewrite slice_nil in Hlen. destruct formatted; [|discriminate].
    repeat split. apply Z.ltb_ge. simpl. lia.
Qed.
End PipelineClaims.

Lemma five_live_searchable : Claims.searchable Scenario.five_live.
Proof.
  split; [reflexivity|]. split; [reflexivity|].
  repeat constructor.
Defined.

Lemma two_deleted_searchable : Claims.searchable Scenario.two_deleted.
Proof.
  split; [reflexivity|]. split; [reflexivity|].
  repeat constructor.
Defined.

Lemma search_paginates_witness :
  exists response,
    SearchService.search "east" None 10 4 2 (0%Q, 1%Q) Scenario.five_live
    = Ok response
    /\ length (SearchService.results response) = 1%nat
    /\ SearchService.has_more response = false.
Proof.
  destruct (search_paginates "east" None 10 4 2 (0%Q, 1%Q) Scenario.five_live)
    as (cands & reranked & response & _ & _ & Hresp & _);
    [exact five_live_searchable | exact I | lia | lia |].
  exists response. split; [exact Hresp|].
  vm_compute in Hresp. injection Hresp as <-. split; reflexivity.
Defined.

Lemma search_total_found_witness :
  exists response,
    SearchService.search "east" (Some {["type" := PStr "pdf"]}) 10 0 2
      (0%Q, 1%Q) Scenario.two_deleted
    = Ok response
    /\ SearchService.total_found response = 0
    /\ SearchService.results response = [].
Proof.
  destruct (search_total_found "east" (Some {["type" := PStr "pdf"]}) 10 0 2
              (0%Q, 1%Q) Scenario.two_deleted)
    as (cands & reranked & response & _ & _ & Hresp & _);
    [exact two_deleted_searchable | split; vm_compute; exact I | lia | lia |].
  exists response. split; [exact Hresp|].
  vm_compute in Hresp. injection Hresp as <-. split; reflexivity.
Defined.

(** ** [ResourceService.delete_resource] *)

Section ResourceFacts.
Context `{Kernels}.
Import Claims.

Lemma unlink_first_spec (names : list string) (dir : gmap string bool) :
  match first_existing names dir with
  | None => ResourceService.unlink_first names dir = Ok dir
  | Some p =>
      (dir !! p = Some true
       /\ ResourceService.unlink_first names dir = Ok (delete p dir))
      \/ (dir !! p = Some false
          /\ ResourceService.unlink_first names dir = Raise PermissionError)
  end.
Proof.
  unfold first_existing. induction names as [|p names IH]; [reflexivity|].
  cbn [List.find ResourceService.unlink_first].
  destruct (dir !! p) as [[|]|] eqn:E.
  - rewrite bool_decide_true by eauto. left. now split.
  - rewrite bool_decide_true by eauto. right. now split.
  - rewrite bool_decide_false by (intros [? ?]; discriminate). exact IH.
Qed.

(** C7, as the code has it.  [delete_resource] raises the not-found error
    exactly when no chunk was newly marked, and then leaves the upload
    directory alone.  Otherwise it unlinks the first of [<id>.pdf],
    [<id>.docx] that exists and returns the count; a missing file is no
    error; but when unlinking fails, the error reaches the caller, with the
    chunks already marked deleted. *)
Theorem delete_resource_outcome (resource_id : string)
    (w : ResourceService.world) :
  exists n store files result w',
    VectorStore.delete_resource resource_id
      (ResourceService.vector_store w) (ResourceService.index_files w)
    = (n, store, files)
    /\ ResourceService.delete_resource resource_id w = (result, w')
    /\ ResourceService.vector_store w' = store
    /\ ResourceService.index_files w' = files
    /\ (n = 0 <-> exists msg, result = Raise (ValueError msg))
    /\ (n = 0 -> ResourceService.uploads w' = ResourceService.uploads w)
    /\ (n <> 0 ->
        match first_existing (upload_names resource_id)
                (ResourceService.uploads w) with
        | None =>
            result = Ok n
            /\ ResourceService.uploads w' = ResourceService.uploads w
        | Some p =>
            (ResourceService.uploads w !! p = Some true
             /\ result = Ok n
             /\ ResourceService.uploads w'
                = delete p (ResourceService.uploads w))
            \/ (ResourceService.uploads w !! p = Some false
                /\ result = Raise PermissionError
                /\ ResourceService.uploads w' = ResourceService.uploads w)
        end).
Proof.
  unfold ResourceService.delete_resource.
  destruct (VectorStore.delete_resource resource_id
              (ResourceService.vector_store w)
              (ResourceService.index_files w)) as [[n store] files].
  pose proof (unlink_first_spec (upload_names resource_id)
                (ResourceService.uploads w)) as Hu.
  fold (upload_names resource_id).
  destruct (Z.eqb_spec n 0) as [Hn|Hn].
  - eexists n, store, files, _, _. split; [reflexivity|].
    split; [reflexivity|]. cbn [ResourceService.vector_store
      ResourceService.index_files ResourceService.uploads].
    repeat split; eauto. contradiction.
  - destruct (first_existing (upload_names resource_id)
                (ResourceService.uploads w)) as [p|].
    + destruct Hu as [[Hp ->]|[Hp ->]];
        eexists n, store, files, _, _; (split; [reflexivity|]);
        (split; [reflexivity|]);
        cbn [ResourceService.vector_store ResourceService.index_files
             ResourceService.uploads];
        repeat split; try contradiction; try (intros [? ?]; discriminate).
      * intros _. left. now repeat split.
      * intros _. right. now repeat split.
    + rewrite Hu. eexists n, store, files, _, _. split; [reflexivity|].
      split; [reflexivity|].
      cbn [ResourceService.vector_store ResourceService.index_files
           ResourceService.uploads].
      repeat split; try contradiction; try (intros [? ?]; discriminate).
Qed.
End ResourceFacts.

(** C7, as stated, fails: two chunks are marked, the file of the resource
    cannot be unlinked, and the caller gets that error, not the count. *)
Lemma unlink_error_surfaces :
  ~ Claims.file_errors_hidden "R1" Scenario.locked_upload.
Proof.
  intros Hh.
  specialize (Hh 2 Scenario.two_deleted
                (VectorStore.save Scenario.two_deleted VectorStore.no_files)).
  assert (Hd : VectorStore.delete_resource "R1"
                 (ResourceService.vector_store Scenario.locked_upload)
                 (ResourceService.index_files Scenario.locked_upload)
               = (2, Scenario.two_deleted,
                  VectorStore.save Scenario.two_deleted VectorStore.no_files))
    by (vm_compute; reflexivity).
  specialize (Hh Hd ltac:(lia)).
  vm_compute in Hh. discriminate.
Qed.

(** ** Python equality *)

Lemma py_eq_as_key (a b : pyval) : py_eq a b = true <-> as_key a = as_key b.
Proof.
  destruct a as [|x|x|x], b as [|y|y|y]; cbn [py_eq as_key];
    try (split; [discriminate | intros [=]]); try (split; reflexivity).
  - rewrite eqb_true_iff. split; [now intros -> |].
    destruct x, y; cbn; intros [=]; reflexivity.
  - rewrite Z.eqb_eq. split; [now intros -> | now intros [=]].
  - rewrite Z.eqb_eq. split; [now intros -> | now intros [=]].
  - rewrite Z.eqb_eq. split; [now intros -> | now intros [=]].
  - rewrite String.eqb_eq. split; [now intros -> | now intros [=]].
Qed.

Lemma py_eq_refl (a : pyval) : py_eq a a = true.
Proof. now apply py_eq_as_key. Qed.

Lemma py_eq_sym (a b : pyval) : py_eq a b = py_eq b a.
Proof.
  destruct (py_eq a b) eqn:E1, (py_eq b a) eqn:E2; try reflexivity.
  - apply py_eq_as_key in E1. symmetry in E1. apply py_eq_as_key in E1.
    congruence.
  - apply py_eq_as_key in E2. symmetry in E2. apply py_eq_as_key in E2.
    congruence.
Qed.

Lemma py_eq_trans (a b c : pyval) :
  py_eq a b = true -> py_eq b c = true -> py_eq a c = true.
Proof. rewrite !py_eq_as_key. congruence. Qed.

Lemma py_eq_congr (a b c : pyval) :
  py_eq a b = true -> py_eq a c = py_eq b c.
Proof.
  intros Hab. destruct (py_eq a c) eqn:E1, (py_eq b c) eqn:E2; try reflexivity.
  - rewrite py_eq_sym in Hab. pose proof (py_eq_trans _ _ _ Hab E1). congruence.
  - pose proof (py_eq_trans _ _ _ Hab E2). congruence.
Qed.

Lemma py_eq_truthy (a b : pyval) : py_eq a b = true -> truthy a = truthy b.
Proof.
  destruct a as [|x|x|x], b as [|y|y|y]; cbn [py_eq truthy];
    try discriminate; try reflexivity.
  - intros E. apply eqb_prop in E. now subst.
  - intros E. apply Z.eqb_eq in E. subst. now destruct x.
  - intros E. apply Z.eqb_eq in E. subst. now destruct y.
  - intros E. apply Z.eqb_eq in E. now subst.
  - intros E. apply String.eqb_eq in E. now subst.
Qed.

(** ** [VectorStore.get_all_resources] *)

Section GroupFacts.
Context `{Kernels}.
Import VectorStore Claims.

Lemma has_key_false (k : pyval) (rm : list (pyval * resource_summary)) :
  has_key k rm = false <-> List.filter (matchk k) rm = [].
Proof.
  unfold has_key. induction rm as [|e rm IH]; [easy|].
  cbn [existsb List.filter]. fold (matchk k e).
  destruct (matchk k e); cbn [orb]; [split; discriminate | exact IH].
Qed.

Lemma map_bumped_none (k : pyval) (rm : list (pyval * resource_summary)) :
  List.filter (matchk k) rm = [] -> map (bumped k) rm = rm.
Proof.
  induction rm as [|e rm IH]; [reflexivity|].
  cbn [List.filter map]. unfold bumped at 1.
  destruct (matchk k e); [discriminate|].
  intros Hf. now rewrite IH.
Qed.

Lemma bump_map (k : pyval) (rm : list (pyval * resource_summary)) :
  (length (List.filter (matchk k) rm) <= 1)%nat ->
  bump k rm = map (bumped k) rm.
Proof.
  induction rm as [|e rm IH]; [reflexivity|].
  cbn [List.filter map bump]. unfold bumped at 1. fold (matchk k e).
  destruct (matchk k e); cbn [length]; intros Hlen.
  - rewrite map_bumped_none; [reflexivity|].
    destruct (List.filter (matchk k) rm); [reflexivity | simpl in Hlen; lia].
  - now rewrite IH.
Qed.

Lemma filter_map_bumped (k k' : pyval) (rm : list (pyval * resource_summary)) :
  List.filter (matchk k') (map (bumped k) rm)
  = map (bumped k) (List.filter (matchk k') rm).
Proof.
  induction rm as [|e rm IH]; [reflexivity|].
  cbn [map List.filter].
  assert (matchk k' (bumped k e) = matchk k' e) as ->
    by (unfold bumped; now destruct (matchk k e)).
  destruct (matchk k' e); cbn [map]; now rewrite IH.
Qed.

Lemma chunks_of_snoc (k : pyval) (metas : list (gmap string pyval))
    (m : gmap string pyval) :
  chunks_of k (metas ++ [m])
  = chunks_of k metas ++ (if live m && py_eq (rid_of m) k then [m] else []).
Proof. unfold chunks_of. now rewrite List.filter_app. Qed.

Lemma entry_snoc_other (metas : list (gmap string pyval))
    (m : gmap string pyval) (e : pyval * resource_summary) :
  entry_ok metas e -> live m && py_eq (rid_of m) e.1 = false ->
  entry_ok (metas ++ [m]) e.
Proof.
  intros [Hk (Ht & first & rest & Hc & Hrest)] Hm.
  split; [exact Hk|]. split; [exact Ht|].
  exists first, rest. split; [|exact Hrest].
  rewrite chunks_of_snoc, <- Hk, Hm, app_nil_r. now rewrite Hk.
Qed.

Lemma entry_snoc_same (metas : list (gmap string pyval))
    (m : gmap string pyval) (e : pyval * resource_summary) :
  entry_ok metas e -> live m && py_eq (rid_of m) e.1 = true ->
  entry_ok (metas ++ [m]) (e.1, add_chunk e.2).
Proof.
  intros [Hk (Ht & first & rest & Hc & Hid & Hfn & Hup & Hn)] Hm.
  split; [exact Hk|]. split; [exact Ht|].
  exists first, (rest ++ [m]). cbn [add_chunk rs_resource_id rs_filename
    rs_uploaded_at rs_num_chunks snd].
  rewrite chunks_of_snoc, <- Hk, Hm. rewrite Hk, Hc.
  repeat split; try assumption.
  rewrite Hn. cbn [length]. rewrite length_app. simpl. lia.
Qed.

Lemma entry_new (metas : list (gmap string pyval)) (m : gmap string pyval) :
  live m = true -> truthy (rid_of m) = true ->
  chunks_of (rid_of m) metas = [] ->
  entry_ok (metas ++ [m])
    (rid_of m,
     add_chunk {| rs_resource_id := rid_of m;
                  rs_filename := dict_get m "file_name" (PStr "unknown");
                  rs_num_chunks := 0;
                  rs_uploaded_at := dict_get m "uploaded_at" (PStr "") |}).
Proof.
  intros Hl Ht Hc. split; [reflexivity|]. split; [exact Ht|].
  exists m, []. cbn [snd add_chunk rs_resource_id rs_filename rs_uploaded_at
    rs_num_chunks].
  rewrite chunks_of_snoc, Hc, Hl, py_eq_refl. now repeat split.
Qed.
End GroupFacts.

Section GroupLoop.
Context `{Kernels}.
Import VectorStore Claims.

Lemma py_eq_congr_r (a b c : pyval) :
  py_eq a b = true -> py_eq c a = py_eq c b.
Proof.
  intros Hab. rewrite (py_eq_sym c a), (py_eq_sym c b).
  now apply py_eq_congr.
Qed.

Lemma has_key_congr (a b : pyval) (rm : list (pyval * resource_summary)) :
  py_eq a b = true -> has_key a rm = has_key b rm.
Proof.
  intros Hab. unfold has_key. induction rm as [|e rm IH]; [reflexivity|].
  cbn [existsb]. now rewrite IH, (py_eq_congr_r a b).
Qed.

Lemma has_key_bumped (k k' : pyval) (rm : list (pyval * resource_summary)) :
  has_key k' (map (bumped k) rm) = has_key k' rm.
Proof.
  unfold has_key. induction rm as [|e rm IH]; [reflexivity|].
  cbn [map existsb]. rewrite IH. f_equal.
  unfold bumped. now destruct (matchk k e).
Qed.

Lemma unlisted_no_chunks (k : pyval) (metas : list (gmap string pyval))
    (rm : list (pyval * resource_summary)) :
  all_listed metas rm -> truthy k = true -> has_key k rm = false ->
  chunks_of k metas = [].
Proof.
  intros Hall Ht Hk. unfold chunks_of.
  induction Hall as [|m metas Hm _ IH]; [reflexivity|].
  cbn [List.filter]. rewrite IH.
  destruct (live m) eqn:El; [|reflexivity]. cbn [andb].
  destruct (py_eq (rid_of m) k) eqn:E; [|reflexivity].
  rewrite (has_key_congr _ _ rm E) in Hm.
  rewrite (py_eq_truthy _ _ E) in Hm. specialize (Hm eq_refl Ht). congruence.
Qed.

Lemma group_step_inv (metas : list (gmap string pyval))
    (rm : list (pyval * resource_summary)) (m : gmap string pyval) :
  Forall (entry_ok metas) rm -> at_most_once rm -> all_listed metas rm ->
  Forall (entry_ok (metas ++ [m])) (group_step rm m)
  /\ at_most_once (group_step rm m)
  /\ all_listed (metas ++ [m]) (group_step rm m).
Proof.
  intros Hent Honce Hall. unfold group_step.
  destruct (is_deleted m) eqn:Hd.
  { (* a deleted entry *)
    assert (Hl : live m = false) by (unfold live; now rewrite Hd).
    split; [|split; [exact Honce|]].
    - eapply Forall_impl; [exact Hent|]. intros e He.
      apply entry_snoc_other; [exact He | now rewrite Hl].
    - apply Forall_app. split; [exact Hall|].
      constructor; [|constructor]. intros Hl'. congruence. }
  assert (Hl : live m = true) by (unfold live; now rewrite Hd).
  fold (rid_of m). destruct (truthy (rid_of m)) eqn:Ht; cbn [negb].
  2:{ (* no resource id *)
    split; [|split; [exact Honce|]].
    - eapply Forall_impl; [exact Hent|]. intros e He.
      apply entry_snoc_other; [exact He|]. rewrite Hl. cbn [andb].
      destruct (py_eq (rid_of m) e.1) eqn:E; [|reflexivity].
      apply py_eq_truthy in E. destruct He as [Hk [He _]].
      rewrite Hk in E. congruence.
    - apply Forall_app. split; [exact Hall|].
      constructor; [|constructor]. intros _ Ht'. congruence. }
  destruct (has_key (rid_of m) rm) eqn:Hk; cbn [negb].
  - (* the resource is in the map already *)
    rewrite bump_map by apply Honce. split; [|split].
    + apply Forall_fmap. eapply Forall_impl; [exact Hent|].
      intros e He. cbn. unfold bumped, matchk.
      destruct (py_eq e.1 (rid_of m)) eqn:E.
      * apply entry_snoc_same; [exact He|].
        now rewrite Hl, py_eq_sym, E.
      * apply entry_snoc_other; [exact He|].
        now rewrite Hl, py_eq_sym, E.
    + intros k'. rewrite filter_map_bumped, length_map. apply Honce.
    + apply Forall_app. split.
      * eapply Forall_impl; [exact Hall|]. intros m' Hm' H1 H2.
        rewrite has_key_bumped. now apply Hm'.
      * constructor; [|constructor]. intros _ _.
        now rewrite has_key_bumped.
  - (* a new resource *)
    pose proof Hk as Hnone. apply has_key_false in Hnone.
    set (fresh := {| rs_resource_id := (rid_of m);
                     rs_filename := dict_get m "file_name" (PStr "unknown");
                     rs_num_chunks := 0;
                     rs_uploaded_at := dict_get m "uploaded_at" (PStr "") |}).
    assert (Honce' : forall s, at_most_once (rm ++ [(rid_of m, s)])).
    { intros s k'. rewrite List.filter_app, length_app.
      cbn [List.filter]. unfold matchk at 2. cbn [fst].
      destruct (py_eq (rid_of m) k') eqn:E; cbn [length];
        [|specialize (Honce k'); lia].
      assert (List.filter (matchk k') rm
              = List.filter (matchk (rid_of m)) rm) as ->.
      { apply List.filter_ext. intros e. unfold matchk.
        symmetry. now apply py_eq_congr_r. }
      rewrite Hnone. simpl. lia. }
    assert (Hb : map (bumped (rid_of m)) [(rid_of m, fresh)]
                 = [(rid_of m, add_chunk fresh)]).
    { cbn [map]. unfold bumped, matchk. cbn [fst snd].
      now rewrite py_eq_refl. }
    rewrite bump_map by apply Honce'.
    rewrite map_app, Hb, map_bumped_none by exact Hnone.
    split; [|split].
    + apply Forall_app. split.
      * apply Forall_forall. intros e He.
        rewrite Forall_forall in Hent.
        apply entry_snoc_other; [now apply Hent|].
        rewrite Hl, py_eq_sym. cbn [andb].
        assert (Hin : In e rm) by now apply list_elem_of_In.
        destruct (py_eq e.1 (rid_of m)) eqn:E; [|reflexivity].
        assert (In e (List.filter (matchk (rid_of m)) rm))
          by (apply filter_In; now split).
        rewrite Hnone in *. contradiction.
      * constructor; [|constructor].
        apply entry_new; [exact Hl | exact Ht|].
        now apply unlisted_no_chunks with rm.
    + apply Honce'.
    + apply Forall_app. split.
      * eapply Forall_impl; [exact Hall|]. intros m' Hm' H1 H2.
        unfold has_key. rewrite existsb_app.
        apply orb_true_iff. left. now apply Hm'.
      * constructor; [|constructor]. intros _ _.
        unfold has_key. rewrite existsb_app. cbn [existsb fst].
        rewrite py_eq_refl. now rewrite orb_true_r.
Qed.

Lemma group_loop_inv (metas : list (gmap string pyval)) :
  Forall (entry_ok metas) (fold_left group_step metas [])
  /\ at_most_once (fold_left group_step metas [])
  /\ all_listed metas (fold_left group_step metas []).
Proof.
  induction metas as [|m metas (Hent & Honce & Hall)] using rev_ind.
  - split; [constructor|]. split; [|constructor]. intros k. simpl. lia.
  - rewrite fold_left_app. cbn [fold_left]. now apply group_step_inv.
Qed.

Lemma summaries_for_keys (metas : list (gmap string pyval)) (k : pyval)
    (rm : list (pyval * resource_summary)) :
  Forall (entry_ok metas) rm ->
  summaries_for k (map snd rm) = length (List.filter (matchk k) rm).
Proof.
  unfold summaries_for. induction 1 as [|e rm [He _] _ IH]; [reflexivity|].
  cbn [map List.filter]. unfold matchk at 1. rewrite <- He.
  destruct (py_eq e.1 k); cbn [length]; now rewrite IH.
Qed.
End GroupLoop.

Section GroupClaim.
Context `{Kernels}.
Import VectorStore Claims.

(** What the grouping loop gives on any list of entries: one summary
    for every truthy resource id that has a live chunk and never two for
    one id, each built from the first live chunk of its resource, in
    insertion order, and the number of its live chunks. *)
Lemma listing_first_chunks (self : t) :
  Forall (summarises (metadata_store self)) (get_all_resources self)
  /\ Forall (fun m => live m = true -> truthy (rid_of m) = true ->
                      summaries_for (rid_of m) (get_all_resources self)
                      = 1%nat)
            (metadata_store self)
  /\ (forall k, (summaries_for k (get_all_resources self) <= 1)%nat).
Proof.
  unfold get_all_resources.
  destruct (group_loop_inv (metadata_store self)) as (Hent & Honce & Hall).
  split; [|split].
  - apply Forall_fmap. eapply Forall_impl; [exact Hent|].
    intros e [_ He]. exact He.
  - eapply Forall_impl; [exact Hall|]. intros m Hm Hl Ht.
    rewrite (summaries_for_keys (metadata_store self)) by exact Hent.
    specialize (Hm Hl Ht). specialize (Honce (rid_of m)).
    destruct (List.filter (matchk (rid_of m)) _) as [|e l] eqn:E.
    + apply has_key_false in E. congruence.
    + simpl in *. lia.
  - intros k.
    rewrite (summaries_for_keys (metadata_store self)) by exact Hent.
    apply Honce.
Qed.
End GroupClaim.

(* ===================================================================== *)
(** * Further properties                                                  *)
(* ===================================================================== *)

(** ** Views of the store: chunks of a resource, listing, search *)

Section StoreViews.
Context `{Kernels}.
Import VectorStore Claims Further.

Lemma py_eq_str (v : pyval) (r : string) : py_eq v (PStr r) = true -> v = PStr r.
Proof.
  destruct v; cbn [py_eq]; try discriminate.
  intros E. apply String.eqb_eq in E. now subst.
Qed.

Lemma chunks_loop (r : string) (metas : list (gmap string pyval))
    (acc : list chunk_data) :
  fold_left (chunks_step r) metas acc
  = acc ++ map chunk_data_of (chunks_of (PStr r) metas).
Proof.
  revert acc. induction metas as [|m metas IH]; intros acc.
  - simpl. now rewrite app_nil_r.
  - cbn [fold_left]. rewrite IH. unfold chunks_of. cbn [List.filter].
    unfold chunks_step, live, rid_of.
    destruct (is_deleted m); cbn [negb andb]; [reflexivity|].
    destruct (py_eq (dict_get m "resource_id" PNone) (PStr r));
      [|reflexivity].
    cbn [map]. now rewrite <- app_assoc.
Qed.

Lemma get_chunks_eq (r : string) (self : t) :
  get_chunks_by_resource r self
  = map chunk_data_of (chunks_of (PStr r) (metadata_store self)).
Proof. unfold get_chunks_by_resource. now rewrite chunks_loop. Qed.

Lemma after_delete_eq (r : string) (self : t) (dir : index_dir) :
  after_delete r self dir
  = {| dimension := dimension self; index := index self;
       metadata_store := map (marked r) (metadata_store self) |}.
Proof. unfold after_delete. now rewrite delete_resource_eq. Qed.

Lemma chunks_of_marked_same (r : string) (metas : list (gmap string pyval)) :
  chunks_of (PStr r) (map (marked r) metas) = [].
Proof.
  unfold chunks_of. induction metas as [|m metas IH]; [reflexivity|].
  cbn [map List.filter]. rewrite IH.
  pose proof (matches_marked r m) as Hm. unfold matches in Hm.
  unfold live, rid_of. rewrite andb_comm. now rewrite Hm.
Qed.

Lemma chunks_of_marked_other (r r' : string)
    (metas : list (gmap string pyval)) :
  r' <> r ->
  chunks_of (PStr r') (map (marked r) metas) = chunks_of (PStr r') metas.
Proof.
  intros Hne. unfold chunks_of.
  induction metas as [|m metas IH]; [reflexivity|].
  cbn [map List.filter]. rewrite IH. unfold marked.
  destruct (matches r m) eqn:Hm; [|reflexivity].
  unfold live at 1. rewrite is_deleted_insert. cbn [negb andb].
  unfold matches in Hm. apply andb_true_iff in Hm as [Hr Hl].
  apply py_eq_str in Hr. unfold rid_of. rewrite Hr. cbn [py_eq].
  assert (String.eqb r r' = false) as ->
    by (apply String.eqb_neq; congruence).
  now rewrite andb_false_r.
Qed.

(** X1.  Once [delete_resource r] has run, [get_chunks_by_resource r]
    is empty, and the chunks of every other resource are what they were. *)
Theorem chunks_after_delete (r r' : string) (self : t) (dir : index_dir) :
  get_chunks_by_resource r (after_delete r self dir) = []
  /\ (r' <> r ->
      get_chunks_by_resource r' (after_delete r self dir)
      = get_chunks_by_resource r' self).
Proof.
  rewrite !get_chunks_eq, after_delete_eq. cbn [metadata_store]. split.
  - now rewrite chunks_of_marked_same.
  - intros Hne. now rewrite chunks_of_marked_other.
Qed.
End StoreViews.

Section ListingAfterDelete.
Context `{Kernels}.
Import VectorStore Claims Further.

Lemma other_entry_match (r : string) (k : pyval)
    (e : pyval * resource_summary) :
  py_eq k (PStr r) = false -> py_eq e.1 k = true -> other_entry r e = true.
Proof.
  intros Hk He. unfold other_entry.
  now rewrite (py_eq_congr _ _ _ He), Hk.
Qed.

Lemma has_key_others (r : string) (k : pyval)
    (rm : list (pyval * resource_summary)) :
  py_eq k (PStr r) = false ->
  has_key k (List.filter (other_entry r) rm) = has_key k rm.
Proof.
  intros Hk. unfold has_key. induction rm as [|e rm IH]; [reflexivity|].
  cbn [List.filter existsb].
  destruct (other_entry r e) eqn:Ho; cbn [existsb]; rewrite IH; [reflexivity|].
  destruct (py_eq e.1 k) eqn:E; [|reflexivity].
  rewrite (other_entry_match r k e Hk E) in Ho. discriminate.
Qed.

Lemma bump_others (r : string) (k : pyval)
    (rm : list (pyval * resource_summary)) :
  py_eq k (PStr r) = false ->
  bump k (List.filter (other_entry r) rm)
  = List.filter (other_entry r) (bump k rm).
Proof.
  intros Hk. induction rm as [|e rm IH]; [reflexivity|].
  cbn [bump List.filter].
  destruct (py_eq e.1 k) eqn:E.
  - rewrite (other_entry_match r k e Hk E). cbn [bump List.filter].
    rewrite E.
    assert (other_entry r (e.1, add_chunk e.2) = true) as ->
      by (now apply other_entry_match with k).
    reflexivity.
  - destruct (other_entry r e) eqn:Ho; cbn [bump List.filter].
    + now rewrite E, Ho, IH.
    + now rewrite Ho.
Qed.

Lemma bump_same_dropped (r : string) (k : pyval)
    (rm : list (pyval * resource_summary)) :
  py_eq k (PStr r) = true ->
  List.filter (other_entry r) (bump k rm) = List.filter (other_entry r) rm.
Proof.
  intros Hk. induction rm as [|e rm IH]; [reflexivity|].
  cbn [bump]. destruct (py_eq e.1 k) eqn:E.
  - cbn [List.filter].
    assert (Hd : forall s, other_entry r (e.1, s) = false).
    { intros s. unfold other_entry. cbn [fst].
      now rewrite (py_eq_trans _ _ _ E Hk). }
    rewrite Hd. destruct e as [k' s]. cbn [fst] in Hd. now rewrite (Hd s).
  - cbn [List.filter]. now rewrite IH.
Qed.

Lemma group_step_marked (r : string) (rm : list (pyval * resource_summary))
    (m : gmap string pyval) :
  group_step (List.filter (other_entry r) rm) (marked r m)
  = List.filter (other_entry r) (group_step rm m).
Proof.
  unfold marked. destruct (matches r m) eqn:Hm.
  - (* an entry that gets marked: it counted for [r] only *)
    unfold matches in Hm. apply andb_true_iff in Hm as [Hr Hl].
    apply negb_true_iff in Hl.
    unfold group_step at 1. rewrite is_deleted_insert.
    unfold group_step. rewrite Hl.
    destruct (truthy (dict_get m "resource_id" PNone)); cbn [negb];
      [|reflexivity].
    rewrite bump_same_dropped by exact Hr.
    destruct (has_key _ rm); cbn [negb]; [reflexivity|].
    assert (Hnew : forall s,
               other_entry r (dict_get m "resource_id" PNone, s) = false)
      by (intros s; unfold other_entry; cbn [fst]; now rewrite Hr).
    rewrite List.filter_app. cbn [List.filter].
    now rewrite Hnew, app_nil_r.
  - unfold group_step.
    destruct (is_deleted m) eqn:Hd; [reflexivity|].
    destruct (truthy (dict_get m "resource_id" PNone)); cbn [negb];
      [|reflexivity].
    assert (Hk : py_eq (dict_get m "resource_id" PNone) (PStr r) = false).
    { unfold matches in Hm. rewrite Hd in Hm. cbn [negb] in Hm.
      now rewrite andb_true_r in Hm. }
    rewrite has_key_others by exact Hk.
    rewrite <- bump_others by exact Hk.
    destruct (has_key _ rm); cbn [negb]; [reflexivity|].
    assert (Hnew : forall s,
               other_entry r (dict_get m "resource_id" PNone, s) = true)
      by (intros s; unfold other_entry; cbn [fst]; now rewrite Hk).
    rewrite List.filter_app. cbn [List.filter].
    now rewrite Hnew.
Qed.

Lemma group_loop_marked (r : string) (metas : list (gmap string pyval))
    (rm : list (pyval * resource_summary)) :
  fold_left group_step (map (marked r) metas) (List.filter (other_entry r) rm)
  = List.filter (other_entry r) (fold_left group_step metas rm).
Proof.
  revert rm. induction metas as [|m metas IH]; intros rm; [reflexivity|].
  cbn [map fold_left]. now rewrite group_step_marked, IH.
Qed.

Lemma summaries_of_others (r : string) (metas : list (gmap string pyval))
    (rm : list (pyval * resource_summary)) :
  Forall (entry_ok metas) rm ->
  map snd (List.filter (other_entry r) rm)
  = List.filter (other_summary r) (map snd rm).
Proof.
  induction 1 as [|e rm [He _] _ IH]; [reflexivity|].
  cbn [map List.filter]. unfold other_entry at 1, other_summary at 1.
  rewrite <- He. destruct (negb (py_eq e.1 (PStr r))); cbn [map];
    now rewrite IH.
Qed.

(** X2.  After [delete_resource r] the listing is the old listing without
    the summary of [r]: the other summaries keep their order, their counts
    and their fields. *)
Theorem listing_after_delete (r : string) (self : t) (dir : index_dir) :
  get_all_resources (after_delete r self dir)
  = List.filter (other_summary r) (get_all_resources self).
Proof.
  rewrite after_delete_eq. unfold get_all_resources. cbn [metadata_store].
  change (@nil (pyval * resource_summary))
    with (List.filter (other_entry r) []) at 1.
  rewrite group_loop_marked.
  apply summaries_of_others with (metadata_store self).
  apply group_loop_inv.
Qed.
End ListingAfterDelete.

Section ListingAndChunks.
Context `{Kernels}.
Import VectorStore Claims Further.

Lemma has_key_entry (k : pyval) (rm : list (pyval * resource_summary)) :
  has_key k rm = true -> exists e, In e rm /\ py_eq e.1 k = true.
Proof.
  unfold has_key. intros Hk. apply existsb_exists in Hk. exact Hk.
Qed.

(** X3.  For a non-empty id [r], the listing and the chunk view agree: a
    resource with no live chunk has no summary, and a resource with live
    chunks has exactly one summary, whose [num_chunks] is the number of
    chunks [get_chunks_by_resource] returns. *)
Theorem listing_counts_chunks (r : string) (self : t) :
  r <> "" ->
  (get_chunks_by_resource r self = [] ->
   summaries_for (PStr r) (get_all_resources self) = 0%nat)
  /\ (get_chunks_by_resource r self <> [] ->
      summaries_for (PStr r) (get_all_resources self) = 1%nat
      /\ exists s,
           In s (get_all_resources self)
           /\ rs_resource_id s = PStr r
           /\ rs_num_chunks s
              = Z.of_nat (length (get_chunks_by_resource r self))).
Proof.
  intros Hr. rewrite get_chunks_eq. unfold get_all_resources.
  destruct (group_loop_inv (metadata_store self)) as (Hent & Honce & Hall).
  set (rm := fold_left group_step (metadata_store self) []) in *.
  rewrite (summaries_for_keys (metadata_store self)) by exact Hent.
  split.
  - intros Hnone.
    destruct (List.filter (matchk (PStr r)) rm) as [|e l] eqn:E;
      [reflexivity|].
    assert (He : In e (List.filter (matchk (PStr r)) rm))
      by (rewrite E; now left).
    apply filter_In in He as [Hin Hm].
    rewrite Forall_forall in Hent.
    destruct (Hent e) as [Hk (_ & first & rest & Hc & _)];
      [now apply list_elem_of_In|].
    apply py_eq_str in Hm. rewrite <- Hk, Hm in Hc.
    rewrite Hc in Hnone. discriminate.
  - intros Hsome.
    destruct (chunks_of (PStr r) (metadata_store self)) as [|first rest] eqn:Hc;
      [contradiction|].
    assert (Hf : In first (chunks_of (PStr r) (metadata_store self)))
      by (rewrite Hc; now left).
    apply filter_In in Hf as [Hin Hf]. apply andb_true_iff in Hf as [Hl Hid].
    apply py_eq_str in Hid.
    unfold all_listed in Hall. rewrite Forall_forall in Hall.
    assert (Hk : has_key (PStr r) rm = true).
    { rewrite <- Hid. apply Hall; [now apply list_elem_of_In | exact Hl|].
      rewrite Hid. cbn [truthy]. apply negb_true_iff.
      now apply String.eqb_neq. }
    destruct (has_key_entry _ _ Hk) as (e & He & Hm).
    apply py_eq_str in Hm.
    rewrite Forall_forall in Hent.
    destruct (Hent e) as [Hke (_ & f & rs & Hce & _ & _ & _ & Hn)];
      [now apply list_elem_of_In|].
    split.
    + specialize (Honce (PStr r)).
      destruct (List.filter (matchk (PStr r)) rm) as [|e' l] eqn:E.
      * apply has_key_false in E. congruence.
      * simpl in *. lia.
    + exists e.2. split; [now apply in_map|].
      split; [now rewrite <- Hke|].
      rewrite Hn. rewrite <- Hke, Hm, Hc in Hce. rewrite <- Hce.
      now rewrite length_map.
Qed.

(** X4.  A search that follows [delete_resource r] returns no entry of
    resource [r]. *)
Theorem search_hides_deleted_resource (r : string) (self : t)
    (dir : index_dir) (query : Faiss.ndarray) (q : vec) (rest : list vec)
    (k : Z) :
  aligned self ->
  1 <= k ->
  Faiss.rows query = q :: rest ->
  Faiss.ncols query = Faiss.d (index self) ->
  exists results,
    search query k (after_delete r self dir) = Ok results
    /\ Forall (fun e => of_resource r e.1 = false) results.
Proof.
  intros Hal Hk Hrows Hcols. rewrite after_delete_eq.
  set (self' := {| dimension := dimension self; index := index self;
                   metadata_store := map (marked r) (metadata_store self) |}).
  assert (Hal' : aligned self')
    by (unfold aligned, self'; cbn; now rewrite length_map).
  rewrite (search_eq self' query q rest k Hal' Hk Hrows Hcols).
  eexists. split; [reflexivity|].
  apply Forall_forall. intros [m s] Hin. cbn [fst].
  apply list_elem_of_In, filter_In in Hin as [Hin Hlive].
  apply list_elem_of_In in Hin.
  assert (Hz : (m, s) ∈ scored_entries self' (normalize_row q)).
  { rewrite <- (sorted_desc_perm snd). eapply elem_of_sublist; [exact Hin|].
    apply sublist_take. }
  unfold scored_entries in Hz. apply elem_of_zip_l in Hz.
  cbn [metadata_store self'] in Hz.
  apply list_elem_of_fmap in Hz as (m0 & -> & _).
  unfold live_pair, live in Hlive. cbn [fst] in Hlive.
  destruct (of_resource r (marked r m0)) eqn:E; [|reflexivity].
  assert (of_resource r m0 = true).
  { unfold marked in E. destruct (matches r m0); [|exact E].
    now rewrite of_resource_insert in E. }
  rewrite marked_deleted in Hlive by assumption. discriminate.
Qed.
End ListingAndChunks.

(** ** The resource service *)

Section ServiceFacts.
Context `{Kernels}.
Import Claims Further.

Lemma service_delete_world (r : string) (w : ResourceService.world) :
  exists result uploads,
    ResourceService.delete_resource r w
    = (result,
       {| ResourceService.vector_store :=
            after_delete r (ResourceService.vector_store w)
              (ResourceService.index_files w);
          ResourceService.index_files :=
            (VectorStore.delete_resource r (ResourceService.vector_store w)
               (ResourceService.index_files w)).2;
          ResourceService.uploads := uploads |}).
Proof.
  unfold ResourceService.delete_resource, after_delete.
  destruct (VectorStore.delete_resource r _ _) as [[n store] files].
  cbn [fst snd].
  destruct (n =? 0); [eauto|].
  destruct (ResourceService.unlink_first _ _); eauto.
Qed.

(** X5.  Whatever a call of [delete_resource r] did (marked chunks, found
    none, or failed to unlink the file), the next call raises the
    not-found error and changes nothing, and [get_resource_chunks r]
    raises it too. *)
Theorem delete_not_repeatable (r : string) (w : ResourceService.world) :
  let w1 := (ResourceService.delete_resource r w).2 in
  ResourceService.delete_resource r w1
  = (Raise (ValueError ("Resource not found: " +:+ r)), w1)
  /\ ResourceService.get_resource_chunks r (ResourceService.vector_store w1)
     = Raise (ValueError ("Resource not found: " +:+ r)).
Proof.
  destruct (service_delete_world r w) as (result & uploads & Hw).
  rewrite Hw. cbn [snd]. clear Hw result.
  rewrite after_delete_eq.
  split.
  - unfold ResourceService.delete_resource.
    cbn [ResourceService.vector_store ResourceService.index_files
         ResourceService.uploads].
    rewrite !delete_resource_eq. cbv zeta.
    cbn [VectorStore.metadata_store VectorStore.dimension VectorStore.index].
    rewrite filter_matches_marked, marked_idem. reflexivity.
  - unfold ResourceService.get_resource_chunks.
    cbn [ResourceService.vector_store].
    rewrite get_chunks_eq. cbn [VectorStore.metadata_store].
    now rewrite chunks_of_marked_same.
Qed.

Lemma to_chunk_detail_ok (m : gmap string pyval) :
  well_formed_chunk m = true ->
  exists d,
    ResourceService.to_chunk_detail (VectorStore.chunk_data_of m) = Ok d
    /\ detail_of m d.
Proof.
  intros Hm.
  unfold ResourceService.to_chunk_detail, VectorStore.chunk_data_of.
  cbn [VectorStore.cd_chunk_id VectorStore.cd_text
       VectorStore.cd_page_number].
  unfold well_formed_chunk in Hm. unfold dict_get, detail_of.
  destruct (m !! "text") as [[| | |txt]|] eqn:Et; try discriminate.
  destruct (m !! "file_name") as [[| | |fn]|]; try discriminate.
  destruct (m !! "page_number") as [[| |pn|]|] eqn:Ep; try discriminate.
  destruct (m !! "resource_id") as [[| | |rid]|]; try discriminate.
  destruct (m !! "chunk_id") as [[| | |cid]|] eqn:Ec; try discriminate.
  cbn [default bind SearchService.valid_str SearchService.valid_int].
  eexists. split; [reflexivity|]. now repeat split.
Qed.

Lemma to_chunk_details_ok (chunks : list (gmap string pyval)) :
  Forall (fun m => well_formed_chunk m = true) chunks ->
  exists details,
    ResourceService.to_chunk_details (map VectorStore.chunk_data_of chunks)
    = Ok details
    /\ Forall2 detail_of chunks details.
Proof.
  induction 1 as [|m chunks Hm _ (details & Hd & Hall)].
  - exists []. split; [reflexivity | constructor].
  - destruct (to_chunk_detail_ok m Hm) as (d & Hone & Hdet).
    exists (d :: details). split; [|now constructor].
    cbn [map ResourceService.to_chunk_details]. now rewrite Hone, Hd.
Qed.

(** X6.  On a store of well-formed chunks, [get_resource_chunks r] raises
    the not-found error when [r] has no live chunk, and otherwise returns
    one detail per live chunk of [r], in insertion order, with the chunk's
    id, text and page number. *)
Theorem get_resource_chunks_outcome (r : string) (store : VectorStore.t) :
  Forall (fun m => well_formed_chunk m = true)
         (VectorStore.metadata_store store) ->
  match chunks_of (PStr r) (VectorStore.metadata_store store) with
  | [] =>
      ResourceService.get_resource_chunks r store
      = Raise (ValueError ("Resource not found: " +:+ r))
  | live_chunks =>
      exists details,
        ResourceService.get_resource_chunks r store = Ok details
        /\ Forall2 detail_of live_chunks details
  end.
Proof.
  intros Hwf. unfold ResourceService.get_resource_chunks.
  rewrite get_chunks_eq.
  destruct (chunks_of (PStr r) (VectorStore.metadata_store store))
    as [|first rest] eqn:Hc; [reflexivity|].
  destruct (to_chunk_details_ok (first :: rest)) as (details & Hd & Hall).
  { rewrite <- Hc. eapply Forall_sublist; [apply filter_sublist | exact Hwf]. }
  exists details. split; [|exact Hall].
  cbn [map] in Hd |- *. exact Hd.
Qed.
End ServiceFacts.

(** ** Appending and persistence *)

Section AppendAndPersist.
Context `{Kernels}.
Import VectorStore Claims Further.

(** X7.  [add_documents] fails with [ValueError] when the numbers of
    embeddings and metadata entries differ, with the assertion error of
    the index when they agree but the embeddings have another dimension
    than the index, and succeeds otherwise.  On success the new vectors,
    normalised, and the new metadata are appended after the old ones, which
    stay as they were: the total grows by the number of documents, and an
    aligned store stays aligned. *)
Theorem add_documents_outcome (embeddings : Faiss.ndarray)
    (metadatas : list (gmap string pyval)) (self : t) :
  match add_documents embeddings metadatas self with
  | Ok self' =>
      length (Faiss.rows embeddings) = length metadatas
      /\ Faiss.ncols embeddings = Faiss.d (index self)
      /\ dimension self' = dimension self
      /\ Faiss.d (index self') = Faiss.d (index self)
      /\ Faiss.xb (index self')
         = Faiss.xb (index self) ++ map normalize_row (Faiss.rows embeddings)
      /\ metadata_store self' = metadata_store self ++ metadatas
      /\ get_total_documents self'
         = get_total_documents self + Z.of_nat (length metadatas)
      /\ (aligned self -> aligned self')
  | Raise e =>
      (length (Faiss.rows embeddings) <> length metadatas
       /\ e = ValueError
                "Number of embeddings must match number of metadata entries")
      \/ (length (Faiss.rows embeddings) = length metadatas
          /\ Faiss.ncols embeddings <> Faiss.d (index self)
          /\ e = AssertionError)
  end.
Proof.
  unfold add_documents, Faiss.add, Faiss.normalize_L2.
  cbn [Faiss.ncols Faiss.rows].
  destruct (Z.eqb_spec (Z.of_nat (length (Faiss.rows embeddings)))
                       (Z.of_nat (length metadatas))) as [Hlen|Hlen];
    cbn [negb].
  - apply Nat2Z.inj in Hlen.
    destruct (Z.eqb_spec (Faiss.ncols embeddings) (Faiss.d (index self)))
      as [Hd|Hd]; cbn [bind].
    + cbn [dimension index metadata_store Faiss.d Faiss.xb].
      repeat split; try assumption.
      * unfold get_total_documents, Faiss.ntotal. cbn [index Faiss.xb].
        rewrite length_app, length_map. lia.
      * unfold aligned. cbn [index metadata_store Faiss.xb].
        intros Hal. rewrite !length_app, length_map. lia.
    + right. now repeat split.
  - left. split; [|reflexivity]. intros E. apply Hlen. now rewrite E.
Qed.

(** X9.  When [delete_resource] marks at least one chunk, the marks are
    on disk: a store constructed from the directory afterwards has the
    metadata with the new [deleted] flags, and lists and finds no chunk of
    the resource.  When it marks none, the directory is left as it was. *)
Theorem deletion_survives_restart (r : string) (self : t) (dir : index_dir)
    (dimension' : Z) :
  chunks_of (PStr r) (metadata_store self) <> [] ->
  exists n dir' restarted,
    delete_resource r self dir = (n, after_delete r self dir, dir')
    /\ 0 < n
    /\ init dimension' dir' = Ok restarted
    /\ index restarted = index self
    /\ metadata_store restarted = map (marked r) (metadata_store self)
    /\ get_chunks_by_resource r restarted = []
    /\ get_all_resources restarted
       = List.filter (other_summary r) (get_all_resources self).
Proof.
  intros Hsome.
  pose proof (listing_after_delete r self dir) as Hlist.
  pose proof (chunks_after_delete r r self dir) as [Hchunks _].
  rewrite after_delete_eq in *. rewrite delete_resource_eq. cbv zeta.
  assert (Hn : 0 < Z.of_nat (length (List.filter (matches r)
                                                 (metadata_store self)))).
  { assert (List.filter (matches r) (metadata_store self)
            = chunks_of (PStr r) (metadata_store self)) as ->.
    { apply List.filter_ext. intros m. unfold matches, live, rid_of.
      apply andb_comm. }
    destruct (chunks_of (PStr r) (metadata_store self));
      [contradiction | simpl; lia]. }
  apply Z.ltb_lt in Hn as Hb. rewrite Hb.
  eexists _, _, _. split; [reflexivity|]. split; [now apply Z.ltb_lt|].
  split; [reflexivity|]. cbn [index metadata_store].
  split; [reflexivity|]. split; [reflexivity|].
  split; [exact Hchunks | exact Hlist].
Qed.
End AppendAndPersist.

Lemma listing_counts_chunks_witness :
  Claims.summaries_for (PStr "R7")
    (VectorStore.get_all_resources Scenario.five_live) = 1%nat.
Proof.
  destruct (listing_counts_chunks "R7" Scenario.five_live) as [_ Hsome];
    [discriminate|].
  apply Hsome. vm_compute. discriminate.
Defined.

Lemma search_hides_deleted_resource_witness :
  exists results,
    VectorStore.search (SearchService.embed_query "east") 2
      (Further.after_delete "R1" Scenario.uploaded VectorStore.no_files)
    = Ok results
    /\ Forall (fun e => Claims.of_resource "R1" e.1 = false) results.
Proof.
  apply (search_hides_deleted_resource "R1" Scenario.uploaded
           VectorStore.no_files (SearchService.embed_query "east")
           (encode "east") [] 2);
    [reflexivity | lia | reflexivity | reflexivity].
Defined.

Lemma get_resource_chunks_outcome_witness :
  exists details,
    ResourceService.get_resource_chunks "R7" Scenario.five_live = Ok details
    /\ length details = 5%nat.
Proof.
  assert (Hwf : Forall (fun m => Claims.well_formed_chunk m = true)
                  (VectorStore.metadata_store Scenario.five_live))
    by (repeat constructor).
  pose proof (get_resource_chunks_outcome "R7" Scenario.five_live Hwf) as Hc.
  destruct (Claims.chunks_of (PStr "R7")
              (VectorStore.metadata_store Scenario.five_live))
    as [|first rest] eqn:E;
    apply (f_equal length) in E; vm_compute in E; [discriminate|].
  destruct Hc as (details & Hd & Hall).
  exists details. split; [exact Hd|].
  apply Forall2_length in Hall. rewrite <- Hall. cbn [length].
  exact (eq_sym E).
Defined.

Lemma deletion_survives_restart_witness :
  exists n dir' restarted,
    VectorStore.delete_resource "R1" Scenario.uploaded VectorStore.no_files
    = (n, Further.after_delete "R1" Scenario.uploaded VectorStore.no_files,
       dir')
    /\ 0 < n
    /\ VectorStore.init 2 dir' = Ok restarted
    /\ VectorStore.get_chunks_by_resource "R1" restarted = [].
Proof.
  assert (Hne : Claims.chunks_of (PStr "R1")
                  (VectorStore.metadata_store Scenario.uploaded) <> []).
  { intros E. apply (f_equal length) in E. vm_compute in E. discriminate. }
  destruct (deletion_survives_restart "R1" Scenario.uploaded
              VectorStore.no_files 2 Hne)
    as (n & dir' & restarted & Hd & Hn & Hi & _ & _ & Hc & _).
  exists n, dir', restarted.
  split; [exact Hd|]. split; [exact Hn|]. split; [exact Hi | exact Hc].
Defined.

(** ** The pipeline at its edges *)

Section PipelineEdges.
Context `{Kernels}.
Import SearchService Claims.

(** X10.  On a searchable store, for a request within the bounds of the
    schema, the page and [has_more] are those of the whole pool of
    filtered candidates: cutting the reranked sequence at
    [offset + limit + 10] never shortens the page, and [has_more] says
    whether candidates remain beyond it; [total_found] is at most the size
    of the pool. *)
Theorem search_page_of_pool (query : string)
    (filters : option (gmap string pyval))
    (top_k offset limit : Z) (clock : Q * Q) (store : VectorStore.t) :
  searchable store -> request_filters_ok filters ->
  0 <= offset -> 1 <= limit ->
  exists cands response,
    candidates query filters offset limit store = Ok cands
    /\ search query filters top_k offset limit clock store = Ok response
    /\ Z.of_nat (length (results response))
       = Z.min limit (Z.max 0 (Z.of_nat (length cands) - offset))
    /\ (has_more response = true <-> offset + limit < Z.of_nat (length cands))
    /\ total_found response <= Z.of_nat (length cands).
Proof.
  intros Hs Hf Ho Hl.
  destruct (search_response query filters top_k offset limit clock store
              Hs Hf Ho Hl)
    as (cands & reranked & formatted & Hc & _ & _ & Hlen & Hrlen & Hresp).
  eexists cands, _. split; [exact Hc|]. split; [exact Hresp|].
  cbn [results has_more total_found].
  rewrite Hlen, slice_page_length by assumption.
  rewrite Z.ltb_lt. lia.
Qed.

(** X11.  On an empty index [search] returns the empty response, with no
    condition on the filters, the offset or the limit. *)
Theorem search_empty_corpus (query : string)
    (filters : option (gmap string pyval))
    (top_k offset limit : Z) (clock : Q * Q) (store : VectorStore.t) :
  Faiss.ntotal (VectorStore.index store) = 0 ->
  search query filters top_k offset limit clock store
  = Ok {| query := query; results := []; total_found := 0;
          search_time_ms := ((clock.2 - clock.1) * 1000)%Q;
          has_more := false; offset := offset; limit := limit |}.
Proof.
  intros Hz. unfold search, candidates, VectorStore.search.
  rewrite Hz. cbn [Z.eqb bind].
  destruct (filters_given filters); reflexivity.
Qed.

(** X12.  On a non-empty index whose dimension is not that of the
    embedding model, [search] raises the assertion error of the index. *)
Theorem search_dimension_mismatch (query : string)
    (filters : option (gmap string pyval))
    (top_k offset limit : Z) (clock : Q * Q) (store : VectorStore.t) :
  Faiss.ntotal (VectorStore.index store) <> 0 ->
  encode_dim <> Faiss.d (VectorStore.index store) ->
  search query filters top_k offset limit clock store = Raise AssertionError.
Proof.
  intros Hn Hd. unfold search, candidates, VectorStore.search.
  destruct (Z.eqb_spec (Faiss.ntotal (VectorStore.index store)) 0);
    [contradiction|].
  unfold Faiss.search, Faiss.normalize_L2, embed_query.
  cbn [Faiss.ncols Faiss.rows].
  destruct (Z.eqb_spec encode_dim (Faiss.d (VectorStore.index store)));
    [contradiction|].
  reflexivity.
Qed.

(** X13.  How [_apply_filters] behaves at its edges: a filter dict with
    neither key keeps every candidate, whatever its metadata; with a
    [type] filter, a first candidate without [file_name] raises
    [KeyError], and a filter value that is not a string raises
    [AttributeError] on the first candidate that has a file name. *)
Theorem apply_filters_edges (filters : gmap string pyval) :
  (forall results,
     filters !! "type" = None -> filters !! "file_name" = None ->
     _apply_filters results filters = Ok results)
  /\ (forall m s rest,
        is_Some (filters !! "type") -> m !! "file_name" = None ->
        _apply_filters ((m, s) :: rest) filters = Raise (KeyError "file_name"))
  /\ (forall m s rest name v,
        m !! "file_name" = Some (PStr name) ->
        filters !! "type" = Some v -> (forall t, v <> PStr t) ->
        _apply_filters ((m, s) :: rest) filters = Raise AttributeError).
Proof.
  split; [|split].
  - intros results Ht Hf.
    induction results as [|[m s] results IH]; [reflexivity|].
    cbn [_apply_filters]. unfold passes, passes_type, passes_file_name.
    rewrite Ht, Hf.
    rewrite !bool_decide_false by (intros [? ?]; discriminate).
    cbn [bind]. now rewrite IH.
  - intros m s rest Ht Hm. cbn [_apply_filters].
    unfold passes, passes_type, dict_item.
    rewrite bool_decide_true by exact Ht. now rewrite Hm.
  - intros m s rest name v Hm Hv Hns. cbn [_apply_filters].
    unfold passes, passes_type, dict_item.
    rewrite bool_decide_true by (rewrite Hv; eauto).
    rewrite Hm, Hv. cbn [bind as_str].
    destruct v; try reflexivity. now destruct (Hns s0).
Qed.
End PipelineEdges.

Lemma search_page_of_pool_witness :
  exists cands response,
    SearchService.candidates "east" None 0 2 Scenario.five_live = Ok cands
    /\ SearchService.search "east" None 10 0 2 (0%Q, 1%Q) Scenario.five_live
       = Ok response
    /\ (SearchService.has_more response = true
        <-> 0 + 2 < Z.of_nat (length cands)).
Proof.
  destruct (search_page_of_pool "east" None 10 0 2 (0%Q, 1%Q)
              Scenario.five_live)
    as (cands & response & Hc & Hr & _ & Hm & _);
    [exact five_live_searchable | exact I | lia | lia |].
  exists cands, response. split; [exact Hc|]. split; [exact Hr | exact Hm].
Defined.

Lemma search_empty_corpus_witness :
  SearchService.search "east" (Some {["type" := PInt 3]}) 10 (-5) 0
    (0%Q, 1%Q) Scenario.empty_store
  = Ok {| SearchService.query := "east"; SearchService.results := [];
          SearchService.total_found := 0;
          SearchService.search_time_ms := ((1 - 0) * 1000)%Q;
          SearchService.has_more := false;
          SearchService.offset := -5; SearchService.limit := 0 |}.
Proof.
  apply (search_empty_corpus "east" (Some {["type" := PInt 3]}) 10 (-5) 0
           (0%Q, 1%Q) Scenario.empty_store).
  reflexivity.
Defined.

Lemma search_dimension_mismatch_witness :
  SearchService.search "east" None 10 0 2 (0%Q, 1%Q) Scenario.wide_store
  = Raise AssertionError.
Proof.
  apply (search_dimension_mismatch "east" None 10 0 2 (0%Q, 1%Q)
           Scenario.wide_store); [discriminate | discriminate].
Defined.

(** ** The reranker at its edges *)

Section RerankEdges.
Context `{Kernels}.
Import Reranker Claims.

Lemma spread_nonempty (query : string) (documents : list document) :
  (array_min (map (raw_score query) documents)
   < array_max (map (raw_score query) documents))%Q ->
  documents <> [].
Proof.
  intros Hlt ->. cbn in Hlt. exact (Qlt_irrefl _ Hlt).
Qed.

Lemma best_scores_one (query : string) (documents : list document) :
  (array_min (map (raw_score query) documents)
   < array_max (map (raw_score query) documents))%Q ->
  exists r, In r (with_scores query documents) /\ (rerank_score r == 1)%Q.
Proof.
  intros Hlt. pose proof (spread_nonempty _ _ Hlt) as Hne.
  set (scores := map (raw_score query) documents) in *.
  assert (Hs : scores <> [])
    by (unfold scores; destruct documents; [congruence | discriminate]).
  destruct (array_max_spec scores Hs) as [Hin _].
  unfold scores in Hin at 2. apply in_map_iff in Hin as (d & Hd & Hdoc).
  eexists. split.
  - unfold with_scores. apply in_map_iff. exists d. split; [reflexivity|].
    exact Hdoc.
  - cbn [rerank_score]. fold scores. rewrite Hd. unfold normalized.
    assert (Hpos : (0 < array_max scores - array_min scores)%Q) by lra.
    apply Qlt_bool_true in Hpos as Hb. rewrite Hb.
    field. lra.
Qed.

Lemma worst_scores_zero (query : string) (documents : list document) :
  (array_min (map (raw_score query) documents)
   < array_max (map (raw_score query) documents))%Q ->
  exists r, In r (with_scores query documents) /\ (rerank_score r == 0)%Q.
Proof.
  intros Hlt. pose proof (spread_nonempty _ _ Hlt) as Hne.
  set (scores := map (raw_score query) documents) in *.
  assert (Hs : scores <> [])
    by (unfold scores; destruct documents; [congruence | discriminate]).
  destruct (array_min_spec scores Hs) as [Hin _].
  unfold scores in Hin at 2. apply in_map_iff in Hin as (d & Hd & Hdoc).
  eexists. split.
  - unfold with_scores. apply in_map_iff. exists d. split; [reflexivity|].
    exact Hdoc.
  - cbn [rerank_score]. fold scores. rewrite Hd. unfold normalized.
    assert (Hpos : (0 < array_max scores - array_min scores)%Q) by lra.
    apply Qlt_bool_true in Hpos as Hb. rewrite Hb.
    field. lra.
Qed.

(** X14.  When the raw scores of a batch are not all equal and
    [top_k >= 1], the first result of [rerank] has the score 1, and some
    candidate of the batch has the score 0. *)
Theorem rerank_best_is_one (query : string) (documents : list document)
    (top_k : Z) :
  1 <= top_k ->
  (array_min (map (raw_score query) documents)
   < array_max (map (raw_score query) documents))%Q ->
  (exists r rest,
     rerank query documents top_k = r :: rest /\ (rerank_score r == 1)%Q)
  /\ (exists r, In r (with_scores query documents)
                /\ (rerank_score r == 0)%Q).
Proof.
  intros Hk Hlt. split; [|now apply worst_scores_zero].
  pose proof (spread_nonempty _ _ Hlt) as Hne.
  rewrite rerank_eq, slice_prefix by (assumption || lia).
  destruct (best_scores_one _ _ Hlt) as (best & Hbest & Hone).
  pose proof (sorted_desc_sorted rerank_score (with_scores query documents))
    as Hsorted.
  pose proof (sorted_desc_perm rerank_score (with_scores query documents))
    as Hperm.
  pose proof (with_scores_ok query documents Hne) as Hok.
  destruct (sorted_desc rerank_score (with_scores query documents))
    as [|h t] eqn:E.
  { apply Permutation_nil in Hperm. rewrite Hperm in Hbest. contradiction. }
  destruct (Z.to_nat top_k) as [|n] eqn:En; [lia|].
  exists h, (take n t). split; [reflexivity|].
  assert (Hh : score_ok query documents h).
  { rewrite List.Forall_forall in Hok. apply Hok.
    apply Permutation_in with (h :: t); [exact Hperm | now left]. }
  destruct Hh as (_ & Hle & _).
  assert (Hge : (rerank_score best <= rerank_score h)%Q).
  { apply Permutation_in with (l' := h :: t) in Hbest;
      [|symmetry; exact Hperm].
    destruct Hbest as [->|Hin]; [apply Qle_refl|].
    apply StronglySorted_inv in Hsorted as [_ Hall].
    rewrite List.Forall_forall in Hall. now apply Hall. }
  rewrite Hone in Hge. now apply Qle_antisym.
Qed.

(** X15.  For [top_k >= 0], [rerank] returns [min(len(documents), top_k)]
    results, and they are candidates of the batch, each at most as often
    as it occurs there. *)
Theorem rerank_returns_candidates (query : string)
    (documents : list document) (top_k : Z) :
  0 <= top_k ->
  Z.of_nat (length (rerank query documents top_k))
  = Z.min (Z.of_nat (length documents)) top_k
  /\ exists others,
       Permutation (map doc (rerank query documents top_k) ++ others)
                   documents.
Proof.
  intros Hk. split; [now apply rerank_length|].
  destruct documents as [|d ds] eqn:Hd; [now exists []|].
  rewrite <- Hd. rewrite rerank_eq, slice_prefix by (rewrite ?Hd; easy).
  set (s := sorted_desc rerank_score (with_scores query documents)).
  exists (map doc (drop (Z.to_nat top_k) s)).
  rewrite <- map_app, take_drop.
  transitivity (map doc (with_scores query documents)).
  - apply Permutation_map, sorted_desc_perm.
  - unfold with_scores. rewrite map_map. cbn [doc]. now rewrite map_id.
Qed.
End RerankEdges.

Lemma rerank_best_is_one_witness :
  exists r rest,
    Reranker.rerank (H := Scenario.kernels) "east" Scenario.batch 3 = r :: rest
    /\ (Reranker.rerank_score r == 1)%Q.
Proof.
  destruct (rerank_best_is_one (H := Scenario.kernels) "east"
              Scenario.batch 3) as [Hbest _];
    [lia | vm_compute; reflexivity | exact Hbest].
Defined.

Lemma rerank_returns_candidates_witness :
  Z.of_nat (length (Reranker.rerank (H := Scenario.kernels) "east"
                      Scenario.batch 3))
  = Z.min (Z.of_nat (length Scenario.batch)) 3.
Proof.
  destruct (rerank_returns_candidates (H := Scenario.kernels) "east"
              Scenario.batch 3) as [Hlen _]; [lia | exact Hlen].
Defined.

(** ** The listing route *)

Section ListingRoute.
Context `{Kernels}.
Import Claims Further.

Lemma listing_typed (store : VectorStore.t) :
  Forall listable (VectorStore.metadata_store store) ->
  Forall typed_summary (VectorStore.get_all_resources store).
Proof.
  intros Hl. unfold VectorStore.get_all_resources.
  destruct (group_loop_inv (VectorStore.metadata_store store))
    as (Hent & _ & _).
  apply Forall_fmap. eapply Forall_impl; [exact Hent|].
  intros e [_ (_ & first & rest & Hc & Hid & Hfn & Hup & _)]. cbn.
  assert (Hin : In first (chunks_of (VectorStore.rs_resource_id e.2)
                            (VectorStore.metadata_store store)))
    by (rewrite Hc; now left).
  apply filter_In in Hin as [Hin _].
  rewrite Forall_forall in Hl.
  destruct (Hl first) as [Hwf Hu]; [now apply list_elem_of_In|].
  unfold typed_summary. rewrite Hid, Hfn, Hup.
  unfold well_formed_chunk in Hwf. unfold rid_of, dict_get.
  destruct (first !! "text") as [[| | |txt]|]; try discriminate.
  destruct (first !! "file_name") as [[| | |fn]|]; try discriminate.
  destruct (first !! "page_number") as [[| |pn|]|]; try discriminate.
  destruct (first !! "resource_id") as [[| | |rid]|]; try discriminate.
  unfold str_or_absent in Hu.
  destruct (first !! "uploaded_at") as [[| | |up]|]; try contradiction;
    cbn [default]; do 3 eexists; repeat split; reflexivity.
Qed.

Lemma to_resources_ok (l : list VectorStore.resource_summary) :
  Forall typed_summary l ->
  exists rs,
    ResourceService.to_resources l = Ok rs
    /\ length rs = length l
    /\ map ResourceService.num_chunks rs = map VectorStore.rs_num_chunks l.
Proof.
  induction 1 as [|s l (rid & fn & up & Hr & Hf & Hu) _ (rs & Hrs & Hlen & Hn)].
  - exists []. now repeat split.
  - cbn [ResourceService.to_resources]. unfold ResourceService.to_resource.
    rewrite Hr, Hf, Hu. cbn [SearchService.valid_str bind]. rewrite Hrs.
    cbn [bind]. eexists. split; [reflexivity|].
    split; simpl; [now rewrite Hlen | now rewrite Hn].
Qed.

(** X16.  With the service started, a store of chunks whose fields have
    their types, [offset >= 0] and [limit >= 1]: [list_resources] answers
    with the resources from position [offset] up to [offset + limit] of
    the listing, [total] is the number of listed resources, [has_more]
    says whether [offset + limit < total]; and a page followed by the next
    page is the page of both limits together, so pages taken in turn
    neither skip nor repeat a resource. *)
Theorem list_resources_pages (offset limit : Z)
    (service : ResourceService.world) :
  Forall listable
    (VectorStore.metadata_store (ResourceService.vector_store service)) ->
  0 <= offset -> 1 <= limit ->
  exists all_resources,
    ResourceService.get_all_resources (ResourceService.vector_store service)
    = Ok all_resources
    /\ length all_resources
       = length (VectorStore.get_all_resources
                   (ResourceService.vector_store service))
    /\ Routes.list_resources offset limit (Some service)
       = Routes.Respond
           {| Routes.resources :=
                take (Z.to_nat limit) (drop (Z.to_nat offset) all_resources);
              Routes.total := Z.of_nat (length all_resources);
              Routes.offset := offset; Routes.limit := limit;
              Routes.has_more :=
                offset + limit <? Z.of_nat (length all_resources) |}
    /\ Z.of_nat (length (page_of (Routes.list_resources offset limit
                                    (Some service))))
       = Z.min limit (Z.max 0 (Z.of_nat (length all_resources) - offset))
    /\ (forall limit', 1 <= limit' ->
          page_of (Routes.list_resources offset limit (Some service))
          ++ page_of (Routes.list_resources (offset + limit) limit'
                        (Some service))
          = page_of (Routes.list_resources offset (limit + limit')
                       (Some service))).
Proof.
  intros Hl Ho Hlim.
  destruct (to_resources_ok _ (listing_typed _ Hl)) as (all & Hall & Hlen & _).
  exists all. split; [exact Hall|]. split; [exact Hlen|].
  assert (Hroute : forall o l, 0 <= o -> 1 <= l ->
            Routes.list_resources o l (Some service)
            = Routes.Respond
                {| Routes.resources := take (Z.to_nat l) (drop (Z.to_nat o) all);
                   Routes.total := Z.of_nat (length all);
                   Routes.offset := o; Routes.limit := l;
                   Routes.has_more := o + l <? Z.of_nat (length all) |}).
  { intros o l Ho' Hl'. unfold Routes.list_resources.
    unfold ResourceService.get_all_resources in Hall |- *. rewrite Hall.
    now rewrite slice_page. }
  split; [now apply Hroute|]. split.
  - rewrite Hroute by assumption. cbn [page_of Routes.resources].
    rewrite length_take, length_drop. lia.
  - intros limit' Hl'. rewrite !Hroute by lia.
    cbn [page_of Routes.resources].
    replace (Z.to_nat (offset + limit))
      with (Z.to_nat offset + Z.to_nat limit)%nat by lia.
    rewrite <- drop_drop, take_take_drop. f_equal. lia.
Qed.
End ListingRoute.

Lemma list_resources_pages_witness :
  exists all_resources,
    ResourceService.get_all_resources Scenario.five_live = Ok all_resources
    /\ Z.of_nat (length (Further.page_of
                           (Routes.list_resources 0 20
                              (Some Scenario.five_live_service))))
       = Z.min 20 (Z.max 0 (Z.of_nat (length all_resources) - 0)).
Proof.
  destruct (list_resources_pages 0 20 Scenario.five_live_service)
    as (all & Hall & _ & _ & Hlen & _).
  - repeat constructor.
  - lia.
  - lia.
  - exists all. split; [exact Hall | exact Hlen].
Defined.

(* ===================================================================== *)
(** * The states the services reach                                       *)
(* ===================================================================== *)

(** ** What an upload writes *)

Section UploadFacts.
Context `{Kernels}.
Import VectorStore Claims Further.

Lemma metadata_of_fields (chunk_id resource_id file_name uploaded_at : string)
    (chunk : Chunk.t) :
  let m := UploadService.metadata_of chunk_id resource_id file_name
             uploaded_at chunk in
  m !! "chunk_id" = Some (PStr chunk_id)
  /\ m !! "resource_id" = Some (PStr resource_id)
  /\ m !! "file_name" = Some (PStr file_name)
  /\ m !! "page_number" = Some (PInt (Chunk.page chunk))
  /\ m !! "text" = Some (PStr (Chunk.text chunk))
  /\ m !! "uploaded_at" = Some (PStr uploaded_at)
  /\ m !! "deleted" = Some (PBool false).
Proof.
  unfold UploadService.metadata_of. repeat split;
    repeat (rewrite lookup_insert_ne by discriminate);
    now rewrite lookup_insert.
Qed.


Lemma index_file_ok (file : UploadService.UploadFile) (file_path : string)
    (uuid4 : nat -> string) (utcnow : string) (store : t) (files : index_dir)
    (response : UploadResponse.t) (store' : t) (files' : index_dir) :
  UploadService.index_file file file_path uuid4 utcnow store files
  = Ok (response, store', files') ->
  exists pages,
    process_document file_path (UploadService.file file) = Ok pages
    /\ let chunks := Chunker.chunk_document pages (uuid4 0%nat)
                       (UploadService.filename file) in
       chunks <> []
       /\ add_documents (Embedder.embed_texts (map Chunk.text chunks))
            (written file uuid4 utcnow chunks) store = Ok store'
       /\ files' = save store' files
       /\ response
          = {| UploadResponse.resource_id := uuid4 0%nat;
               UploadResponse.filename := UploadService.filename file;
               UploadResponse.num_chunks := Z.of_nat (length chunks);
               UploadResponse.status := "success" |}.
Proof.
  unfold UploadService.index_file.
  destruct (process_document file_path (UploadService.file file))
    as [pages|e]; cbn [bind]; [|discriminate].
  intros E. exists pages. split; [reflexivity|]. cbn zeta.
  destruct (Chunker.chunk_document pages (uuid4 0%nat)
              (UploadService.filename file)) as [|c chunks] eqn:Hc;
    [discriminate|].
  fold (written file uuid4 utcnow (c :: chunks)) in E.
  destruct (add_documents _ (written file uuid4 utcnow (c :: chunks)) store)
    as [s|e]; cbn [bind] in E; [|discriminate].
  injection E as <- <- <-. repeat split. discriminate.
Qed.

Lemma add_documents_ok (embeddings : Faiss.ndarray)
    (metadatas : list (gmap string pyval)) (self self' : t) :
  add_documents embeddings metadatas self = Ok self' ->
  metadata_store self' = metadata_store self ++ metadatas.
Proof.
  unfold add_documents.
  destruct (negb _); [discriminate|].
  destruct (Faiss.add _ _); cbn [bind]; [|discriminate].
  now intros [= <-].
Qed.

(** What [process_upload] does to the store and to the index files: it
    leaves both as they were, or it appends the entries of the chunks of
    the file and saves. *)
Lemma process_upload_store (file : UploadService.UploadFile)
    (uuid4 : nat -> string) (utcnow : string) (w : ResourceService.world) :
  let w' := (UploadService.process_upload file uuid4 utcnow w).2 in
  (ResourceService.vector_store w' = ResourceService.vector_store w
   /\ ResourceService.index_files w' = ResourceService.index_files w)
  \/ (exists chunks,
        metadata_store (ResourceService.vector_store w')
        = metadata_store (ResourceService.vector_store w)
          ++ written file uuid4 utcnow chunks
        /\ ResourceService.index_files w'
           = save (ResourceService.vector_store w')
                  (ResourceService.index_files w)).
Proof.
  unfold UploadService.process_upload.
  destruct (negb _); [now left|].
  destruct (Qlt_bool _ _); [now left|].
  cbn zeta. unfold UploadService._save_file.
  destruct (UploadService.index_file _ _ _ _ _ _)
    as [[[response store] files]|e] eqn:E.
  - right. apply index_file_ok in E as (pages & _ & _ & Ha & -> & _).
    apply add_documents_ok in Ha. cbn [snd ResourceService.vector_store
      ResourceService.index_files]. eauto.
  - left. destruct (UploadService.clean_up _ _ _). now split.
Qed.

Lemma written_entry (file : UploadService.UploadFile) (uuid4 : nat -> string)
    (utcnow : string) (chunks : list Chunk.t) (m : gmap string pyval) :
  In m (written file uuid4 utcnow chunks) ->
  m !! "resource_id" = Some (PStr (uuid4 0%nat))
  /\ m !! "file_name" = Some (PStr (UploadService.filename file))
  /\ m !! "uploaded_at" = Some (PStr utcnow)
  /\ m !! "deleted" = Some (PBool false).
Proof.
  intros Hm. apply list_elem_of_In in Hm.
  apply elem_of_lookup_imap in Hm as (i & chunk & -> & _).
  pose proof (metadata_of_fields (uuid4 (S i)) (uuid4 0%nat)
                (UploadService.filename file) utcnow chunk) as Hf.
  cbn zeta in Hf. tauto.
Qed.

Lemma shaped_nil : upload_shaped [].
Proof. split; [constructor | intros m1 m2 []]. Qed.

(** Appending the entries of an upload whose id is new keeps the shape. *)
Lemma shaped_written (metas : list (gmap string pyval))
    (file : UploadService.UploadFile) (uuid4 : nat -> string)
    (utcnow : string) (chunks : list Chunk.t) :
  upload_shaped metas ->
  uuid4 0%nat <> "" ->
  forallb (fun m => negb (py_eq (rid_of m) (PStr (uuid4 0%nat)))) metas = true ->
  upload_shaped (metas ++ written file uuid4 utcnow chunks).
Proof.
  intros [Hent Hsame] Hne Hnew. rewrite forallb_forall in Hnew.
  assert (Hold : forall m1 m2, In m1 metas ->
            In m2 (written file uuid4 utcnow chunks) ->
            m1 !! "resource_id" <> m2 !! "resource_id").
  { intros m1 m2 H1 H2 E. apply written_entry in H2 as (Hr & _).
    specialize (Hnew m1 H1). unfold rid_of, dict_get in Hnew.
    rewrite E, Hr in Hnew. cbn in Hnew.
    now rewrite String.eqb_refl in Hnew. }
  split.
  - apply Forall_app. split; [exact Hent|]. apply List.Forall_forall.
    intros m Hm. apply written_entry in Hm as (Hr & Hf & Hu & _).
    now exists (uuid4 0%nat), (UploadService.filename file), utcnow.
  - intros m1 m2 H1 H2. apply in_app_or in H1, H2.
    destruct H1 as [H1|H1], H2 as [H2|H2]; intros E.
    + now apply Hsame.
    + now destruct (Hold m1 m2 H1 H2).
    + now destruct (Hold m2 m1 H2 H1).
    + apply written_entry in H1 as (_ & Hf1 & Hu1 & _).
      apply written_entry in H2 as (_ & Hf2 & Hu2 & _).
      now rewrite Hf1, Hf2, Hu1, Hu2.
Qed.

Lemma marked_lookup (r : string) (m : gmap string pyval) (k : string) :
  k <> "deleted" -> marked r m !! k = m !! k.
Proof.
  intros Hk. unfold marked. destruct (matches r m); [|reflexivity].
  now rewrite lookup_insert_ne.
Qed.

(** Marking the entries of a resource keeps the shape. *)
Lemma shaped_marked (r : string) (metas : list (gmap string pyval)) :
  upload_shaped metas -> upload_shaped (map (marked r) metas).
Proof.
  intros [Hent Hsame]. split.
  - apply Forall_map. eapply Forall_impl; [exact Hent|].
    intros m (rid & name & time & Hr & Hne & Hf & Hu).
    exists rid, name, time.
    rewrite !marked_lookup by discriminate. tauto.
  - intros m1 m2 H1 H2.
    apply in_map_iff in H1 as (n1 & <- & H1).
    apply in_map_iff in H2 as (n2 & <- & H2).
    unfold same_upload. rewrite !marked_lookup by discriminate.
    now apply Hsame.
Qed.


Lemma init_metadata (dimension : Z) (dir : index_dir) (store : t) :
  init dimension dir = Ok store ->
  metadata_store store = []
  \/ metadata_pkl dir = Some (metadata_store store).
Proof.
  unfold init, load.
  destruct (index_faiss dir) as [ix|], (metadata_pkl dir) as [metas|];
    intros [= <-]; cbn [metadata_store]; auto.
Qed.

Lemma served_shaped (w : ResourceService.world) : served w -> shaped_world w.
Proof.
  induction 1 as [dimension store uploads Hi
                 | w file uuid4 utcnow _ [Hm Hf] Hne Hnew
                 | w r _ [Hm Hf]
                 | w dimension store _ [Hm Hf] Hi].
  - destruct (init_metadata _ _ _ Hi) as [E|E]; [|discriminate].
    split; cbn [ResourceService.vector_store ResourceService.index_files
                  no_files metadata_pkl default]; [rewrite E|];
      apply shaped_nil.
  - unfold unused_id in Hnew. apply andb_true_iff in Hnew as [Hn1 Hn2].
    destruct (process_upload_store file uuid4 utcnow w)
      as [[E1 E2]|(chunks & E1 & E2)]; unfold shaped_world.
    + now rewrite E1, E2.
    + rewrite E2. cbn [save metadata_pkl default]. rewrite E1.
      split; now apply shaped_written.
  - unfold ResourceService.delete_resource.
    rewrite delete_resource_eq. cbn zeta.
    set (n := Z.of_nat (length (List.filter (matches r)
                 (metadata_store (ResourceService.vector_store w))))).
    assert (Hs : upload_shaped (map (marked r)
                   (metadata_store (ResourceService.vector_store w))))
      by now apply shaped_marked.
    assert (Hd : upload_shaped (default [] (metadata_pkl
                   (if 0 <? n
                    then save {| dimension := dimension (ResourceService.vector_store w);
                                 index := index (ResourceService.vector_store w);
                                 metadata_store := map (marked r)
                                   (metadata_store (ResourceService.vector_store w)) |}
                           (ResourceService.index_files w)
                    else ResourceService.index_files w)))).
    { destruct (0 <? n); [exact Hs | exact Hf]. }
    destruct (n =? 0); [now split|].
    destruct (ResourceService.unlink_first _ _); now split.
  - split; cbn [ResourceService.vector_store ResourceService.index_files];
      [|exact Hf].
    destruct (init_metadata _ _ _ Hi) as [E|E].
    + rewrite E. apply shaped_nil.
    + rewrite E in Hf. exact Hf.
Qed.

Lemma leb_refl (x : string) : String.leb x x = true.
Proof. now destruct (String.leb_total x x). Qed.

(** In a store of that shape, the live chunks of the resource of a summary
    carry the id, the file name and the upload time of the first one. *)
Lemma shaped_chunks (metas : list (gmap string pyval))
    (k : pyval) (first : gmap string pyval) (rest : list (gmap string pyval))
    (m : gmap string pyval) :
  upload_shaped metas ->
  chunks_of k metas = first :: rest ->
  In m (chunks_of k metas) ->
  m !! "file_name" = first !! "file_name"
  /\ m !! "uploaded_at" = first !! "uploaded_at"
  /\ exists time, first !! "uploaded_at" = Some (PStr time).
Proof.
  intros [Hent Hsame] Hc Hm.
  assert (Hf : In first (chunks_of k metas)) by (rewrite Hc; now left).
  unfold chunks_of in Hm, Hf.
  apply filter_In in Hm as [Hm Hmk], Hf as [Hf Hfk].
  apply andb_true_iff in Hmk as [_ Hmk], Hfk as [_ Hfk].
  rewrite List.Forall_forall in Hent.
  destruct (Hent m Hm) as (r1 & n1 & t1 & Hr1 & _ & _ & _).
  destruct (Hent first Hf) as (r2 & n2 & t2 & Hr2 & _ & _ & Ht2).
  assert (E : m !! "resource_id" = first !! "resource_id").
  { assert (E1 : rid_of m = PStr r1)
      by (unfold rid_of, dict_get; now rewrite Hr1).
    assert (E2 : rid_of first = PStr r2)
      by (unfold rid_of, dict_get; now rewrite Hr2).
    rewrite E1 in Hmk. rewrite E2 in Hfk.
    rewrite (py_eq_sym (PStr r2) k) in Hfk.
    pose proof (py_eq_trans _ _ _ Hmk Hfk) as E. cbn in E.
    apply String.eqb_eq in E. now rewrite Hr1, Hr2, E. }
  destruct (Hsame m first Hm Hf E) as [E1 E2].
  split; [exact E1|]. split; [exact E2|]. now exists t2.
Qed.

(** The listing of a store of that shape. *)
Lemma shaped_listing (self : t) :
  upload_shaped (metadata_store self) ->
  one_summary_each self
  /\ (forall k, (summaries_for k (get_all_resources self) <= 1)%nat)
  /\ Forall (summarises (metadata_store self)) (get_all_resources self)
  /\ reports_file_name self
  /\ reports_earliest self.
Proof.
  intros Hs. destruct (listing_first_chunks self) as (Hsum & Hone & Hmost).
  split; [|split; [exact Hmost|split; [exact Hsum|]]].
  - unfold one_summary_each. destruct Hs as [Hent _].
    rewrite List.Forall_forall in Hone, Hent. apply List.Forall_forall.
    intros m Hm Hl. apply (Hone m Hm Hl).
    destruct (Hent m Hm) as (r & _ & _ & Hr & Hne & _).
    unfold rid_of, dict_get. rewrite Hr. cbn.
    destruct (String.eqb_spec r ""); [contradiction | reflexivity].
  - split.
    + unfold reports_file_name. eapply Forall_impl; [exact Hsum|].
      intros s (_ & first & rest & Hc & _ & Hn & _).
      apply List.Forall_forall. intros m Hm.
      destruct (shaped_chunks _ _ _ _ m Hs Hc Hm) as (E & _).
      rewrite Hn. unfold dict_get. now rewrite E.
    + unfold reports_earliest. eapply Forall_impl; [exact Hsum|].
      intros s (_ & first & rest & Hc & _ & _ & Hu & _).
      apply List.Forall_forall. intros m Hm.
      destruct (shaped_chunks _ _ _ _ m Hs Hc Hm) as (_ & E & time & Ht).
      rewrite Hu. unfold dict_get. rewrite E, Ht. cbn. apply leb_refl.
Qed.
End UploadFacts.

Section ListingClaim.
Context `{Kernels}.
Import VectorStore Claims.

(** C8.  In every state the services reach, [get_all_resources] returns
    exactly one summary for every resource id that has a live chunk and
    never two for one id; each summary carries the id of its resource, the
    file name its live chunks carry, the number of its live chunks, and an
    upload time that one of its live chunks carries and that is not later
    than the upload time of any of them. *)
Theorem get_all_resources_summaries (w : ResourceService.world) :
  served w ->
  let self := ResourceService.vector_store w in
  one_summary_each self
  /\ (forall k, (summaries_for k (get_all_resources self) <= 1)%nat)
  /\ Forall (summarises (metadata_store self)) (get_all_resources self)
  /\ reports_file_name self
  /\ reports_earliest self.
Proof.
  intros Hs. apply shaped_listing. now apply served_shaped in Hs as [Hm _].
Qed.
End ListingClaim.

Lemma one_left_served : Claims.served Scenario.one_left.
Proof.
  apply Claims.served_delete. apply Claims.served_upload.
  - apply Claims.served_upload.
    + now apply (Claims.served_start 2).
    + vm_compute. discriminate.
    + vm_compute. reflexivity.
  - vm_compute. discriminate.
  - vm_compute. reflexivity.
Qed.

Lemma get_all_resources_summaries_witness :
  Claims.served Scenario.one_left
  /\ Claims.one_summary_each (ResourceService.vector_store Scenario.one_left)
  /\ Claims.reports_earliest (ResourceService.vector_store Scenario.one_left).
Proof.
  split; [exact one_left_served|].
  destruct (get_all_resources_summaries Scenario.one_left one_left_served)
    as (Hone & _ & _ & _ & Hearly).
  split; [exact Hone | exact Hearly].
Defined.

(* ===================================================================== *)
(** * Uploads                                                             *)
(* ===================================================================== *)

(** ** Memory and index files *)

Section InSync.
Context `{Kernels}.
Import VectorStore Claims Further.

Lemma marked_none (r : string) (metas : list (gmap string pyval)) :
  List.filter (matches r) metas = [] -> map (marked r) metas = metas.
Proof.
  induction metas as [|m metas IH]; [reflexivity|].
  cbn [List.filter map]. unfold marked at 1.
  destruct (matches r m); [discriminate|].
  intros E. now rewrite IH.
Qed.

Lemma served_in_sync (w : ResourceService.world) : served w -> in_sync w.
Proof.
  induction 1 as [dimension store uploads Hi
                 | w file uuid4 utcnow _ IH Hne Hnew
                 | w r _ IH
                 | w dimension store _ IH Hi].
  - left. split; [reflexivity|]. cbn [ResourceService.vector_store].
    unfold init, load in Hi. cbn in Hi. now injection Hi as <-.
  - destruct (process_upload_store file uuid4 utcnow w)
      as [[E1 E2]|(chunks & E1 & E2)]; unfold in_sync.
    + now rewrite E1, E2.
    + right. exact E2.
  - unfold ResourceService.delete_resource.
    rewrite delete_resource_eq. cbn zeta.
    destruct (List.filter (matches r)
                (metadata_store (ResourceService.vector_store w)))
      as [|m l] eqn:E.
    + cbn [length Z.of_nat Z.eqb Z.ltb Z.compare].
      rewrite (marked_none _ _ E). unfold in_sync in *.
      cbn [snd ResourceService.vector_store ResourceService.index_files].
      destruct (ResourceService.vector_store w) as [dm ix ms].
      exact IH.
    + assert (Hn : 0 < Z.of_nat (length (m :: l))) by (cbn [length]; lia).
      destruct (Z.eqb_spec (Z.of_nat (length (m :: l))) 0) as [?|_]; [lia|].
      destruct (Z.ltb_spec 0 (Z.of_nat (length (m :: l)))) as [_|?]; [|lia].
      destruct (ResourceService.unlink_first _ _); now right.
  - unfold init, load in Hi. destruct IH as [[E1 E2]|E].
    + rewrite E1 in Hi. cbn in Hi. injection Hi as <-.
      left. now split.
    + rewrite E in Hi. cbn in Hi. injection Hi as <-.
      right. cbn [ResourceService.index_files ResourceService.vector_store
                  index metadata_store]. exact E.
Qed.

(** X17.  In every state the services reach, the index files hold what
    the store holds in memory: constructing the store again from the
    directory, with the dimension it has, gives the store as it is. *)
Theorem restart_reproduces_store (w : ResourceService.world) :
  served w ->
  init (dimension (ResourceService.vector_store w))
       (ResourceService.index_files w)
  = Ok (ResourceService.vector_store w).
Proof.
  intros Hs. apply served_in_sync in Hs as [[E1 E2]|E].
  - rewrite E1. destruct (ResourceService.vector_store w) as [dm ix ms].
    cbn [dimension] in *. unfold fresh in E2. injection E2 as -> ->.
    reflexivity.
  - rewrite E. unfold init, load. cbn.
    now destruct (ResourceService.vector_store w).
Qed.
End InSync.

(** ** [DocumentChunker.chunk_document] *)

Section ChunkerFacts.
Context `{Kernels}.
Import Further.

Lemma piece_loop (page : PageContent.t) (resource_id file_name : string)
    (text_chunks : list string) (chunks : list Chunk.t) :
  fold_left (Chunker.piece_step page resource_id file_name) text_chunks chunks
  = chunks
    ++ map (fun t => {| Chunk.text := t;
                        Chunk.page := PageContent.page_num page;
                        Chunk.resource_id := resource_id;
                        Chunk.file_name := file_name |})
           (List.filter (fun t => negb (blank t)) text_chunks).
Proof.
  revert chunks. induction text_chunks as [|t ts IH]; intros chunks.
  - cbn. now rewrite app_nil_r.
  - cbn [fold_left List.filter]. rewrite IH.
    unfold Chunker.piece_step, blank.
    destruct (negb (String.eqb (str_strip t) "")); [|reflexivity].
    cbn [map]. now rewrite <- app_assoc.
Qed.

Lemma page_loop (resource_id file_name : string) (pages : list PageContent.t)
    (chunks : list Chunk.t) :
  fold_left (Chunker.page_step resource_id file_name) pages chunks
  = chunks ++ flat_map (chunks_of_page resource_id file_name) pages.
Proof.
  revert chunks. induction pages as [|p pages IH]; intros chunks.
  - cbn. now rewrite app_nil_r.
  - cbn [fold_left flat_map]. rewrite IH.
    unfold Chunker.page_step, chunks_of_page, blank.
    destruct (String.eqb (str_strip (PageContent.text p)) "");
      [reflexivity|].
    rewrite piece_loop. now rewrite <- app_assoc.
Qed.

Lemma chunk_document_eq (pages : list PageContent.t)
    (resource_id file_name : string) :
  Chunker.chunk_document pages resource_id file_name
  = flat_map (chunks_of_page resource_id file_name) pages.
Proof. unfold Chunker.chunk_document. now rewrite page_loop. Qed.

(** X18.  [chunk_document] gives, page by page in the order of the pages,
    one chunk for every piece that is not blank of every page that is not
    blank, in the order of the pieces; every chunk carries the number of
    its page, the resource id and the file name handed in, and a text that
    is not blank; and a document whose pages are all blank gives no
    chunk. *)
Theorem chunk_document_chunks (pages : list PageContent.t)
    (resource_id file_name : string) :
  let chunks := Chunker.chunk_document pages resource_id file_name in
  chunks = flat_map (chunks_of_page resource_id file_name) pages
  /\ Forall (fun c =>
               Chunk.resource_id c = resource_id
               /\ Chunk.file_name c = file_name
               /\ blank (Chunk.text c) = false
               /\ exists page,
                    In page pages
                    /\ blank (PageContent.text page) = false
                    /\ Chunk.page c = PageContent.page_num page
                    /\ In (Chunk.text c)
                          (split_text (PageContent.text page)))
            chunks
  /\ (Forall (fun page => blank (PageContent.text page) = true) pages ->
      chunks = []).
Proof.
  cbn zeta. rewrite chunk_document_eq. split; [reflexivity|]. split.
  - apply List.Forall_forall. intros c Hc.
    apply in_flat_map in Hc as (page & Hp & Hc).
    unfold chunks_of_page in Hc.
    destruct (blank (PageContent.text page)) eqn:Hb; [contradiction|].
    apply in_map_iff in Hc as (t & <- & Ht).
    apply filter_In in Ht as [Ht Hnb]. apply negb_true_iff in Hnb.
    cbn [Chunk.resource_id Chunk.file_name Chunk.text Chunk.page].
    repeat split; [exact Hnb|]. now exists page.
  - intros Hall. induction Hall as [|p pages Hp _ IH]; [reflexivity|].
    cbn [flat_map]. unfold chunks_of_page at 1. now rewrite Hp, IH.
Qed.
End ChunkerFacts.

(** ** [UploadService.process_upload] *)

Section UploadOutcome.
Context `{Kernels}.
Import VectorStore Claims Further.

Lemma size_check (n : Z) :
  Qlt_bool (inject_Z UploadService.MAX_FILE_SIZE_MB)
           (inject_Z n / inject_Z (1024 * 1024))%Q = false
  <-> n <= 50 * 1024 * 1024.
Proof.
  unfold Qlt_bool. rewrite negb_false_iff, Qle_bool_iff.
  change (1024 * 1024) with 1048576.
  unfold UploadService.MAX_FILE_SIZE_MB, Qle, Qdiv, Qmult, Qinv, inject_Z.
  cbn [Qnum Qden]. lia.
Qed.

Lemma suffix_check (ext : string) :
  existsb (String.eqb ext) [".pdf"; ".docx"] = true
  <-> ext = ".pdf" \/ ext = ".docx".
Proof.
  cbn [existsb]. rewrite !orb_true_iff, !String.eqb_eq. intuition discriminate.
Qed.

(** Past the two checks, the file is saved and the outcome is that of the
    indexing, the saved file being removed when that fails. *)
Lemma process_upload_accepted (file : UploadService.UploadFile)
    (uuid4 : nat -> string) (utcnow : string) (w : ResourceService.world) :
  accepted file ->
  UploadService.process_upload file uuid4 utcnow w
  = match UploadService.index_file file (saved_as file uuid4) uuid4 utcnow
            (ResourceService.vector_store w)
            (ResourceService.index_files w) with
    | Ok (response, store, files) =>
        (Ok response,
         {| ResourceService.vector_store := store;
            ResourceService.index_files := files;
            ResourceService.uploads :=
              <[saved_as file uuid4 := true]> (ResourceService.uploads w) |})
    | Raise e =>
        (Raise e,
         {| ResourceService.vector_store := ResourceService.vector_store w;
            ResourceService.index_files := ResourceService.index_files w;
            ResourceService.uploads :=
              delete (saved_as file uuid4) (ResourceService.uploads w) |})
    end.
Proof.
  intros [Hext Hsize]. unfold UploadService.process_upload.
  apply suffix_check in Hext. rewrite Hext. cbn [negb].
  apply size_check in Hsize. rewrite Hsize.
  unfold UploadService._save_file. fold (saved_as file uuid4).
  destruct (UploadService.index_file _ _ _ _ _ _) as [[[r s] f]|e];
    [reflexivity|].
  unfold UploadService.clean_up. rewrite lookup_insert_eq.
  now rewrite delete_insert_eq.
Qed.

(** A file that fails one of the two checks is refused before anything is
    written. *)
Lemma process_upload_refused (file : UploadService.UploadFile)
    (uuid4 : nat -> string) (utcnow : string) (w : ResourceService.world) :
  ~ accepted file ->
  exists msg,
    UploadService.process_upload file uuid4 utcnow w
    = (Raise (ValueError msg), w).
Proof.
  intros Hno. unfold UploadService.process_upload.
  destruct (existsb _ _) eqn:Hext; cbn [negb]; [|eauto].
  destruct (Qlt_bool _ _) eqn:Hsize; [eauto|].
  destruct Hno. split; [now apply suffix_check | now apply size_check].
Qed.

Lemma accepted_or_not (file : UploadService.UploadFile) :
  accepted file \/ ~ accepted file.
Proof.
  unfold accepted.
  destruct (existsb (String.eqb (str_lower (path_suffix
              (UploadService.filename file)))) [".pdf"; ".docx"]) eqn:Hext.
  - apply suffix_check in Hext.
    destruct (Z.le_gt_cases (Z.of_nat (String.length (UploadService.file file)))
                (50 * 1024 * 1024)) as [Hs|Hs]; [now left|].
    right. intros [_ Hle]. lia.
  - right. intros [Hx _]. apply suffix_check in Hx. congruence.
Qed.

(** The store [add_documents] leaves when [chunks] are indexed. *)
Lemma index_file_success (file : UploadService.UploadFile)
    (file_path : string) (uuid4 : nat -> string) (utcnow : string)
    (store : t) (files : index_dir) (pages : list PageContent.t) :
  process_document file_path (UploadService.file file) = Ok pages ->
  Chunker.chunk_document pages (uuid4 0%nat) (UploadService.filename file)
  <> [] ->
  encode_dim = Faiss.d (index store) ->
  let chunks := Chunker.chunk_document pages (uuid4 0%nat)
                  (UploadService.filename file) in
  let store' :=
    {| dimension := dimension store;
       index := {| Faiss.d := Faiss.d (index store);
                   Faiss.xb := Faiss.xb (index store)
                               ++ map normalize_row
                                    (map encode (map Chunk.text chunks)) |};
       metadata_store := metadata_store store
                         ++ written file uuid4 utcnow chunks |} in
  UploadService.index_file file file_path uuid4 utcnow store files
  = Ok ({| UploadResponse.resource_id := uuid4 0%nat;
           UploadResponse.filename := UploadService.filename file;
           UploadResponse.num_chunks := Z.of_nat (length chunks);
           UploadResponse.status := "success" |},
        store', save store' files).
Proof.
  intros Hp Hc Hd. cbn zeta. unfold UploadService.index_file.
  rewrite Hp. cbn [bind].
  destruct (Chunker.chunk_document pages (uuid4 0%nat)
              (UploadService.filename file)) as [|c chunks] eqn:E;
    [contradiction|].
  fold (written file uuid4 utcnow (c :: chunks)).
  unfold add_documents, Embedder.embed_texts. cbn [Faiss.rows].
  unfold written at 1. rewrite length_imap, !length_map, Z.eqb_refl.
  cbn [negb]. unfold Faiss.add, Faiss.normalize_L2.
  cbn [Faiss.ncols Faiss.rows]. rewrite Hd, Z.eqb_refl. reflexivity.
Qed.


End UploadOutcome.

(** ** An upload and the views of the store *)

Section UploadViews.
Context `{Kernels}.
Import VectorStore Claims Further.

Lemma bump_last (k : pyval) (s : resource_summary)
    (rm : list (pyval * resource_summary)) :
  has_key k rm = false ->
  bump k (rm ++ [(k, s)]) = rm ++ [(k, add_chunk s)].
Proof.
  unfold has_key. induction rm as [|e rm IH]; intros Hk.
  - cbn [app bump fst snd]. now rewrite py_eq_refl.
  - cbn [existsb] in Hk. apply orb_false_iff in Hk as [He Hk].
    cbn [app bump]. rewrite He. now rewrite IH.
Qed.

Lemma has_key_last (k : pyval) (s : resource_summary)
    (rm : list (pyval * resource_summary)) :
  has_key k (rm ++ [(k, s)]) = true.
Proof.
  unfold has_key. rewrite existsb_app. cbn [existsb fst].
  rewrite py_eq_refl. now rewrite orb_true_r.
Qed.

(** One entry of an upload, as the grouping loop sees it. *)
Lemma written_seen (file : UploadService.UploadFile) (uuid4 : nat -> string)
    (utcnow : string) (chunks : list Chunk.t) (m : gmap string pyval) :
  In m (written file uuid4 utcnow chunks) ->
  is_deleted m = false
  /\ dict_get m "resource_id" PNone = PStr (uuid4 0%nat)
  /\ dict_get m "file_name" (PStr "unknown")
     = PStr (UploadService.filename file)
  /\ dict_get m "uploaded_at" (PStr "") = PStr utcnow.
Proof.
  intros Hm. apply written_entry in Hm as (Hr & Hf & Hu & Hd).
  unfold is_deleted, dict_get. now rewrite Hr, Hf, Hu, Hd.
Qed.

Lemma group_more (file : UploadService.UploadFile) (uuid4 : nat -> string)
    (utcnow : string) (chunks : list Chunk.t)
    (news : list (gmap string pyval))
    (rm : list (pyval * resource_summary)) (n : Z) :
  (forall m, In m news -> In m (written file uuid4 utcnow chunks)) ->
  uuid4 0%nat <> "" ->
  has_key (PStr (uuid4 0%nat)) rm = false ->
  fold_left group_step news
    (rm ++ [(PStr (uuid4 0%nat), summary_of file uuid4 utcnow n)])
  = rm ++ [(PStr (uuid4 0%nat),
            summary_of file uuid4 utcnow (n + Z.of_nat (length news)))].
Proof.
  intros Hin Hne Hk. revert n.
  induction news as [|m news IH]; intros n.
  - cbn [fold_left length Z.of_nat]. now rewrite Z.add_0_r.
  - cbn [fold_left].
    destruct (written_seen file uuid4 utcnow chunks m) as (Hd & Hr & _);
      [apply Hin; now left|].
    assert (Hstep : group_step
              (rm ++ [(PStr (uuid4 0%nat), summary_of file uuid4 utcnow n)]) m
            = rm ++ [(PStr (uuid4 0%nat),
                      summary_of file uuid4 utcnow (n + 1))]).
    { unfold group_step. rewrite Hd, Hr. cbn [truthy].
      destruct (String.eqb_spec (uuid4 0%nat) ""); [contradiction|].
      cbn [negb]. rewrite has_key_last. cbn [negb].
      now rewrite bump_last. }
    rewrite Hstep, IH by (intros m' Hm'; apply Hin; now right).
    replace (n + 1 + Z.of_nat (length news))
      with (n + Z.of_nat (length (m :: news))) by (cbn [length]; lia).
    reflexivity.
Qed.

(** The grouping loop over the entries of an upload whose id has no
    summary yet: one summary more, at the end. *)
Lemma group_written (file : UploadService.UploadFile) (uuid4 : nat -> string)
    (utcnow : string) (chunks : list Chunk.t)
    (rm : list (pyval * resource_summary)) :
  chunks <> [] ->
  uuid4 0%nat <> "" ->
  has_key (PStr (uuid4 0%nat)) rm = false ->
  fold_left group_step (written file uuid4 utcnow chunks) rm
  = rm ++ [(PStr (uuid4 0%nat),
            summary_of file uuid4 utcnow (Z.of_nat (length chunks)))].
Proof.
  intros Hc Hne Hk.
  assert (Hlen : length (written file uuid4 utcnow chunks) = length chunks)
    by (unfold written; apply length_imap).
  destruct (written file uuid4 utcnow chunks) as [|m news] eqn:E.
  - destruct chunks; [contradiction | discriminate].
  - cbn [fold_left].
    destruct (written_seen file uuid4 utcnow chunks m) as (Hd & Hr & Hf & Hu);
      [rewrite E; now left|].
    assert (Hstep : group_step rm m
            = rm ++ [(PStr (uuid4 0%nat), summary_of file uuid4 utcnow 1)]).
    { unfold group_step. rewrite Hd, Hr, Hf, Hu. cbn [truthy].
      destruct (String.eqb_spec (uuid4 0%nat) ""); [contradiction|].
      cbn [negb]. rewrite Hk. cbn [negb]. now rewrite bump_last. }
    rewrite Hstep.
    rewrite (group_more file uuid4 utcnow chunks news rm 1);
      [|intros m' Hm'; rewrite E; now right | exact Hne | exact Hk].
    replace (1 + Z.of_nat (length news)) with (Z.of_nat (length chunks))
      by (rewrite <- Hlen; cbn [length]; lia).
    reflexivity.
Qed.

Lemma filter_none {A : Type} (f : A -> bool) (l : list A) :
  forallb (fun x => negb (f x)) l = true -> List.filter f l = [].
Proof.
  induction l as [|x l IH]; [reflexivity|].
  cbn [forallb List.filter]. intros [Hx Hl]%andb_true_iff.
  apply negb_true_iff in Hx. rewrite Hx. now apply IH.
Qed.

Lemma filter_all {A : Type} (f : A -> bool) (l : list A) :
  (forall x, In x l -> f x = true) -> List.filter f l = l.
Proof.
  induction l as [|x l IH]; [reflexivity|].
  intros Hall. cbn [List.filter]. rewrite (Hall x) by now left.
  rewrite IH; [reflexivity|]. intros y Hy. apply Hall. now right.
Qed.

(** An id that no entry carries has no chunk and no summary. *)
Lemma unused_chunks (rid : string) (metas : list (gmap string pyval)) :
  forallb (fun m => negb (py_eq (rid_of m) (PStr rid))) metas = true ->
  chunks_of (PStr rid) metas = [].
Proof.
  intros Hu. unfold chunks_of. apply filter_none.
  rewrite forallb_forall in Hu |- *. intros m Hm.
  specialize (Hu m Hm). apply negb_true_iff in Hu. rewrite Hu.
  now rewrite andb_false_r.
Qed.

Lemma unused_matches (rid : string) (metas : list (gmap string pyval)) :
  forallb (fun m => negb (py_eq (rid_of m) (PStr rid))) metas = true ->
  List.filter (matches rid) metas = [].
Proof.
  intros Hu. apply filter_none.
  rewrite forallb_forall in Hu |- *. intros m Hm.
  specialize (Hu m Hm). apply negb_true_iff in Hu.
  unfold matches. unfold rid_of in Hu. now rewrite Hu.
Qed.

Lemma unused_key (rid : string) (metas : list (gmap string pyval)) :
  forallb (fun m => negb (py_eq (rid_of m) (PStr rid))) metas = true ->
  has_key (PStr rid) (fold_left group_step metas []) = false.
Proof.
  intros Hu. destruct (has_key _ _) eqn:Hk; [|reflexivity].
  destruct (group_loop_inv metas) as (Hent & _ & _).
  apply existsb_exists in Hk as (e & He & Hm).
  apply py_eq_str in Hm. rewrite List.Forall_forall in Hent.
  destruct (Hent e He) as [Hid (_ & first & rest & Hc & _)].
  rewrite <- Hid, Hm, (unused_chunks rid metas Hu) in Hc. discriminate.
Qed.

Lemma map_imap {A B C : Type} (g : B -> C) (f : nat -> A -> B) (l : list A) :
  map g (imap f l) = imap (fun i x => g (f i x)) l.
Proof.
  revert f. induction l as [|x l IH]; intros f; [reflexivity|].
  cbn [imap map]. now rewrite IH.
Qed.

Lemma written_views (file : UploadService.UploadFile) (uuid4 : nat -> string)
    (utcnow : string) (chunks : list Chunk.t) :
  map chunk_data_of (written file uuid4 utcnow chunks)
  = chunk_views uuid4 chunks.
Proof.
  unfold written, chunk_views. rewrite map_imap. apply imap_ext.
  intros i chunk _. unfold chunk_data_of, dict_get.
  destruct (metadata_of_fields (uuid4 (S i)) (uuid4 0%nat)
              (UploadService.filename file) utcnow chunk)
    as (Hc & _ & _ & Hp & Ht & _).
  now rewrite Hc, Hp, Ht.
Qed.

Lemma written_chunks (file : UploadService.UploadFile) (uuid4 : nat -> string)
    (utcnow : string) (chunks : list Chunk.t) :
  chunks_of (PStr (uuid4 0%nat)) (written file uuid4 utcnow chunks)
  = written file uuid4 utcnow chunks.
Proof.
  unfold chunks_of. apply filter_all. intros m Hm.
  apply written_seen in Hm as (Hd & Hr & _).
  unfold live, rid_of. rewrite Hd, Hr. cbn [negb andb py_eq].
  apply String.eqb_refl.
Qed.

(** X21.  An accepted file whose document has a chunk, uploaded under an
    id that is not empty and that no entry carries, into a store whose
    index has the dimension of the embeddings: [process_upload] answers
    with that id, the client's file name and the number of chunks; the
    listing is the listing of before followed by one summary, with that
    id, name and number and the time of the upload; the chunks of the id
    are the chunks of the document in their order, each with the
    identifier drawn for it, its text and its page; the total grows by
    the number of chunks; the file is in the upload directory; and the
    index files hold the new store. *)
Theorem upload_then_listed (file : UploadService.UploadFile)
    (uuid4 : nat -> string) (utcnow : string) (w : ResourceService.world)
    (pages : list PageContent.t) :
  accepted file ->
  process_document (saved_as file uuid4) (UploadService.file file)
  = Ok pages ->
  Chunker.chunk_document pages (uuid4 0%nat) (UploadService.filename file)
  <> [] ->
  encode_dim = Faiss.d (index (ResourceService.vector_store w)) ->
  uuid4 0%nat <> "" ->
  unused_id (uuid4 0%nat) w = true ->
  let chunks := Chunker.chunk_document pages (uuid4 0%nat)
                  (UploadService.filename file) in
  let n := Z.of_nat (length chunks) in
  exists w',
    UploadService.process_upload file uuid4 utcnow w
    = (Ok {| UploadResponse.resource_id := uuid4 0%nat;
             UploadResponse.filename := UploadService.filename file;
             UploadResponse.num_chunks := n;
             UploadResponse.status := "success" |}, w')
    /\ get_all_resources (ResourceService.vector_store w')
       = get_all_resources (ResourceService.vector_store w)
         ++ [summary_of file uuid4 utcnow n]
    /\ get_chunks_by_resource (uuid4 0%nat) (ResourceService.vector_store w')
       = chunk_views uuid4 chunks
    /\ get_total_documents (ResourceService.vector_store w')
       = get_total_documents (ResourceService.vector_store w) + n
    /\ ResourceService.uploads w'
       = <[saved_as file uuid4 := true]> (ResourceService.uploads w)
    /\ ResourceService.index_files w'
       = save (ResourceService.vector_store w')
              (ResourceService.index_files w).
Proof.
  intros Ha Hp Hc Hd Hne Hu. cbn zeta.
  apply andb_true_iff in Hu as [Hu _].
  rewrite process_upload_accepted by exact Ha.
  rewrite (index_file_success file _ uuid4 utcnow _ _ pages Hp Hc Hd).
  eexists. split; [reflexivity|].
  cbn [ResourceService.vector_store ResourceService.index_files
       ResourceService.uploads].
  split; [|split; [|split; [|split]]]; try reflexivity.
  - unfold get_all_resources. cbn [metadata_store].
    rewrite fold_left_app, group_written;
      [|exact Hc | exact Hne | now apply unused_key].
    now rewrite map_app.
  - rewrite get_chunks_eq. cbn [metadata_store].
    unfold chunks_of. rewrite List.filter_app.
    fold (chunks_of (PStr (uuid4 0%nat))
            (metadata_store (ResourceService.vector_store w))).
    fold (chunks_of (PStr (uuid4 0%nat))
            (written file uuid4 utcnow
               (Chunker.chunk_document pages (uuid4 0%nat)
                  (UploadService.filename file)))).
    rewrite (unused_chunks _ _ Hu), written_chunks. cbn [app].
    apply written_views.
  - unfold get_total_documents, Faiss.ntotal. cbn [index Faiss.xb].
    rewrite length_app, !length_map. lia.
Qed.

Lemma append_inj (a x y : string) : a +:+ x = a +:+ y -> x = y.
Proof.
  induction a as [|c a IH]; [easy|].
  change (String c (a +:+ x) = String c (a +:+ y) -> x = y).
  intros [= E]. now apply IH.
Qed.

Lemma others_all (r : string) (rm : list (pyval * resource_summary)) :
  has_key (PStr r) rm = false -> List.filter (other_entry r) rm = rm.
Proof.
  unfold has_key. intros Hk. apply filter_all. intros e He.
  unfold other_entry. apply negb_true_iff.
  destruct (py_eq e.1 (PStr r)) eqn:E; [|reflexivity].
  assert (existsb (fun e => py_eq e.1 (PStr r)) rm = true)
    by (apply existsb_exists; eauto).
  congruence.
Qed.

Lemma written_matches (file : UploadService.UploadFile)
    (uuid4 : nat -> string) (utcnow : string) (chunks : list Chunk.t) :
  List.filter (matches (uuid4 0%nat)) (written file uuid4 utcnow chunks)
  = written file uuid4 utcnow chunks.
Proof.
  apply filter_all. intros m Hm.
  apply written_seen in Hm as (Hd & Hr & _).
  unfold matches. rewrite Hd, Hr. cbn [negb andb py_eq].
  now rewrite String.eqb_refl.
Qed.

(** The file [delete_resource] removes after an upload saved under the
    suffix [suffix]: the saved one when the suffix reads [.pdf] or
    [.docx] as it stands, none otherwise. *)
Lemma unlink_saved (rid suffix : string) (uploads : gmap string bool) :
  uploads !! (rid +:+ ".pdf") = None ->
  uploads !! (rid +:+ ".docx") = None ->
  ResourceService.unlink_first [rid +:+ ".pdf"; rid +:+ ".docx"]
    (<[rid +:+ suffix := true]> uploads)
  = Ok (if existsb (String.eqb suffix) [".pdf"; ".docx"]
        then uploads else <[rid +:+ suffix := true]> uploads).
Proof.
  intros Hpdf Hdocx. cbn [ResourceService.unlink_first existsb].
  destruct (String.eqb_spec suffix ".pdf") as [->|Hn1].
  - rewrite lookup_insert_eq. cbn [orb].
    now rewrite delete_insert_eq, delete_id.
  - rewrite lookup_insert_ne, Hpdf
      by (intros E; apply append_inj in E; congruence).
    destruct (String.eqb_spec suffix ".docx") as [->|Hn2].
    + rewrite lookup_insert_eq. cbn [orb].
      now rewrite delete_insert_eq, delete_id.
    + rewrite lookup_insert_ne, Hdocx
        by (intros E; apply append_inj in E; congruence).
      reflexivity.
Qed.

(** X22.  Deleting a resource right after its upload: [delete_resource]
    returns the number of chunks the upload reported; the listing is the
    listing of before the upload and the id has no chunks; and the saved
    file is removed exactly when the suffix of the client's file name
    reads [.pdf] or [.docx] as it stands: under a suffix that is accepted
    in another spelling, such as [.PDF], the file stays in the upload
    directory, whose names are matched letter for letter. *)
Theorem delete_after_upload (file : UploadService.UploadFile)
    (uuid4 : nat -> string) (utcnow : string) (w : ResourceService.world)
    (pages : list PageContent.t) :
  accepted file ->
  process_document (saved_as file uuid4) (UploadService.file file)
  = Ok pages ->
  Chunker.chunk_document pages (uuid4 0%nat) (UploadService.filename file)
  <> [] ->
  encode_dim = Faiss.d (index (ResourceService.vector_store w)) ->
  uuid4 0%nat <> "" ->
  unused_id (uuid4 0%nat) w = true ->
  ResourceService.uploads w !! (uuid4 0%nat +:+ ".pdf") = None ->
  ResourceService.uploads w !! (uuid4 0%nat +:+ ".docx") = None ->
  let chunks := Chunker.chunk_document pages (uuid4 0%nat)
                  (UploadService.filename file) in
  let w' := (UploadService.process_upload file uuid4 utcnow w).2 in
  exists w'',
    ResourceService.delete_resource (uuid4 0%nat) w'
    = (Ok (Z.of_nat (length chunks)), w'')
    /\ get_all_resources (ResourceService.vector_store w'')
       = get_all_resources (ResourceService.vector_store w)
    /\ get_chunks_by_resource (uuid4 0%nat) (ResourceService.vector_store w'')
       = []
    /\ ResourceService.uploads w''
       = if existsb (String.eqb (path_suffix (UploadService.filename file)))
                    [".pdf"; ".docx"]
         then ResourceService.uploads w
         else <[saved_as file uuid4 := true]> (ResourceService.uploads w).
Proof.
  intros Ha Hp Hc Hd Hne Hu Hpdf Hdocx. cbn zeta.
  apply andb_true_iff in Hu as [Hu _].
  rewrite process_upload_accepted by exact Ha.
  rewrite (index_file_success file _ uuid4 utcnow _ _ pages Hp Hc Hd).
  cbn [snd]. unfold ResourceService.delete_resource.
  cbn [ResourceService.vector_store ResourceService.index_files
       ResourceService.uploads].
  rewrite delete_resource_eq. cbn zeta. cbn [metadata_store].
  set (chunks := Chunker.chunk_document pages (uuid4 0%nat)
                   (UploadService.filename file)) in *.
  set (old := metadata_store (ResourceService.vector_store w)) in *.
  assert (Hn : Z.of_nat (length (List.filter (matches (uuid4 0%nat))
                 (old ++ written file uuid4 utcnow chunks)))
               = Z.of_nat (length chunks)).
  { rewrite List.filter_app, (unused_matches _ _ Hu), written_matches.
    cbn [app]. unfold written. now rewrite length_imap. }
  rewrite Hn.
  assert (Hpos : 0 < Z.of_nat (length chunks))
    by (destruct chunks; [contradiction | cbn [length]; lia]).
  destruct (Z.eqb_spec (Z.of_nat (length chunks)) 0) as [?|_]; [lia|].
  unfold saved_as. rewrite unlink_saved by assumption.
  eexists. split; [reflexivity|].
  cbn [ResourceService.vector_store ResourceService.uploads].
  split; [|split; [|reflexivity]].
  - unfold get_all_resources. cbn [metadata_store].
    change (@nil (pyval * resource_summary))
      with (List.filter (other_entry (uuid4 0%nat)) []) at 1.
    rewrite group_loop_marked, fold_left_app.
    rewrite group_written; [|exact Hc | exact Hne | now apply unused_key].
    rewrite List.filter_app, (others_all _ _ (unused_key _ _ Hu)).
    cbn [List.filter]. unfold other_entry at 1. cbn [fst py_eq].
    rewrite String.eqb_refl. cbn [negb]. now rewrite app_nil_r.
  - rewrite get_chunks_eq. cbn [metadata_store].
    now rewrite chunks_of_marked_same.
Qed.
End UploadViews.

(** ** The entries of the states the services reach *)

Section ServedStore.
Context `{Kernels}.
Import VectorStore Claims Further.

Lemma add_documents_aligned (embeddings : Faiss.ndarray)
    (metadatas : list (gmap string pyval)) (self self' : t) :
  aligned self ->
  add_documents embeddings metadatas self = Ok self' ->
  aligned self'.
Proof.
  unfold add_documents, aligned. intros Hal.
  destruct (Z.eqb_spec (Z.of_nat (length (Faiss.rows embeddings)))
              (Z.of_nat (length metadatas))) as [Hlen|_];
    cbn [negb]; [|discriminate].
  unfold Faiss.add, Faiss.normalize_L2. cbn [Faiss.ncols Faiss.rows].
  destruct (Faiss.ncols embeddings =? Faiss.d (index self));
    cbn [bind]; [|discriminate].
  intros [= <-]. cbn [index metadata_store Faiss.xb].
  rewrite !length_app, length_map. lia.
Qed.

Lemma written_stored (file : UploadService.UploadFile)
    (uuid4 : nat -> string) (utcnow : string) (chunks : list Chunk.t) :
  Forall stored_chunk (written file uuid4 utcnow chunks).
Proof.
  apply List.Forall_forall. intros m Hm. apply list_elem_of_In in Hm.
  apply elem_of_lookup_imap in Hm as (i & chunk & -> & _).
  destruct (metadata_of_fields (uuid4 (S i)) (uuid4 0%nat)
              (UploadService.filename file) utcnow chunk)
    as (Hc & Hr & Hf & Hp & Ht & Hu & Hd).
  split; [|split; eauto]. unfold well_formed_chunk.
  now rewrite Hc, Hr, Hf, Hp, Ht.
Qed.

Lemma marked_stored (r : string) (m : gmap string pyval) :
  stored_chunk m -> stored_chunk (marked r m).
Proof.
  intros (Hwf & Hu & Hd). split; [|split].
  - unfold well_formed_chunk in *.
    now rewrite !marked_lookup by discriminate.
  - now rewrite marked_lookup by discriminate.
  - unfold marked. destruct (matches r m); [|exact Hd].
    exists true. now rewrite lookup_insert_eq.
Qed.

(** X23.  In every state the services reach, the index holds one vector
    per metadata entry, and every entry has the fields of a chunk with
    their types (chunk id, resource id, file name and text as strings,
    page number as an int), an upload time that is a string and a
    [deleted] flag that is a bool. *)
Theorem served_store_well_formed (w : ResourceService.world) :
  served w ->
  aligned (ResourceService.vector_store w)
  /\ Forall stored_chunk (metadata_store (ResourceService.vector_store w)).
Proof.
  induction 1 as [dimension store uploads Hi
                 | w file uuid4 utcnow Hs [Hal Hwf] Hne Hnew
                 | w r Hs [Hal Hwf]
                 | w dimension store Hs [Hal Hwf] Hi].
  - unfold init, load in Hi. cbn in Hi. injection Hi as <-.
    split; [reflexivity | constructor].
  - destruct (accepted_or_not file) as [Ha|Hno].
    + rewrite process_upload_accepted by exact Ha.
      destruct (UploadService.index_file _ _ _ _ _ _)
        as [[[response store] files]|e] eqn:E; [|now split].
      apply index_file_ok in E as (pages & _ & _ & Hadd & _).
      cbn [snd ResourceService.vector_store]. split.
      * now apply (add_documents_aligned _ _ _ _ Hal Hadd).
      * rewrite (add_documents_ok _ _ _ _ Hadd).
        apply Forall_app. split; [exact Hwf | apply written_stored].
    + destruct (process_upload_refused file uuid4 utcnow w Hno) as [msg ->].
      now split.
  - unfold ResourceService.delete_resource.
    rewrite delete_resource_eq. cbn zeta.
    assert (Hal' : aligned
              {| dimension := dimension (ResourceService.vector_store w);
                 index := index (ResourceService.vector_store w);
                 metadata_store := map (marked r)
                   (metadata_store (ResourceService.vector_store w)) |})
      by (unfold aligned in *; cbn [index metadata_store];
          now rewrite length_map).
    assert (Hwf' : Forall stored_chunk
              (map (marked r)
                 (metadata_store (ResourceService.vector_store w)))).
    { apply Forall_map. eapply Forall_impl; [exact Hwf|].
      intros m. apply marked_stored. }
    destruct (_ =? 0); [now split|].
    destruct (ResourceService.unlink_first _ _); now split.
  - cbn [ResourceService.vector_store].
    pose proof (served_in_sync w Hs) as [[E1 E2]|E];
      unfold init, load in Hi.
    + rewrite E1 in Hi. cbn in Hi. injection Hi as <-.
      split; [reflexivity | constructor].
    + rewrite E in Hi. cbn in Hi. injection Hi as <-. now split.
Qed.
End ServedStore.

(** ** The properties of uploads on the concrete corpus *)

#[local] Existing Instance Scenario.kernels.

Lemma report_accepted : Further.accepted Scenario.report_file.
Proof. split; [left; reflexivity | vm_compute; discriminate]. Qed.

Lemma notes_accepted : Further.accepted Scenario.notes_file.
Proof. split; [right; reflexivity | vm_compute; discriminate]. Qed.


Lemma restart_reproduces_store_witness :
  VectorStore.init
    (VectorStore.dimension (ResourceService.vector_store Scenario.one_left))
    (ResourceService.index_files Scenario.one_left)
  = Ok (ResourceService.vector_store Scenario.one_left).
Proof.
  exact (restart_reproduces_store Scenario.one_left one_left_served).
Defined.

Lemma served_store_well_formed_witness :
  Claims.aligned (ResourceService.vector_store Scenario.one_left).
Proof.
  destruct (served_store_well_formed Scenario.one_left one_left_served)
    as [Hal _].
  exact Hal.
Defined.



Lemma upload_then_listed_witness :
  exists w',
    UploadService.process_upload Scenario.notes_file (Scenario.draws "B")
      "2024-05-03T09:00:00" Scenario.one_upload
    = (Ok {| UploadResponse.resource_id := "B0";
             UploadResponse.filename := "notes.DOCX";
             UploadResponse.num_chunks := 1;
             UploadResponse.status := "success" |}, w')
    /\ VectorStore.get_total_documents (ResourceService.vector_store w')
       = VectorStore.get_total_documents
           (ResourceService.vector_store Scenario.one_upload) + 1.
Proof.
  destruct (upload_then_listed Scenario.notes_file (Scenario.draws "B")
              "2024-05-03T09:00:00" Scenario.one_upload
              [{| PageContent.text := "delta"; PageContent.page_num := 1 |}]
              notes_accepted)
    as (w' & Hr & _ & _ & Ht & _);
    [reflexivity | vm_compute; discriminate | vm_compute; reflexivity
    | vm_compute; discriminate | vm_compute; reflexivity |].
  exists w'. split; [exact Hr | exact Ht].
Defined.

Lemma delete_after_upload_witness :
  exists w'',
    ResourceService.delete_resource "B0" Scenario.two_uploads
    = (Ok 1, w'')
    /\ ResourceService.uploads w''
       = <["B0.DOCX" := true]> (ResourceService.uploads Scenario.one_upload).
Proof.
  destruct (delete_after_upload Scenario.notes_file (Scenario.draws "B")
              "2024-05-03T09:00:00" Scenario.one_upload
              [{| PageContent.text := "delta"; PageContent.page_num := 1 |}]
              notes_accepted)
    as (w'' & Hr & _ & _ & Hu);
    [reflexivity | vm_compute; discriminate | vm_compute; reflexivity
    | vm_compute; discriminate | vm_compute; reflexivity
    | vm_compute; reflexivity | vm_compute; reflexivity |].
  exists w''. split; [exact Hr | exact Hu].
Defined.

Lemma chunk_document_chunks_witness :
  Chunker.chunk_document (H := Scenario.kernels)
    [{| PageContent.text := " "; PageContent.page_num := 1 |}] "A0" "a.pdf"
  = [].
Proof.
  destruct (chunk_document_chunks (H := Scenario.kernels)
              [{| PageContent.text := " "; PageContent.page_num := 1 |}]
              "A0" "a.pdf") as (_ & _ & Hblank).
  apply Hblank. repeat constructor.
Defined.
